(** * Html-Pro: the schema-normalisation and report-compilation pipeline of app.py

    A shallow embedding of [detect_schema_version], [get_monthly_high],
    [get_monthly_low], [get_integrity_max_points] and of the blocks of
    [generate_interactive_html] that resolve fields, derive defaults and fill
    the slots of the report template.

    The file-name helpers [_slugify] and [_report_basename] are embedded as
    well.

    Documents are the values [json.loads] produces.  Every Python operation
    that can raise is a function into [result]; the blocks of
    [generate_interactive_html] are sequenced in the order of the source. *)

From Stdlib Require Import ZArith QArith String Ascii List Bool Lia.
From Stdlib Require Import DecimalString.
Import ListNotations.

Local Open Scope string_scope.
Local Open Scope list_scope.
Local Open Scope Z_scope.

(** ** Documents *)

(** A value of [json.loads]: [None], [bool], [int], [float], [str], [list],
    [dict].  A [str] is held as its UTF-8 bytes.  A [float] is held as the
    exact rational value of the binary64 (negative zero, NaN and the
    infinities are not represented).  A [dict] is an association list in
    insertion order; lookups take the first binding of a key. *)
#[local] Unset Elimination Schemes.
Inductive json : Type :=
| JNull
| JBool (b : bool)
| JInt (z : Z)
| JFloat (q : Q)
| JStr (s : string)
| JList (l : list json)
| JDict (d : list (string * json)).
#[local] Set Elimination Schemes.

(** ** Exceptions *)

Inductive pyerr : Type :=
| AttributeError | TypeError | KeyError | IndexError | ValueError | OverflowError.

Inductive result (A : Type) : Type :=
| Ok (a : A)
| Raise (e : pyerr).
Arguments Ok {A} a.
Arguments Raise {A} e.

Definition bind {A B : Type} (m : result A) (k : A -> result B) : result B :=
  match m with
  | Ok a => k a
  | Raise e => Raise e
  end.

Notation "x <- m ;; k" := (bind m (fun x => k))
  (at level 61, m at next level, right associativity).
Notation "' p <- m ;; k" := (bind m (fun x => match x with p => k end))
  (at level 61, p pattern, m at next level, right associativity).

(** [for x in xs: acc = body(acc, x)], stopping at the first exception. *)
Fixpoint for_each {A B : Type} (body : B -> A -> result B) (xs : list A) (acc : B)
  : result B :=
  match xs with
  | [] => Ok acc
  | x :: xs' => acc' <- body acc x ;; for_each body xs' acc'
  end.

(** ** Strings *)

Definition dquote : ascii := "034"%char.

(** Template text is written with a backtick wherever the source has a
    double quote; [qq] puts the double quotes back. *)
Fixpoint qq (s : string) : string :=
  match s with
  | EmptyString => EmptyString
  | String c s' => String (if Ascii.eqb c "`"%char then dquote else c) (qq s')
  end.

(** [sep.join(xs)] *)
Fixpoint join (sep : string) (xs : list string) : string :=
  match xs with
  | [] => ""
  | [x] => x
  | x :: xs' => x ++ sep ++ join sep xs'
  end.

(** [needle in hay] on two [str]. *)
Fixpoint is_substring (needle hay : string) : bool :=
  prefix needle hay ||
  match hay with
  | EmptyString => false
  | String _ hay' => is_substring needle hay'
  end.

(** A byte of the form 10xxxxxx continues a UTF-8 character. *)
Definition is_continuation (c : ascii) : bool :=
  let n := nat_of_ascii c in (128 <=? n)%nat && (n <? 192)%nat.

(** The characters (code points) of a [str], each as a one-character [str]. *)
Fixpoint utf8_chars (s : string) : list string :=
  match s with
  | EmptyString => []
  | String c s' =>
      match s' with
      | String c' _ =>
          if is_continuation c' then
            match utf8_chars s' with
            | g :: gs => String c g :: gs
            | [] => [String c EmptyString]
            end
          else String c EmptyString :: utf8_chars s'
      | EmptyString => [String c EmptyString]
      end
  end.

(** [str(n)] for an [int]. *)
Definition str_of_Z (z : Z) : string := NilZero.string_of_int (Z.to_int z).

(** ** The operations of the interpreter that the code uses *)

Fixpoint dict_lookup (k : string) (d : list (string * json)) : option json :=
  match d with
  | [] => None
  | (k', v) :: d' => if String.eqb k k' then Some v else dict_lookup k d'
  end.

(** [d[k] = v]: replaces the binding in place or appends a new one. *)
Fixpoint dict_set (k : string) (v : json) (d : list (string * json))
  : list (string * json) :=
  match d with
  | [] => [(k, v)]
  | (k', v') :: d' =>
      if String.eqb k k' then (k, v) :: d' else (k', v') :: dict_set k v d'
  end.

Definition has_key (k : string) (d : list (string * json)) : bool :=
  match dict_lookup k d with Some _ => true | None => false end.

(** [o.get(k, dflt)] where [dflt] is itself an expression: the attribute
    [get] is looked up on [o] first, then the default is evaluated, then the
    key is looked up. *)
Definition py_get_with (o : json) (k : string) (dflt : result json) : result json :=
  match o with
  | JDict d =>
      v <- dflt ;;
      Ok (match dict_lookup k d with Some x => x | None => v end)
  | _ => Raise AttributeError
  end.

(** [o.get(k, dflt)] *)
Definition py_get (o : json) (k : string) (dflt : json) : result json :=
  py_get_with o k (Ok dflt).

(** [bool(v)] *)
Definition truthy (v : json) : bool :=
  match v with
  | JNull => false
  | JBool b => b
  | JInt z => negb (Z.eqb z 0)
  | JFloat q => negb (Qeq_bool q 0)
  | JStr s => negb (String.eqb s "")
  | JList l => match l with [] => false | _ => true end
  | JDict d => match d with [] => false | _ => true end
  end.

(** [v.startswith(p)] *)
Definition py_startswith (v : json) (p : string) : result bool :=
  match v with
  | JStr s => Ok (prefix p s)
  | _ => Raise AttributeError
  end.

(** [v[i]] for an index [i >= 0]; the keys of a document's [dict] are all
    [str], so an [int] subscript of a [dict] is a [KeyError]. *)
Definition py_item (v : json) (i : nat) : result json :=
  match v with
  | JList l => match nth_error l i with Some x => Ok x | None => Raise IndexError end
  | JStr s =>
      match nth_error (utf8_chars s) i with
      | Some c => Ok (JStr c)
      | None => Raise IndexError
      end
  | JDict _ => Raise KeyError
  | _ => Raise TypeError
  end.

(** [v == s] for a [str] constant [s]. *)
Definition py_eq_str (v : json) (s : string) : bool :=
  match v with
  | JStr s' => String.eqb s' s
  | _ => false
  end.

(** [s in v] for a [str] constant [s]. *)
Definition py_contains_str (s : string) (v : json) : result bool :=
  match v with
  | JDict d => Ok (has_key s d)
  | JStr t => Ok (is_substring s t)
  | JList l => Ok (existsb (fun x => py_eq_str x s) l)
  | _ => Raise TypeError
  end.

(** ** Schema version classifier (app.py, lines 20-33) *)

Definition detect_schema_version (data : json) : result string :=
  report_info <- py_get data "report_info" (JDict []) ;;
  schema_version <- py_get report_info "schema_version" (JStr "") ;;
  is_v5 <- py_startswith schema_version "5." ;;
  if is_v5 then Ok "5.0" else
  recurring <- py_get data "recurring_payments" JNull ;;
  signal <- (if truthy recurring then Ok recurring
             else py_get data "non_bank_financing" JNull) ;;
  if truthy signal then Ok "5.0" else
  accounts <- py_get data "accounts" (JList []) ;;
  if truthy accounts then
    first_account <- py_item accounts 0 ;;
    monthly <- py_get first_account "monthly_summary" (JList []) ;;
    if truthy monthly then
      first_month <- py_item monthly 0 ;;
      intraday <- py_contains_str "highest_intraday" first_month ;;
      if intraday then Ok "5.0" else Ok "4.0"
    else Ok "4.0"
  else Ok "4.0".

(** ** Field resolvers (app.py, lines 35-49) *)

Definition get_monthly_high (m : json) (schema_version : string) : result json :=
  if String.eqb schema_version "5.0" then
    py_get_with m "highest_intraday" (py_get m "highest" (JInt 0))
  else
    py_get_with m "highest" (py_get m "highest_intraday" (JInt 0)).

Definition get_monthly_low (m : json) (schema_version : string) : result json :=
  if String.eqb schema_version "5.0" then
    py_get_with m "lowest_intraday" (py_get m "lowest" (JInt 0))
  else
    py_get_with m "lowest" (py_get m "lowest_intraday" (JInt 0)).

Definition get_integrity_max_points (schema_version : string) : Z :=
  if String.eqb schema_version "5.0" then 23 else 25.

(** ** More of the interpreter: iteration, length, comparison, formatting *)

(** The values [for x in v] runs over. *)
Definition py_iter (v : json) : result (list json) :=
  match v with
  | JList l => Ok l
  | JStr s => Ok (map JStr (utf8_chars s))
  | JDict d => Ok (map (fun kv => JStr (fst kv)) d)
  | _ => Raise TypeError
  end.

(** [len(v)] *)
Definition py_len (v : json) : result Z :=
  match v with
  | JList l => Ok (Z.of_nat (length l))
  | JStr s => Ok (Z.of_nat (length (utf8_chars s)))
  | JDict d => Ok (Z.of_nat (length d))
  | _ => Raise TypeError
  end.

(** The numeric value of a [bool], [int] or [float]. *)
Definition num_value (v : json) : option Q :=
  match v with
  | JBool b => Some (inject_Z (if b then 1 else 0))
  | JInt z => Some (inject_Z z)
  | JFloat q => Some q
  | _ => None
  end.

(** [v > n] for an [int] constant [n]. *)
Definition py_gt_int (v : json) (n : Z) : result bool :=
  match num_value v with
  | Some q => Ok (negb (Qle_bool q (inject_Z n)))
  | None => Raise TypeError
  end.

(** [a == b] on hashable values: numbers compare by value across [bool],
    [int] and [float]. *)
Definition py_eq_scalar (a b : json) : bool :=
  match a, b with
  | JNull, JNull => true
  | JStr s, JStr t => String.eqb s t
  | _, _ =>
      match num_value a, num_value b with
      | Some x, Some y => Qeq_bool x y
      | _, _ => false
      end
  end.

Definition py_hashable (v : json) : bool :=
  match v with
  | JList _ | JDict _ => false
  | _ => true
  end.

(** [v in seen] for a [set] held as the list of its elements. *)
Definition py_in_set (v : json) (seen : list json) : result bool :=
  if py_hashable v then Ok (existsb (py_eq_scalar v) seen) else Raise TypeError.

(** [lst.append(x)]: the attribute is looked up before the argument is
    evaluated. *)
Definition py_append (lst : json) (arg : result json) : result json :=
  match lst with
  | JList l => x <- arg ;; Ok (JList (l ++ [x]))
  | _ => Raise AttributeError
  end.

(** [num / den] rounded to the nearest integer, ties to even ([den > 0]). *)
Definition round_half_even (num den : Z) : Z :=
  let fl := num / den in
  let r := num mod den in
  if 2 * r <? den then fl
  else if den <? 2 * r then fl + 1
  else if Z.even fl then fl else fl + 1.

(** [float(z)]: the nearest binary64, ties to even; [None] is
    [OverflowError]. *)
Definition float_of_int (z : Z) : option Z :=
  let a := Z.abs z in
  let shift := Z.log2 a - 52 in
  if shift <=? 0 then Some z
  else
    let v := round_half_even a (2 ^ shift) * 2 ^ shift in
    if 2 ^ 1024 <=? v then None else Some (Z.sgn z * v).

(** [f"{v:.0f}"] *)
Definition format_0f (v : json) : result string :=
  match v with
  | JBool b => Ok (if b then "1" else "0")
  | JInt z =>
      match float_of_int z with
      | Some x => Ok (str_of_Z x)
      | None => Raise OverflowError
      end
  | JFloat q =>
      let n := round_half_even (Qnum q) (Zpos (Qden q)) in
      Ok (if (Qnum q <? 0) && (n =? 0) then "-0" else str_of_Z n)
  | JStr _ => Raise ValueError
  | _ => Raise TypeError
  end.

(** *** [json.dumps] *)

Definition hex_digit (n : Z) : string :=
  match nth_error (list_ascii_of_string "0123456789abcdef") (Z.to_nat n) with
  | Some c => String c EmptyString
  | None => "?"
  end.

(** [format(n, "04x")] for [0 <= n < 65536]. *)
Definition hex4 (n : Z) : string :=
  hex_digit (n / 4096 mod 16) ++ hex_digit (n / 256 mod 16)
  ++ hex_digit (n / 16 mod 16) ++ hex_digit (n mod 16).

Definition byte_at (s : string) (i : nat) : Z :=
  match String.get i s with
  | Some c => Z.of_nat (nat_of_ascii c)
  | None => 0
  end.

(** [ord(c)] for a one-character [str] held as 1 to 4 UTF-8 bytes. *)
Definition code_point (c : string) : Z :=
  let b0 := byte_at c 0 in
  let b1 := byte_at c 1 mod 64 in
  let b2 := byte_at c 2 mod 64 in
  let b3 := byte_at c 3 mod 64 in
  match String.length c with
  | 2%nat => b0 mod 32 * 64 + b1
  | 3%nat => b0 mod 16 * 4096 + b1 * 64 + b2
  | 4%nat => b0 mod 8 * 262144 + b1 * 4096 + b2 * 64 + b3
  | _ => b0
  end.

(** What [json.dumps] (with [ensure_ascii]) writes for one character. *)
Definition json_escape_char (c : string) : string :=
  let n := code_point c in
  if n =? 34 then String "\"%char (String dquote EmptyString)
  else if n =? 92 then "\\"
  else if n =? 8 then "\b"
  else if n =? 12 then "\f"
  else if n =? 10 then "\n"
  else if n =? 13 then "\r"
  else if n =? 9 then "\t"
  else if (32 <=? n) && (n <=? 126) then String (ascii_of_nat (Z.to_nat n)) EmptyString
  else if n <? 65536 then "\u" ++ hex4 n
  else "\u" ++ hex4 (55296 + (n - 65536) / 1024)
       ++ "\u" ++ hex4 (56320 + (n - 65536) mod 1024).

Definition json_string (s : string) : string :=
  String dquote (String.concat "" (map json_escape_char (utf8_chars s)))
  ++ String dquote EmptyString.

Section Report.

(** [repr(v)] of the interpreter, used for [str(v)] of a [float], a [list]
    or a [dict]; its digits and quoting are left to the interpreter. *)
Variable py_repr : json -> string.

(** [str(v)], what an f-string field [{v}] writes. *)
Definition py_str (v : json) : string :=
  match v with
  | JStr s => s
  | JInt z => str_of_Z z
  | JBool true => "True"
  | JBool false => "False"
  | JNull => "None"
  | _ => py_repr v
  end.

(** [json.dumps(v)] with the default separators. *)
Fixpoint json_dumps (v : json) : string :=
  match v with
  | JNull => "null"
  | JBool true => "true"
  | JBool false => "false"
  | JInt z => str_of_Z z
  | JFloat q => py_repr (JFloat q)
  | JStr s => json_string s
  | JList l => "[" ++ join ", " (map json_dumps l) ++ "]"
  | JDict d =>
      "{" ++ join ", " (map (fun kv => match kv with
                                       | (k, x) => (json_string k ++ ": " ++ json_dumps x)%string
                                       end) d) ++ "}"
  end.

Local Infix "+++" := String.append (right associativity, at level 60).

(** ** The blocks of [generate_interactive_html] (app.py, lines 51-1195) *)

Definition lookup_or (k : string) (d : list (string * json)) (dflt : json) : json :=
  match dict_lookup k d with Some v => v | None => dflt end.

(** A variable bound by [data.get(k, fresh)] names the object stored in the
    document when the key is there, and a fresh object otherwise: an update
    made through the variable reaches the document only in the first case. *)
Definition store_back (data : json) (k : string) (v : json) : json :=
  match data with
  | JDict d => if has_key k d then JDict (dict_set k v d) else data
  | _ => data
  end.

(** *** Lines 63-91: round-figure items under [flagged_for_review] *)

Definition convert_review_item (t : json) : list json :=
  match t with
  | JDict d =>
      [JDict [("date", lookup_or "date" d (JStr ""));
              ("description", lookup_or "description" d (JStr ""));
              ("type", lookup_or "type" d (JStr "CREDIT"));
              ("amount", lookup_or "amount" d (JInt 0));
              ("account", lookup_or "account" d (JStr ""));
              ("counterparty", lookup_or "counterparty" d (JStr ""));
              ("flag_reason", lookup_or "flag_reason" d (JStr ""))]]
  | _ => []
  end.

(** Returns the value of [flags] after the block, and whether line 85
    assigned into the object [flags] named when the block began (and not
    into the fresh [{}] of line 67). *)
Definition fold_flagged_for_review (flags flagged_for_review : json) : json * bool :=
  match flagged_for_review with
  | JDict review =>
      if negb (truthy flagged_for_review) then (flags, false) else
      let own := match flags with JDict _ => true | _ => false end in
      let fd := match flags with JDict fd => fd | _ => [] end in
      if truthy (lookup_or "round_figure_transactions" fd JNull) then (JDict fd, false)
      else
        let all_items := lookup_or "all_items" review JNull in
        let top_items := lookup_or "top_10_items" review JNull in
        let items := if truthy all_items then all_items
                     else if truthy top_items then top_items else JList [] in
        let items := match items with JList l => l | _ => [] end in
        let converted := flat_map convert_review_item items in
        let round_fig :=
          JDict [("count", lookup_or "count" review (JInt (Z.of_nat (length converted))));
                 ("total_amount", lookup_or "total_amount" review (JInt 0));
                 ("all_transactions", JList converted);
                 ("top_10_transactions", JList (firstn 10 converted));
                 ("note", lookup_or "note" review (JStr ""))] in
        (JDict (dict_set "round_figure_transactions" round_fig fd), own)
  | _ => (flags, false)
  end.

(** *** Lines 252-253: observations *)

Definition observation_items (obs : json) : result string :=
  l <- py_iter obs ;;
  Ok (String.concat ""
        (map (fun o => qq "<li class=`observation-item`>" +++ py_str o +++ "</li>") l)).

(** *** Lines 270-277: the round-figure array handed to the page script *)

Definition round_txn_entry (t : json) : result json :=
  date <- py_get t "date" (JStr "") ;;
  desc <- py_get t "description" (JStr "") ;;
  type <- py_get t "type" (JStr "CREDIT") ;;
  amount <- py_get t "amount" (JInt 0) ;;
  account <- py_get t "account" (JStr "") ;;
  Ok (JDict [("date", date); ("desc", desc); ("type", type);
             ("amount", amount); ("account", account)]).

Fixpoint map_result {A B : Type} (f : A -> result B) (xs : list A) : result (list B) :=
  match xs with
  | [] => Ok []
  | x :: xs' => y <- f x ;; ys <- map_result f xs' ;; Ok (y :: ys)
  end.

Definition round_txns_of (round_fig : json) : result json :=
  py_get_with round_fig "all_transactions"
    (py_get_with round_fig "top_10_transactions"
       (py_get round_fig "transactions" (JList []))).

Definition round_js_of (round_txns : json) : result string :=
  l <- py_iter round_txns ;;
  entries <- map_result round_txn_entry l ;;
  Ok (json_dumps (JList entries)).

(** *** Lines 287-320: kite-flying indicator rows *)

(** The three row templates of lines 296, 305 and 320 have the same text
    around their five fields. *)
Definition kite_row (ind cls status pts finding : string) : string :=
  "<tr><td>" +++ ind +++ qq "</td><td><span class=`volatility-badge volatility-"
  +++ cls +++ qq "`>" +++ status +++ qq "</span></td><td class=`mono text-right`>"
  +++ pts +++ "</td><td>" +++ finding +++ "</td></tr>".

Definition kite_status_class (status : json) : string :=
  if py_eq_str status "PASS" then "LOW"
  else if py_eq_str status "MONITOR" || py_eq_str status "WARNING" then "MODERATE"
  else "EXTREME".

(** Lines 294-296 *)
Definition kite_dict_row (i : json) : result string :=
  status <- py_get i "status" (JStr "PASS") ;;
  indicator <- py_get i "indicator" (JStr "") ;;
  points <- py_get i "points" (JInt 0) ;;
  finding <- py_get i "finding" (JStr "") ;;
  Ok (kite_row (py_str indicator) (kite_status_class status) (py_str status)
        (py_str points) (py_str finding)).

(** Lines 301-305 *)
Definition kite_str_row (kite_score detailed_findings : json) (idx : nat)
  (indicator_str : json) : result string :=
  n <- py_len detailed_findings ;;
  finding <- (if Z.of_nat idx <? n then py_item detailed_findings idx
              else Ok indicator_str) ;;
  positive <- py_gt_int kite_score 0 ;;
  let status := if positive then "WARNING" else "PASS" in
  let status_class := if String.eqb status "WARNING" then "MODERATE" else "LOW" in
  Ok (kite_row (py_str indicator_str) status_class status "-" (py_str finding)).

(** Lines 309-317 *)
Definition default_indicators (round_count : json)
  : result (list (string * string * Z * string)) :=
  many <- py_gt_int round_count 5 ;;
  Ok [("Circular Transfers", "PASS", 0, "No A→B→A patterns detected");
      ("Month-End Concentration", "PASS", 0, "Normal distribution");
      ("Round Amount Patterns", if many then "WARNING" else "PASS",
       if many then 2 else 0, py_str round_count +++ " round figure transactions");
      ("Timing Exploitation", "PASS", 0, "No suspicious timing patterns");
      ("Suspicious Balance Spikes", "PASS", 0, "Balance movements within normal range");
      ("Same Amount In/Out", "PASS", 0, "No matching in/out amounts detected");
      ("Vague Descriptions", "PASS", 0, "Transaction descriptions are clear")].

(** Lines 318-320 *)
Definition kite_default_row (d : string * string * Z * string) : string :=
  match d with
  | (ind, status, pts, finding) =>
      let status_class :=
        if String.eqb status "PASS" then "LOW"
        else if String.eqb status "WARNING" then "MODERATE" else "EXTREME" in
      kite_row ind status_class status (str_of_Z pts) finding
  end.

Definition enumerate {A : Type} (l : list A) : list (nat * A) :=
  combine (seq 0 (length l)) l.

Definition kite_rows_of (kite kite_score round_count : json) : result string :=
  kite_indicators <- py_get kite "indicators" (JList []) ;;
  first <- (if truthy kite_indicators
            then x <- py_item kite_indicators 0 ;; Ok (Some x)
            else Ok None) ;;
  kite_rows <-
    match first with
    | Some (JDict _) =>
        l <- py_iter kite_indicators ;;
        for_each (fun rows i => row <- kite_dict_row i ;; Ok (rows +++ row)) l ""
    | Some (JStr _) =>
        detailed_findings <- py_get kite "detailed_findings" (JList []) ;;
        l <- py_iter kite_indicators ;;
        for_each (fun rows ix =>
                    row <- kite_str_row kite_score detailed_findings (fst ix) (snd ix) ;;
                    Ok (rows +++ row)) (enumerate l) ""
    | _ => Ok ""
    end ;;
  if String.eqb kite_rows "" then
    defaults <- default_indicators round_count ;;
    Ok (String.concat "" (map kite_default_row defaults))
  else Ok kite_rows.

(** *** Lines 323-332: volatility alerts *)

(** Lines 327-331, one monthly entry [m] of account [a]. *)
Definition vol_alert_step (a : json) (vol_alerts m : json) : result json :=
  vl <- py_get m "volatility_level" (JStr "LOW") ;;
  vpct <- py_get m "volatility_pct" (JInt 0) ;;
  month_name <- py_get_with m "month_name" (py_get m "month" (JStr "")) ;;
  if py_eq_str vl "HIGH" || py_eq_str vl "EXTREME" then
    py_append vol_alerts
      (bank_name <- py_get a "bank_name" (JStr "") ;;
       pct <- format_0f vpct ;;
       Ok (JStr (py_str month_name +++ " (" +++ py_str bank_name +++ "): "
                 +++ pct +++ "% volatility - " +++ py_str vl)))
  else Ok vol_alerts.

Definition vol_alerts_of (volatility accounts : json) : result json :=
  vol_alerts <- py_get volatility "alerts" (JList []) ;;
  if truthy vol_alerts then Ok vol_alerts
  else
    accs <- py_iter accounts ;;
    for_each (fun alerts a =>
                monthly <- py_get a "monthly_summary" (JList []) ;;
                months <- py_iter monthly ;;
                for_each (vol_alert_step a) months alerts)
             accs vol_alerts.

(** Line 332 *)
Definition vol_alerts_html_of (vol_alerts : json) : result string :=
  if truthy vol_alerts then
    l <- py_iter vol_alerts ;;
    Ok (String.concat "" (map (fun a => "<li>" +++ py_str a +++ "</li>") l))
  else Ok (qq "<li style=`color:var(--accent)`>✓ No extreme volatility alerts</li>").

(** *** Lines 342-354: pie-chart arrays *)

Definition category_series (cats : json) (key : string) (dflt : json) : result string :=
  if truthy cats then
    l <- py_iter cats ;;
    vals <- map_result (fun c => py_get c key dflt) l ;;
    Ok (json_dumps (JList vals))
  else Ok (json_dumps (JList [])).

(** *** Lines 446-464: recurring-payment rows *)

(** Each payment type with its key [pt.lower().replace('/', '_')]. *)
Definition payment_types : list (string * string) :=
  [("EPF/KWSP", "epf_kwsp"); ("SOCSO/PERKESO", "socso_perkeso");
   ("TAX/LHDN", "tax_lhdn"); ("RENT", "rent"); ("UTILITIES", "utilities");
   ("LOAN_REPAYMENT", "loan_repayment")].

(** Lines 456-464, one payment type. *)
Definition rec_payment_step (recurring total_months : json) (rec_payments : json)
  (pt : string * string) : result json :=
  by_key <- py_get recurring (snd pt) (JDict []) ;;
  pt_data <- (if truthy by_key then Ok by_key else py_get recurring (fst pt) (JDict [])) ;;
  if truthy pt_data then
    py_append rec_payments
      (expected <- py_get pt_data "expected" total_months ;;
       found <- py_get_with pt_data "found" (py_get pt_data "count" (JInt 0)) ;;
       missing <- py_get pt_data "missing_months" (JList []) ;;
       status <- py_get pt_data "status" (JStr "OK") ;;
       Ok (JDict [("type", JStr (fst pt)); ("expected_count", expected);
                  ("found_count", found); ("missing_months", missing);
                  ("status", status)]))
  else Ok rec_payments.

(** Returns [rec_payments] and the value of [recurring] after the appends:
    the list appended to is the document's own [payment_types] list when that
    key is present. *)
Definition rec_payments_of (recurring total_months : json) : result (json * json) :=
  payments <- py_get recurring "payments" (JList []) ;;
  if truthy payments then Ok (payments, recurring) else
  statutory <- py_get recurring "statutory_payments" (JList []) ;;
  if truthy statutory then Ok (statutory, recurring) else
  types <- py_get recurring "payment_types" (JList []) ;;
  if truthy types then Ok (types, recurring) else
  rec_payments <- for_each (rec_payment_step recurring total_months) payment_types types ;;
  Ok (rec_payments, store_back recurring "payment_types" rec_payments).

(** *** Lines 531-555: non-bank financing sources *)

(** Lines 549-555; the state of the loop is [(seen_amounts, unique_sources)]. *)
Definition dedup_step (st : list json * list json) (s : json)
  : result (list json * list json) :=
  amount <- py_get s "total_inflow" (JInt 0) ;;
  seen <- py_in_set amount (fst st) ;;
  if seen then Ok st else Ok (fst st ++ [amount], snd st ++ [s]).

Definition unique_sources_of (non_bank : json) : result (list json) :=
  nb_sources <- py_get non_bank "sources" (JList []) ;;
  sources <- py_iter nb_sources ;;
  st <- for_each dedup_step sources ([], []) ;;
  Ok (snd st).

(** *** Lines 615-699: counterparty section *)

(** Lines 617-699, the markup of the section for a non-empty
    [counterparties]; its table layout is not part of this development. *)
Variable counterparty_section : json -> result string.

Definition counterparty_tab_of (counterparties : json) : result string :=
  if truthy counterparties then counterparty_section counterparties else Ok "".

(** *** Lines 719-727: inter-account transfers *)

Definition inter_transfers_of (inter_account matched : json) : result json :=
  py_get_with matched "all_transfers"
    (py_get_with matched "top_10_transfers"
       (py_get inter_account "transfers" (JList []))).

Definition inter_count_of (inter_account summary inter_transfers : json) : result json :=
  py_get_with summary "total_count"
    (py_get_with inter_account "detected_count"
       (n <- py_len inter_transfers ;; Ok (JInt n))).

Definition inter_total_of (inter_account summary : json) : result json :=
  py_get_with summary "total_amount" (py_get inter_account "total_amount" (JInt 0)).

(** *** Lines 753-756 and 929-942: navigation *)

Definition counterparty_nav_of (counterparties : json) : string :=
  if truthy counterparties then
    qq "<button class=`nav-tab` data-tab=`counterparties` onclick=`showTab('counterparties')`>👥 Counterparties</button>"
  else "".

Definition recurring_nav_of (recurring : json) : string :=
  if truthy recurring then
    qq "<button class=`nav-tab` data-tab=`recurring` onclick=`showTab('recurring')`>📋 Recurring</button>"
  else "".

Definition nonbank_nav_of (non_bank : json) : string :=
  if truthy non_bank then
    qq "<button class=`nav-tab` data-tab=`nonbank` onclick=`showTab('nonbank')`>🏦 Non-Bank</button>"
  else "".

(** Lines 929-942 of the template. *)
Definition nav_tabs_of (counterparty_nav recurring_nav nonbank_nav : string) : string :=
  qq "        <div class=`nav-tabs`>
            <button class=`nav-tab active` data-tab=`overview` onclick=`showTab('overview')`>📊 Overview</button>
            <button class=`nav-tab` data-tab=`accounts` onclick=`showTab('accounts')`>🏦 Accounts</button>
            <button class=`nav-tab` data-tab=`turnover` onclick=`showTab('turnover')`>💰 Turnover</button>
            <button class=`nav-tab` data-tab=`categories` onclick=`showTab('categories')`>📁 Categories</button>
            "
  +++ counterparty_nav +++
  qq "
            <button class=`nav-tab` data-tab=`volatility` onclick=`showTab('volatility')`>📈 Volatility</button>
            <button class=`nav-tab` data-tab=`flags` onclick=`showTab('flags')`>🚩 Flags</button>
            <button class=`nav-tab` data-tab=`integrity` onclick=`showTab('integrity')`>✓ Integrity</button>
            <button class=`nav-tab` data-tab=`related` onclick=`showTab('related')`>👥 Related</button>
            "
  +++ recurring_nav +++ qq "
            " +++ nonbank_nav +++
  qq "
            <button class=`nav-tab` data-tab=`recommendations` onclick=`showTab('recommendations')`>✅ Recs</button>
        </div>".

(** *** Lines 764, 918 and 1126-1127: title, heading and footer *)

Definition title_of (company : json) : string :=
  "<title>Bank Statement Analysis v5.0 - " +++ py_str company +++ "</title>".

Definition heading_of (company : json) (schema_version : string) : string :=
  "<h1>" +++ py_str company +++ qq " <span class=`version-badge`>Schema v"
  +++ schema_version +++ "</span></h1>".

(** [now] is the value of [datetime.now().isoformat()] at the time of the
    call. *)
Definition footer_of (r : json) (now : string) (schema_version : string)
  (period_start period_end : json) : result string :=
  generated <- py_get r "generated_at" (JStr now) ;;
  Ok ("<p>Bank Statement Analysis v5.0 (Schema " +++ schema_version +++ ")</p>
            <p>Generated: " +++ py_str generated +++ " | Period: "
      +++ py_str period_start +++ " - " +++ py_str period_end +++ "</p>").


(** *** The function *)

(** The values of the local variables that the template of lines 759-1193
    interpolates and that this development follows. *)
Record report : Type := {
  schema_version : string;
  max_integrity_points : Z;
  company : json;
  title : string;
  heading : string;
  counterparty_nav : string;
  recurring_nav : string;
  nonbank_nav : string;
  nav_tabs : string;
  round_count : json;
  round_txns : json;
  round_js : string;
  pos_obs : string;
  con_obs : string;
  kite_rows : string;
  vol_alerts : json;
  vol_alerts_html : string;
  credit_vals : string;
  credit_labels : string;
  debit_vals : string;
  debit_labels : string;
  rec_payments : option json;
  unique_sources : option (list json);
  counterparty_tab : string;
  inter_transfers : json;
  inter_count : json;
  inter_total : json;
  footer : string
}.

(** [generate_interactive_html data now] returns the report values and the
    document as the call leaves it: lines 85, 331 and 458 update objects of
    the document in place. *)
Definition generate_interactive_html (data : json) (now : string)
  : result (report * json) :=
  schema_version <- detect_schema_version data ;;
  let max_integrity_points := get_integrity_max_points schema_version in
  r <- py_get data "report_info" (JDict []) ;;
  accounts <- py_get data "accounts" (JList []) ;;
  categories <- py_get data "categories" (JDict []) ;;
  volatility <- py_get data "volatility" (JDict []) ;;
  flags <- py_get data "flags" (JDict []) ;;
  flagged_for_review <- py_get data "flagged_for_review" (JDict []) ;;
  let folded := fold_flagged_for_review flags flagged_for_review in
  let flags := fst folded in
  let data1 := if snd folded then store_back data "flags" flags else data in
  kite <- py_get data1 "kite_flying" (JDict []) ;;
  observations <- py_get data1 "observations" (JDict []) ;;
  recurring <- py_get data1 "recurring_payments" (JDict []) ;;
  non_bank <- py_get data1 "non_bank_financing" (JDict []) ;;
  counterparties <- py_get data1 "counterparties" (JDict []) ;;
  inter_account <- py_get data1 "inter_account_transfers" (JDict []) ;;
  company <- py_get r "company_name" (JStr "Company") ;;
  period_start <- py_get r "period_start" (JStr "") ;;
  period_end <- py_get r "period_end" (JStr "") ;;
  total_months <- py_get r "total_months" (JInt 0) ;;
  kite_score <- py_get kite "risk_score" (JInt 0) ;;
  vol_index <- py_get volatility "overall_index" (JInt 0) ;;
  round_fig <- py_get flags "round_figure_transactions" (JDict []) ;;
  round_count <- py_get round_fig "count" (JInt 0) ;;
  credits_cat <- py_get categories "credits" (JList []) ;;
  debits_cat <- py_get categories "debits" (JList []) ;;
  positive <- py_get observations "positive" (JList []) ;;
  pos_obs <- observation_items positive ;;
  concerns <- py_get observations "concerns" (JList []) ;;
  con_obs <- observation_items concerns ;;
  round_txns <- round_txns_of round_fig ;;
  round_js <- round_js_of round_txns ;;
  kite_rows <- kite_rows_of kite kite_score round_count ;;
  vol_alerts <- vol_alerts_of volatility accounts ;;
  let data2 := store_back data1 "volatility" (store_back volatility "alerts" vol_alerts) in
  vol_alerts_html <- vol_alerts_html_of vol_alerts ;;
  credit_vals <- category_series credits_cat "percentage" (JInt 0) ;;
  credit_labels <- category_series credits_cat "category" (JStr "") ;;
  debit_vals <- category_series debits_cat "percentage" (JInt 0) ;;
  debit_labels <- category_series debits_cat "category" (JStr "") ;;
  rec <- (if truthy recurring then
            x <- rec_payments_of recurring total_months ;;
            Ok (Some (fst x), store_back data2 "recurring_payments" (snd x))
          else Ok (None, data2)) ;;
  let rec_payments := fst rec in
  let data3 := snd rec in
  unique_sources <- (if truthy non_bank then
                       u <- unique_sources_of non_bank ;; Ok (Some u)
                     else Ok None) ;;
  counterparty_tab <- counterparty_tab_of counterparties ;;
  matched <- py_get inter_account "matched_transfers" (JDict []) ;;
  unverified <- py_get inter_account "unverified_transfers" (JDict []) ;;
  summary <- py_get inter_account "summary" (JDict []) ;;
  inter_transfers <- inter_transfers_of inter_account matched ;;
  inter_count <- inter_count_of inter_account summary inter_transfers ;;
  inter_total <- inter_total_of inter_account summary ;;
  let recurring_nav := recurring_nav_of recurring in
  let nonbank_nav := nonbank_nav_of non_bank in
  let counterparty_nav := counterparty_nav_of counterparties in
  footer <- footer_of r now schema_version period_start period_end ;;
  Ok ({| schema_version := schema_version;
         max_integrity_points := max_integrity_points;
         company := company;
         title := title_of company;
         heading := heading_of company schema_version;
         counterparty_nav := counterparty_nav;
         recurring_nav := recurring_nav;
         nonbank_nav := nonbank_nav;
         nav_tabs := nav_tabs_of counterparty_nav recurring_nav nonbank_nav;
         round_count := round_count;
         round_txns := round_txns;
         round_js := round_js;
         pos_obs := pos_obs;
         con_obs := con_obs;
         kite_rows := kite_rows;
         vol_alerts := vol_alerts;
         vol_alerts_html := vol_alerts_html;
         credit_vals := credit_vals;
         credit_labels := credit_labels;
         debit_vals := debit_vals;
         debit_labels := debit_labels;
         rec_payments := rec_payments;
         unique_sources := unique_sources;
         counterparty_tab := counterparty_tab;
         inter_transfers := inter_transfers;
         inter_count := inter_count;
         inter_total := inter_total;
         footer := footer |}, data3).

(** *** Lines 133-152: the account cards *)

(** The digits of a number with a comma before every group of three, as
    the [,] of a format specification writes them. *)
Fixpoint group_rev (l : list ascii) (k : nat) : list ascii :=
  match l with
  | [] => []
  | c :: l' =>
      match l' with
      | [] => [c]
      | _ => if (k =? 2)%nat then c :: ","%char :: group_rev l' 0
             else c :: group_rev l' (S k)
      end
  end.

Definition group_thousands (digits : string) : string :=
  string_of_list_ascii (rev (group_rev (rev (list_ascii_of_string digits)) 0)).

(** [f"{z:,}"] for an [int]. *)
Definition grouped_int (z : Z) : string :=
  (if z <? 0 then "-" else "") +++ group_thousands (str_of_Z (Z.abs z)).

(** Hundredths [n] of a number of sign [neg], written with two decimals. *)
Definition grouped_hundredths (neg : bool) (n : Z) : string :=
  let a := Z.abs n in
  (if neg then "-" else "") +++ group_thousands (str_of_Z (a / 100)) +++ "."
  +++ (if a mod 100 <? 10 then "0" else "") +++ str_of_Z (a mod 100).

(** [f"{v:,.2f}"] *)
Definition format_grouped_2f (v : json) : result string :=
  match v with
  | JBool b => Ok (if b then "1.00" else "0.00")
  | JInt z =>
      match float_of_int z with
      | Some x => Ok (grouped_hundredths (x <? 0) (100 * x))
      | None => Raise OverflowError
      end
  | JFloat q =>
      Ok (grouped_hundredths (Qnum q <? 0)
            (round_half_even (100 * Qnum q) (Zpos (Qden q))))
  | JStr _ => Raise ValueError
  | _ => Raise TypeError
  end.

(** [v < n] for an [int] constant [n]. *)
Definition py_lt_int (v : json) (n : Z) : result bool :=
  match num_value v with
  | Some q => Ok (negb (Qle_bool (inject_Z n) q))
  | None => Raise TypeError
  end.

Section Cards.

(** [f"{x:,}"] of the interpreter for a [float]: the digits of [repr]
    grouped. *)
Variable float_grouped : Q -> string.

(** [f"{v:,}"] *)
Definition format_grouped (v : json) : result string :=
  match v with
  | JBool b => Ok (if b then "1" else "0")
  | JInt z => Ok (grouped_int z)
  | JFloat q => Ok (float_grouped q)
  | JStr _ => Raise ValueError
  | _ => Raise TypeError
  end.

(** Lines 135-152, the card of one account. *)
Definition acc_card (a : json) : result string :=
  cls <- py_get a "classification" (JStr "SECONDARY") ;;
  let card_cls := if py_eq_str cls "PRIMARY" then "primary" else "secondary" in
  let badge_cls := if py_eq_str cls "PRIMARY" then "badge-primary" else "badge-secondary" in
  closing_balance <- py_get a "closing_balance" (JInt 0) ;;
  low <- py_lt_int closing_balance 20000 ;;
  let closing_cls := if low then "debit" else "" in
  bank_name <- py_get a "bank_name" (JStr "") ;;
  account_number <- py_get a "account_number" (JStr "") ;;
  total_credits <- py_get a "total_credits" (JInt 0) ;;
  credits <- format_grouped_2f total_credits ;;
  total_debits <- py_get a "total_debits" (JInt 0) ;;
  debits <- format_grouped_2f total_debits ;;
  transaction_count <- py_get a "transaction_count" (JInt 0) ;;
  count <- format_grouped transaction_count ;;
  closing_text <- format_grouped_2f closing_balance ;;
  Ok (qq "
                <div class=`account-card "
      +++ card_cls
      +++ qq "`>
                    <div class=`account-header`>
                        <span class=`bank-name`>"
      +++ py_str bank_name
      +++ qq "</span>
                        <span class=`badge "
      +++ badge_cls
      +++ qq "`>"
      +++ py_str cls
      +++ qq "</span>
                    </div>
                    <div class=`account-number`>A/C: "
      +++ py_str account_number
      +++ qq "</div>
                    <div class=`account-metrics`>
                        <div class=`metric`><div class=`metric-label`>Total Credits</div><div class=`metric-value credit`>RM "
      +++ credits
      +++ qq "</div></div>
                        <div class=`metric`><div class=`metric-label`>Total Debits</div><div class=`metric-value debit`>RM "
      +++ debits
      +++ qq "</div></div>
                        <div class=`metric`><div class=`metric-label`>Transactions</div><div class=`metric-value`>"
      +++ count
      +++ qq "</div></div>
                        <div class=`metric`><div class=`metric-label`>Closing Balance</div><div class=`metric-value "
      +++ closing_cls
      +++ qq "`>RM "
      +++ closing_text
      +++ qq "</div></div>
                    </div>
                </div>").

(** Lines 133-134 *)
Definition acc_cards_of (accounts : json) : result string :=
  accs <- py_iter accounts ;;
  for_each (fun acc_cards a => card <- acc_card a ;; Ok (acc_cards +++ card)) accs "".

End Cards.

(** *** Lines 357-383: the series of the volatility chart *)

Section Chart.

(** [int(s)] of the interpreter for a [str]; its parsing of signs, spaces
    and digits is left to the interpreter. *)
Variable py_int : string -> result Z.

(** The exception of [d[:4]] for a [dict]: TypeError, and KeyError since
    slices are hashable (Python 3.12). *)
Variable dict_slice_error : pyerr.

(** Line 358 *)
Definition period_year_of (period_start : json) : result json :=
  if truthy period_start then
    match period_start with
    | JStr s => Ok (JStr (String.concat "" (firstn 4 (utf8_chars s))))
    | JList l => Ok (JList (firstn 4 l))
    | JDict _ => Raise dict_slice_error
    | _ => Raise TypeError
    end
  else Ok (JStr "2024").

Definition month_names_list : list string :=
  ["Jan"; "Feb"; "Mar"; "Apr"; "May"; "Jun"; "Jul"; "Aug"; "Sep"; "Oct"; "Nov"; "Dec"].

(** [l[i]] for an [int] index: a negative index counts from the end. *)
Definition py_index {A : Type} (l : list A) (i : Z) : result A :=
  let n := Z.of_nat (length l) in
  let j := if i <? 0 then i + n else i in
  if (0 <=? j) && (j <? n) then
    match nth_error l (Z.to_nat j) with
    | Some x => Ok x
    | None => Raise IndexError
    end
  else Raise IndexError.

(** [s.split(sep)] for one ASCII character [sep]. *)
Fixpoint py_split_char (sep : ascii) (s : string) : list string :=
  match s with
  | EmptyString => [EmptyString]
  | String c s' =>
      if Ascii.eqb c sep then EmptyString :: py_split_char sep s'
      else match py_split_char sep s' with
           | w :: ws => String c w :: ws
           | [] => [String c EmptyString]
           end
  end.

(** Lines 365-374, the label of one monthly entry. *)
Definition fixed_label (period_year : json) (m : json) : result json :=
  month_str <- py_get m "month" (JStr "") ;;
  month_name <- py_get m "month_name" (JStr "") ;;
  dash <- (if truthy month_str then py_contains_str "-" month_str else Ok false) ;;
  if dash then
    parts <- (match month_str with
              | JStr s => Ok (py_split_char "-"%char s)
              | _ => Raise AttributeError
              end) ;;
    month_num <- (if 1 <? Z.of_nat (length parts) then
                    match nth_error parts 1 with
                    | Some part => py_int part
                    | None => Raise IndexError
                    end
                  else Ok 1) ;;
    name <- py_index month_names_list (month_num - 1) ;;
    Ok (JStr (name +++ " " +++ py_str period_year))
  else if truthy month_name then Ok month_name
  else py_get m "month" (JStr "").

(** Line 381 *)
Definition series_color (i : nat) : string :=
  match i with
  | 0%nat => "#f59e0b"
  | 1%nat => "#ef4444"
  | _ => "#8b5cf6"
  end.

(** Lines 362-382, the series of account [a] at position [i]. *)
Definition vol_series (period_year : json) (i : nat) (a : json) : result json :=
  monthly <- py_get a "monthly_summary" (JList []) ;;
  months <- py_iter monthly ;;
  fixed_labels <- map_result (fixed_label period_year) months ;;
  y <- map_result (fun m => py_get m "volatility_pct" (JInt 0)) months ;;
  bank_name <- py_get a "bank_name" (JStr "") ;;
  Ok (JDict [("x", JList fixed_labels); ("y", JList y); ("name", bank_name);
             ("type", JStr "bar");
             ("marker", JDict [("color", JStr (series_color i))])]).

Definition vol_data_of (period_start accounts : json) : result json :=
  period_year <- period_year_of period_start ;;
  accs <- py_iter accounts ;;
  series <- map_result (fun ia => vol_series period_year (fst ia) (snd ia))
              (enumerate accs) ;;
  Ok (JList series).

(** Line 383 *)
Definition vol_data_js_of (period_start accounts : json) : result string :=
  vol_data <- vol_data_of period_start accounts ;;
  Ok (json_dumps vol_data).

End Chart.

(** ** Report file names (app.py, lines 1188-1204) *)

Fixpoint drop_while {A : Type} (p : A -> bool) (l : list A) : list A :=
  match l with
  | [] => []
  | x :: l' => if p x then drop_while p l' else l
  end.

(** A sequence without the elements at its two ends that satisfy [p]. *)
Definition strip_list {A : Type} (p : A -> bool) (l : list A) : list A :=
  rev (drop_while p (rev (drop_while p l))).

(** [c.isspace()] for a one-character [str]. *)
Definition py_isspace (c : string) : bool :=
  let n := code_point c in
  ((9 <=? n) && (n <=? 13)) || ((28 <=? n) && (n <=? 32))
  || (n =? 133) || (n =? 160) || (n =? 5760)
  || ((8192 <=? n) && (n <=? 8202))
  || (n =? 8232) || (n =? 8233) || (n =? 8239) || (n =? 8287) || (n =? 12288).

(** [s.strip()] *)
Definition py_strip (s : string) : string :=
  String.concat "" (strip_list py_isspace (utf8_chars s)).

(** [s.strip(c)] for one ASCII character [c]. *)
Definition py_strip_char (c : ascii) (s : string) : string :=
  string_of_list_ascii (strip_list (Ascii.eqb c) (list_ascii_of_string s)).

(** [s.replace(a, b)] for two ASCII characters. *)
Fixpoint py_replace_char (a b : ascii) (s : string) : string :=
  match s with
  | EmptyString => EmptyString
  | String c s' => String (if Ascii.eqb c a then b else c) (py_replace_char a b s')
  end.

(** The class [A-Za-z0-9._-] of line 1191. *)
Definition slug_char (c : ascii) : bool :=
  let n := nat_of_ascii c in
  ((65 <=? n) && (n <=? 90) || (97 <=? n) && (n <=? 122) || (48 <=? n) && (n <=? 57)
   || (n =? 46) || (n =? 95) || (n =? 45))%nat.

(** [re.sub('[...]+', '_', s)] for a class [cls] of ASCII characters or the
    complement of one: every maximal run of characters of the class becomes
    one underscore.  [in_run] tells that the character before [s] was of the
    class.  A character outside ASCII is a run of bytes above 127, all of
    them inside or all of them outside the class, so the runs of bytes are
    the runs of characters. *)
Fixpoint re_sub_runs (cls : ascii -> bool) (in_run : bool) (s : string) : string :=
  match s with
  | EmptyString => EmptyString
  | String c s' =>
      if cls c then
        if in_run then re_sub_runs cls true s'
        else String "_"%char (re_sub_runs cls true s')
      else String c (re_sub_runs cls false s')
  end.

(** Lines 1188-1193 *)
Definition _slugify (text : json) : result string :=
  match (if truthy text then text else JStr "") with
  | JStr s =>
      let text := py_strip s in
      let text := py_replace_char " "%char "_"%char text in
      let text := re_sub_runs (fun c => negb (slug_char c)) false text in
      let text := py_strip_char "_"%char (re_sub_runs (Ascii.eqb "_"%char) false text) in
      Ok (if String.eqb text "" then "report" else text)
  | _ => Raise AttributeError
  end.

(** Lines 1195-1204; every caller passes a [str] for [fallback]. *)
Definition _report_basename (data : json) (fallback : string) : result string :=
  r <- (match data with
        | JDict _ => py_get data "report_info" (JDict [])
        | _ => Ok (JDict [])
        end) ;;
  company_name <- py_get r "company_name" JNull ;;
  let company := if truthy company_name then company_name else JStr fallback in
  end_field <- py_get r "period_end" JNull ;;
  let period_end := if truthy end_field then end_field else JStr "" in
  declared <- py_get r "schema_version" JNull ;;
  schema_full <- (if truthy declared then Ok declared
                  else tag <- detect_schema_version data ;; Ok (JStr tag)) ;;
  base <- _slugify company ;;
  base <- (if truthy period_end
           then s <- _slugify period_end ;; Ok (base +++ "_" +++ s)
           else Ok base) ;;
  s <- _slugify schema_full ;;
  Ok (base +++ "_schema_" +++ s).

(** ** Reading a document the way the specification describes it *)

(** The declared version string: absent counts as the empty string; [None]
    when [report_info] is not keyed or [schema_version] is not a string. *)
Definition declared_version (d : list (string * json)) : option string :=
  match lookup_or "report_info" d (JDict []) with
  | JDict r =>
      match lookup_or "schema_version" r (JStr "") with
      | JStr s => Some s
      | _ => None
      end
  | _ => None
  end.

(** Rule 1: the declared version starts with the current major prefix. *)
Definition rule_version (sv : string) : bool := prefix "5." sv.

(** Rule 2: a recurring-payments or non-bank-financing section is present. *)
Definition rule_sections (d : list (string * json)) : bool :=
  truthy (lookup_or "recurring_payments" d JNull)
  || truthy (lookup_or "non_bank_financing" d JNull).

Definition first_entry_intraday (a : json) : bool :=
  match a with
  | JDict ad =>
      match lookup_or "monthly_summary" ad (JList []) with
      | JList (JDict m :: _) => has_key "highest_intraday" m
      | _ => false
      end
  | _ => false
  end.

(** Rule 3 as the code has it: the first account's first monthly entry has
    the intraday-high field. *)
Definition rule_intraday (d : list (string * json)) : bool :=
  match lookup_or "accounts" d (JList []) with
  | JList (a :: _) => first_entry_intraday a
  | _ => false
  end.

(** Rule 3 as the specification words it: any account's first monthly entry
    has the intraday-high field. *)
Definition spec_any_account_intraday (d : list (string * json)) : bool :=
  match lookup_or "accounts" d (JList []) with
  | JList accs => existsb first_entry_intraday accs
  | _ => false
  end.

(** The accounts are absent or empty, or the first account is keyed and its
    monthly summary is absent or empty or starts with a keyed entry. *)
Definition accounts_shape (d : list (string * json)) : bool :=
  match lookup_or "accounts" d (JList []) with
  | JList (JDict ad :: _) =>
      match lookup_or "monthly_summary" ad (JList []) with
      | JList (JDict _ :: _) => true
      | v => negb (truthy v)
      end
  | v => negb (truthy v)
  end.

(** A fallback chain: the first key present wins, each key looked up in its
    own object; [dflt] when none is present. *)
Fixpoint resolve_chain (chain : list (list (string * json) * string)) (dflt : json)
  : json :=
  match chain with
  | [] => dflt
  | (m, k) :: chain' =>
      match dict_lookup k m with
      | Some v => v
      | None => resolve_chain chain' dflt
      end
  end.

(** [a + b] on numbers. *)
Definition py_add (a b : json) : json :=
  match a, b with
  | JInt x, JInt y => JInt (x + y)
  | _, _ =>
      match num_value a, num_value b with
      | Some x, Some y => JFloat (Qred (x + y))
      | _, _ => JNull
      end
  end.

(** The inter-account total as the specification words its last fallback:
    the sum of the amounts of the resolved transfer list. *)
Definition spec_sum_amounts (transfers : list json) : json :=
  fold_left (fun acc t =>
               match t with
               | JDict td => py_add acc (lookup_or "amount" td (JInt 0))
               | _ => acc
               end) transfers (JInt 0).

Definition spec_inter_total (summary inter_account : list (string * json))
  (transfers : list json) : json :=
  resolve_chain [(summary, "total_amount"); (inter_account, "total_amount")]
    (spec_sum_amounts transfers).

(** The inflow amount a source is deduplicated by. *)
Definition inflow_of (s : json) : json :=
  match s with
  | JDict sd => lookup_or "total_inflow" sd (JInt 0)
  | _ => JInt 0
  end.

(** Deduplication by inflow amount as the specification words it: a source
    is kept when no earlier source of the list has the same amount. *)
Fixpoint first_by_inflow (earlier sources : list json) : list json :=
  match sources with
  | [] => []
  | s :: rest =>
      (if existsb (fun e => py_eq_scalar (inflow_of s) (inflow_of e)) earlier
       then [] else [s])
      ++ first_by_inflow (earlier ++ [s]) rest
  end.

(** The three sources of the deduplication scenario. *)
Definition source_A : json := JDict [("source_type", JStr "A"); ("total_inflow", JInt 100)].
Definition source_B : json := JDict [("source_type", JStr "B"); ("total_inflow", JInt 100)].
Definition source_C : json := JDict [("source_type", JStr "C"); ("total_inflow", JInt 200)].

(** A field of an object with its default; the default also for a value
    that is not keyed. *)
Definition field (o : json) (k : string) (dflt : json) : json :=
  match o with
  | JDict d => lookup_or k d dflt
  | _ => dflt
  end.

Definition iter_or_nil (v : json) : list json :=
  match py_iter v with
  | Ok l => l
  | Raise _ => []
  end.

(** The volatility level of a monthly entry is HIGH or EXTREME. *)
Definition is_alert_level (m : json) : bool :=
  py_eq_str (field m "volatility_level" (JStr "LOW")) "HIGH"
  || py_eq_str (field m "volatility_level" (JStr "LOW")) "EXTREME".



(** The account of the synthesized-alert scenario. *)
Definition account_alpha : json :=
  JDict [("bank_name", JStr "Alpha");
         ("monthly_summary",
          JList [JDict [("month_name", JStr "Jun 2024");
                        ("volatility_level", JStr "HIGH");
                        ("volatility_pct", JInt 150)];
                 JDict [("month_name", JStr "Jul 2024");
                        ("volatility_level", JStr "LOW");
                        ("volatility_pct", JInt 12)]])].





(** The body of a JSON string literal: plain printable ASCII characters other
    than the double quote and the backslash, two-character escapes, and
    [\uXXXX] escapes. *)
Definition plain_char (c : ascii) : bool :=
  let n := nat_of_ascii c in
  (32 <=? n)%nat && (n <=? 126)%nat && negb (n =? 34)%nat && negb (n =? 92)%nat.

Definition short_escape (c : ascii) : bool :=
  existsb (Ascii.eqb c) [dquote; "\"%char; "b"%char; "f"%char; "n"%char; "r"%char; "t"%char].

Definition is_hex (c : ascii) : bool :=
  existsb (Ascii.eqb c) (list_ascii_of_string "0123456789abcdef").

Inductive json_escaped : string -> Prop :=
| escaped_nil : json_escaped ""
| escaped_plain (c : ascii) (s : string) :
    plain_char c = true -> json_escaped s -> json_escaped (String c s)
| escaped_short (c : ascii) (s : string) :
    short_escape c = true -> json_escaped s ->
    json_escaped (String "\"%char (String c s))
| escaped_unicode (h1 h2 h3 h4 : ascii) (s : string) :
    is_hex h1 = true -> is_hex h2 = true -> is_hex h3 = true -> is_hex h4 = true ->
    json_escaped s ->
    json_escaped (String "\"%char (String "u"%char
                    (String h1 (String h2 (String h3 (String h4 s)))))).


(** Two clock readings. *)
Definition clock_1 : string := "2024-06-30T09:00:00".

(** Stand-ins for the two parameters of the development, for evaluating the
    code on documents that reach neither. *)
Definition no_repr (_ : json) : string := "".
Definition no_section (_ : json) : result string := Ok "".

(** A stand-in for [int] on the strings of ASCII digits. *)
Fixpoint digits_value (acc : Z) (s : string) : option Z :=
  match s with
  | EmptyString => Some acc
  | String c s' =>
      let n := nat_of_ascii c in
      if ((48 <=? n) && (n <=? 57))%nat
      then digits_value (10 * acc + Z.of_nat (n - 48)) s'
      else None
  end.

Definition int_of_digits (s : string) : result Z :=
  match s with
  | EmptyString => Raise ValueError
  | _ => match digits_value 0 s with
         | Some z => Ok z
         | None => Raise ValueError
         end
  end.

(** A stand-in for the grouped digits of a float. *)
Definition no_float_grouped (_ : Q) : string := "".

(** The entry of the round-figure array for transaction [t]. *)
Definition spec_round_entry (t : json) : json :=
  JDict [("date", field t "date" (JStr ""));
         ("desc", field t "description" (JStr ""));
         ("type", field t "type" (JStr "CREDIT"));
         ("amount", field t "amount" (JInt 0));
         ("account", field t "account" (JStr ""))].


(** Every character of [s] satisfies [p]. *)
Fixpoint all_chars (p : ascii -> bool) (s : string) : bool :=
  match s with
  | EmptyString => true
  | String c s' => p c && all_chars p s'
  end.

(** A byte below 128: an ASCII character. *)
Definition is_ascii_char (c : ascii) : bool := (nat_of_ascii c <? 128)%nat.

(** A printable ASCII character. *)
Definition printable_char (c : ascii) : bool :=
  let n := nat_of_ascii c in ((32 <=? n) && (n <=? 126))%nat.

(** The characters of [s] that satisfy [p], in their order. *)
Fixpoint keep_chars (p : ascii -> bool) (s : string) : string :=
  match s with
  | EmptyString => EmptyString
  | String c s' => if p c then String c (keep_chars p s') else keep_chars p s'
  end.

(** Every character of [s] is held as one ASCII byte or as bytes above 127
    only, as the UTF-8 bytes of a [str] are. *)
Definition utf8_grouped (s : string) : bool :=
  forallb (fun g => ((String.length g =? 1)%nat && all_chars is_ascii_char g)
                    || all_chars (fun c => negb (is_ascii_char c)) g)
          (utf8_chars s).

(** The letters, digits, dot and hyphen: the characters a slug keeps that
    are not the underscore. *)
Definition word_char (c : ascii) : bool :=
  slug_char c && negb (Ascii.eqb c "_"%char).

(** A value that [x or dflt] replaces, or a [str]. *)
Definition text_or_falsy (v : json) : bool :=
  negb (truthy v) || match v with JStr _ => true | _ => false end.

(** The three fields of [report_info] a file name is made of. *)
Definition name_fields : list string := ["company_name"; "period_end"; "schema_version"].

Definition is_keyed (v : json) : bool :=
  match v with JDict _ => true | _ => false end.

(** The review items that lines 70-72 keep: [all_items], else
    [top_10_items], when that value is a list. *)
Definition review_items (review : list (string * json)) : list json :=
  let all_items := lookup_or "all_items" review JNull in
  let top_items := lookup_or "top_10_items" review JNull in
  match (if truthy all_items then all_items
         else if truthy top_items then top_items else JList []) with
  | JList l => l
  | _ => []
  end.

(** The row built for one payment type (a pair of the type and its
    lower-case key): the data under the lower-case key, else under the type
    itself; no row when neither has data. *)
Definition spec_payment_row (recurring : list (string * json)) (total_months : json)
  (pt : string * string) : list json :=
  let by_key := lookup_or (snd pt) recurring (JDict []) in
  let pt_data := if truthy by_key then by_key else lookup_or (fst pt) recurring (JDict []) in
  match pt_data with
  | JDict p =>
      if truthy pt_data then
        [JDict [("type", JStr (fst pt));
                ("expected_count", lookup_or "expected" p total_months);
                ("found_count", resolve_chain [(p, "found"); (p, "count")] (JInt 0));
                ("missing_months", lookup_or "missing_months" p (JList []));
                ("status", lookup_or "status" p (JStr "OK"))]]
      else []
  | _ => []
  end.

(** The monthly entries of an account. *)
Definition months_of (a : json) : list json :=
  iter_or_nil (field a "monthly_summary" (JList [])).

(** A keyed account whose monthly summary is a list of keyed entries. *)
Definition keyed_account (a : json) : bool :=
  match a with
  | JDict ad =>
      match lookup_or "monthly_summary" ad (JList []) with
      | JList ms => forallb is_keyed ms
      | _ => false
      end
  | _ => false
  end.

(** The sections [detect_schema_version] reads. *)
Definition classifier_sections : list string :=
  ["report_info"; "recurring_payments"; "non_bank_financing"; "accounts"].

(** A character other than the hyphen. *)
Definition not_hyphen (c : ascii) : bool := negb (Ascii.eqb c "-"%char).

(** A number that [,.2f] can write: a [bool], a [float], or an [int]
    within the range of [float]. *)
Definition writable_amount (v : json) : bool :=
  match v with
  | JBool _ | JFloat _ => true
  | JInt z => match float_of_int z with Some _ => true | None => false end
  | _ => false
  end.

Definition is_number (v : json) : bool :=
  match v with
  | JBool _ | JInt _ | JFloat _ => true
  | _ => false
  end.

(** A keyed account whose amounts, where present, are numbers that can be
    written. *)
Definition card_ready (a : json) : bool :=
  match a with
  | JDict ad =>
      writable_amount (lookup_or "closing_balance" ad (JInt 0))
      && writable_amount (lookup_or "total_credits" ad (JInt 0))
      && writable_amount (lookup_or "total_debits" ad (JInt 0))
      && is_number (lookup_or "transaction_count" ad (JInt 0))
  | _ => false
  end.


(** *** Sample documents *)

(** A current-family document with every section the theorems read. *)
Definition doc_sample : list (string * json) :=
  [("report_info", JDict [("company_name", JStr "Acme Sdn Bhd");
                          ("schema_version", JStr "5.1.0");
                          ("generated_at", JStr "2024-07-01T08:00:00");
                          ("period_start", JStr "2024-01-01");
                          ("period_end", JStr "2024-06-30")]);
   ("accounts", JList [account_alpha]);
   ("categories", JDict [("credits", JList [JDict [("category", JStr "Sales");
                                                   ("percentage", JInt 80)]])]);
   ("observations", JDict [("positive", JList [JStr "Stable inflows"]);
                           ("concerns", JList [JStr "High volatility in June"])]);
   ("kite_flying", JDict [("risk_score", JInt 2);
                          ("indicators", JList [JStr "Round amounts"; JStr "Month-end peaks"]);
                          ("detailed_findings", JList [JStr "12 round transfers"])]);
   ("non_bank_financing", JDict [("sources", JList [source_A; source_B; source_C])]);
   ("inter_account_transfers",
    JDict [("summary", JDict [("total_count", JInt 4)]);
           ("total_amount", JInt 900);
           ("transfers", JList [JDict [("amount", JInt 400)]; JDict [("amount", JInt 500)]])])].


(** A document whose own objects the run updates in place: an empty alert
    list, a [flags] object without round-figure data, and an empty
    [payment_types] list. *)
Definition doc_in_place : list (string * json) :=
  [("report_info", JDict [("generated_at", JStr "2024-07-01T08:00:00");
                          ("total_months", JInt 6)]);
   ("accounts", JList [account_alpha]);
   ("volatility", JDict [("overall_index", JInt 40); ("alerts", JList [])]);
   ("flags", JDict [("returned_cheques", JDict [("count", JInt 0)])]);
   ("flagged_for_review",
    JDict [("count", JInt 12);
           ("top_10_items", JList [JDict [("date", JStr "2024-03-01");
                                          ("amount", JInt 50000)]])]);
   ("recurring_payments",
    JDict [("payment_types", JList []);
           ("rent", JDict [("found", JInt 5); ("status", JStr "MISSING")])])].



(** Transfers listed without any count or total. *)
Definition doc_transfers : list (string * json) :=
  [("inter_account_transfers",
    JDict [("transfers", JList [JDict [("amount", JInt 100)];
                                JDict [("amount", JInt 250)]])])].

(** Only the second account carries the intraday field. *)
Definition doc_second_account_intraday : list (string * json) :=
  [("accounts",
    JList [JDict [("monthly_summary", JList [JDict [("highest", JInt 10)]])];
           JDict [("monthly_summary", JList [JDict [("highest_intraday", JInt 10)]])]])].


(** A document that names its company, period and version. *)
Definition doc_named : list (string * json) :=
  [("report_info", JDict [("company_name", JStr "Acme Sdn Bhd");
                          ("period_end", JStr "2024-06-30");
                          ("schema_version", JStr "5.1.0")])].

(** A document that declares no version and has a recurring-payments
    section. *)
Definition doc_undeclared : list (string * json) :=
  [("report_info", JDict [("company_name", JStr "Acme")]);
   ("recurring_payments", JDict [("rent", JDict [("found", JInt 5)])])].

(** The end of the period written as a number. *)
Definition doc_numeric_period : list (string * json) :=
  [("report_info", JDict [("company_name", JStr "Acme");
                          ("period_end", JInt 20240630)])].

(** [doc_undeclared] with one more section. *)
Definition doc_undeclared_kite : list (string * json) :=
  ("kite_flying", JDict [("risk_score", JInt 3)]) :: doc_undeclared.

(** A round-figure transaction whose description is markup. *)
Definition doc_script_text : list (string * json) :=
  [("flags",
    JDict [("round_figure_transactions",
            JDict [("count", JInt 1);
                   ("all_transactions",
                    JList [JDict [("description", JStr "</script><b>x</b>");
                                  ("amount", JInt 5000)]])])])].

(** A source whose inflow is a list. *)
Definition sources_with_list_inflow : list (string * json) :=
  [("sources", JList [source_A; JDict [("total_inflow", JList [JInt 100])]])].

(** A monthly entry of March 2025. *)
Definition month_march_2025 : list (string * json) :=
  [("month", JStr "2025-03"); ("month_name", JStr "March 2025")].

(** A monthly entry with only the legacy names. *)
Definition month_legacy_only : list (string * json) :=
  [("highest", JInt 900); ("lowest", JInt 100)].

(** ** Facts *)

Arguments lookup_or : simpl never.
Arguments has_key : simpl never.

Lemma bind_ok {A B : Type} (m : result A) (k : A -> result B) (b : B) :
  bind m k = Ok b -> exists a, m = Ok a /\ k a = Ok b.
Proof.
  destruct m as [a|e]; simpl; intros H; [eauto | discriminate].
Qed.


Lemma py_get_dict (d : list (string * json)) (k : string) (dflt : json) :
  py_get (JDict d) k dflt = Ok (lookup_or k d dflt).
Proof. reflexivity. Qed.

Lemma py_get_ok (o : json) (k : string) (dflt v : json) :
  py_get o k dflt = Ok v -> exists d, o = JDict d /\ v = lookup_or k d dflt.
Proof.
  destruct o; simpl; try discriminate.
  intros H; injection H as <-. eauto.
Qed.

(** *** Dictionaries and the document store *)

Lemma dict_lookup_set_same (k : string) (v : json) (d : list (string * json)) :
  dict_lookup k (dict_set k v d) = Some v.
Proof.
  induction d as [|[k' v'] d IH]; simpl.
  - now rewrite String.eqb_refl.
  - destruct (String.eqb k k') eqn:E; simpl.
    + now rewrite String.eqb_refl.
    + now rewrite E.
Qed.

Lemma dict_lookup_set_other (k k' : string) (v : json) (d : list (string * json)) :
  String.eqb k' k = false ->
  dict_lookup k' (dict_set k v d) = dict_lookup k' d.
Proof.
  intros Hk. induction d as [|[k0 v0] d IH]; simpl.
  - now rewrite Hk.
  - destruct (String.eqb k k0) eqn:E; simpl.
    + apply String.eqb_eq in E. subst k0. now rewrite Hk.
    + now rewrite IH.
Qed.

Lemma store_back_dict (d : list (string * json)) (k : string) (v : json) :
  exists d', store_back (JDict d) k v = JDict d'
             /\ (forall k', String.eqb k' k = false -> dict_lookup k' d' = dict_lookup k' d)
             /\ (has_key k d = true -> dict_lookup k d' = Some v)
             /\ (has_key k d = false -> d' = d).
Proof.
  unfold store_back. destruct (has_key k d) eqn:E.
  - eexists; split; [reflexivity|]. repeat split.
    + intros k' Hk. now apply dict_lookup_set_other.
    + intros _. apply dict_lookup_set_same.
    + discriminate.
  - exists d. repeat split; congruence.
Qed.

Lemma py_get_after_fold (d : list (string * json)) (b : bool) (flags : json)
  (k : string) (dflt : json) :
  String.eqb k "flags" = false ->
  py_get (if b then store_back (JDict d) "flags" flags else JDict d) k dflt
  = Ok (lookup_or k d dflt).
Proof.
  intros Hk. destruct b; [|reflexivity].
  destruct (store_back_dict d "flags" flags) as (d1 & -> & H & _).
  rewrite py_get_dict. unfold lookup_or. now rewrite H.
Qed.

(** Unfolds a successful run into the equations of its steps. *)
Ltac inv_generate H :=
  unfold generate_interactive_html in H;
  repeat first
    [ apply bind_ok in H;
      let v := fresh "v" in
      let E := fresh "E" in
      destruct H as (v & E & H)
    | progress cbv zeta in H ];
  injection H as <- <-.

(** *** The classifier *)

Lemma detect_early (d : list (string * json)) (sv : string) :
  declared_version d = Some sv ->
  rule_version sv || rule_sections d = true ->
  detect_schema_version (JDict d) = Ok "5.0".
Proof.
  unfold declared_version, rule_version, rule_sections, detect_schema_version.
  rewrite !py_get_dict; simpl.
  destruct (lookup_or "report_info" d (JDict [])) as [| | | | |l|r]; try discriminate.
  rewrite py_get_dict; simpl.
  destruct (lookup_or "schema_version" r (JStr "")) as [| | | |s| |]; try discriminate.
  intros [= ->]; simpl.
  destruct (prefix "5." sv); simpl; [reflexivity|].
  destruct (truthy (lookup_or "recurring_payments" d JNull)) eqn:E1; simpl.
  - rewrite E1. reflexivity.
  - intros ->. reflexivity.
Qed.

Lemma detect_by_rules (d : list (string * json)) (sv : string) :
  declared_version d = Some sv ->
  accounts_shape d = true ->
  detect_schema_version (JDict d)
  = Ok (if rule_version sv || rule_sections d || rule_intraday d then "5.0" else "4.0").
Proof.
  intros Hv Hs.
  destruct (rule_version sv || rule_sections d) eqn:E.
  { simpl. now apply detect_early with sv. }
  simpl. apply orb_false_iff in E as [E1 E2].
  revert Hv Hs E1 E2.
  unfold declared_version, rule_version, rule_sections, accounts_shape, rule_intraday,
    detect_schema_version.
  rewrite !py_get_dict; simpl.
  destruct (lookup_or "report_info" d (JDict [])) as [| | | | |l|r]; try discriminate.
  rewrite py_get_dict; simpl.
  destruct (lookup_or "schema_version" r (JStr "")) as [| | | |s| |]; try discriminate.
  intros [= ->] Hs E1 E2; simpl. rewrite E1.
  apply orb_false_iff in E2 as [E2 E3]. rewrite E2; simpl. rewrite E3.
  destruct (lookup_or "accounts" d (JList [])) as [| |z|q|s|accs|ad] eqn:Ea.
  1-5: simpl in Hs |- *; try reflexivity;
       apply negb_true_iff in Hs; rewrite Hs; reflexivity.
  - destruct accs as [|a accs]; [reflexivity|].
    destruct a as [| | | | | |a]; try discriminate.
    cbn [truthy py_item nth_error bind first_entry_intraday].
    rewrite py_get_dict. cbn [bind].
    destruct (lookup_or "monthly_summary" a (JList [])) as [| |z|q|s|ms|md] eqn:Em.
    1-5: simpl in Hs |- *; try reflexivity;
         apply negb_true_iff in Hs; rewrite Hs; reflexivity.
    + destruct ms as [|m ms]; [reflexivity|].
      destruct m as [| | | | | |m]; try discriminate.
      simpl. destruct (has_key "highest_intraday" m); reflexivity.
    + destruct md; [reflexivity | discriminate].
  - destruct ad; [reflexivity | discriminate].
Qed.

(** C6. Monthly high and low balance follow a symmetric fallback chain: the
    tag "5.0" reads the intraday name, then the legacy name, then 0; the tag
    "4.0" reads the legacy name, then the intraday name, then 0.  An entry
    that has only the non-preferred name resolves to that value. *)
Theorem monthly_high_low_symmetric_fallback (m : list (string * json)) :
  get_monthly_high (JDict m) "5.0"
    = Ok (resolve_chain [(m, "highest_intraday"); (m, "highest")] (JInt 0))
  /\ get_monthly_high (JDict m) "4.0"
    = Ok (resolve_chain [(m, "highest"); (m, "highest_intraday")] (JInt 0))
  /\ get_monthly_low (JDict m) "5.0"
    = Ok (resolve_chain [(m, "lowest_intraday"); (m, "lowest")] (JInt 0))
  /\ get_monthly_low (JDict m) "4.0"
    = Ok (resolve_chain [(m, "lowest"); (m, "lowest_intraday")] (JInt 0))
  /\ (forall x, dict_lookup "highest_intraday" m = None ->
                dict_lookup "highest" m = Some x ->
                get_monthly_high (JDict m) "5.0" = Ok x)
  /\ (forall x, dict_lookup "highest" m = None ->
                dict_lookup "highest_intraday" m = Some x ->
                get_monthly_high (JDict m) "4.0" = Ok x)
  /\ (forall x, dict_lookup "lowest_intraday" m = None ->
                dict_lookup "lowest" m = Some x ->
                get_monthly_low (JDict m) "5.0" = Ok x)
  /\ (forall x, dict_lookup "lowest" m = None ->
                dict_lookup "lowest_intraday" m = Some x ->
                get_monthly_low (JDict m) "4.0" = Ok x).
Proof.
  unfold get_monthly_high, get_monthly_low, py_get, py_get_with, resolve_chain; simpl.
  repeat split; try (intros x H1 H2; rewrite H1, H2; reflexivity);
    repeat match goal with
           | |- context [dict_lookup ?k m] => destruct (dict_lookup k m)
           end; reflexivity.
Qed.

(** C4, as the code has it.  The four rules apply in order and the first
    match wins; rule 3 looks at the first account only: a document is
    classified "5.0" whenever the first account's first monthly entry has the
    field [highest_intraday], also when the version string is missing or is a
    string that does not start with "5.". *)
Theorem schema_rules_first_match (d : list (string * json)) (sv : string) :
  declared_version d = Some sv ->
  (rule_version sv = true -> detect_schema_version (JDict d) = Ok "5.0")
  /\ (rule_version sv = false -> rule_sections d = true ->
      detect_schema_version (JDict d) = Ok "5.0")
  /\ (rule_version sv = false -> rule_sections d = false -> rule_intraday d = true ->
      detect_schema_version (JDict d) = Ok "5.0")
  /\ (rule_version sv = false -> rule_sections d = false -> rule_intraday d = false ->
      accounts_shape d = true ->
      detect_schema_version (JDict d) = Ok "4.0").
Proof.
  intros Hv. repeat split.
  - intros H1. apply detect_early with sv; [assumption | now rewrite H1].
  - intros H1 H2. apply detect_early with sv; [assumption | now rewrite H1, H2].
  - intros H1 H2 H3.
    assert (Hs : accounts_shape d = true).
    { revert H3. unfold rule_intraday, accounts_shape, first_entry_intraday.
      destruct (lookup_or "accounts" d (JList [])) as [| | | | |accs|]; try discriminate.
      destruct accs as [|[| | | | | |a] accs]; try discriminate.
      destruct (lookup_or "monthly_summary" a (JList [])) as [| | | | |ms|]; try discriminate.
      destruct ms as [|[| | | | | |m] ms]; try discriminate. reflexivity. }
    rewrite (detect_by_rules d sv Hv Hs), H1, H2, H3. reflexivity.
  - intros H1 H2 H3 Hs.
    rewrite (detect_by_rules d sv Hv Hs), H1, H2, H3. reflexivity.
Qed.


(** *** Equality of hashable values *)

Lemma py_eq_scalar_sym (a b : json) : py_eq_scalar a b = py_eq_scalar b a.
Proof.
  destruct a, b; simpl; try reflexivity;
    try (apply Bool.eq_true_iff_eq; rewrite !Qeq_bool_iff; split; apply Qeq_sym).
  apply String.eqb_sym.
Qed.

Lemma py_eq_scalar_trans (a b c : json) :
  py_eq_scalar a b = true -> py_eq_scalar b c = true -> py_eq_scalar a c = true.
Proof.
  destruct a, b; simpl; try discriminate; destruct c; simpl; try discriminate;
    try reflexivity;
    try (rewrite !Qeq_bool_iff; apply Qeq_trans).
  intros H1 H2. apply String.eqb_eq in H1, H2. subst. apply String.eqb_refl.
Qed.

(** *** The deduplication loop *)

Lemma dedup_loop (sources : list json) :
  forall (seen uniq earlier : list json) (st : list json * list json),
    (forall x, py_hashable x = true ->
               existsb (py_eq_scalar x) seen
               = existsb (fun e => py_eq_scalar x (inflow_of e)) earlier) ->
    for_each dedup_step sources (seen, uniq) = Ok st ->
    snd st = uniq ++ first_by_inflow earlier sources.
Proof.
  induction sources as [|s rest IH]; intros seen uniq earlier st Hinv H.
  - simpl in H. injection H as <-. simpl. now rewrite app_nil_r.
  - simpl in H. apply bind_ok in H as (st1 & Hstep & H).
    unfold dedup_step in Hstep. cbn [fst snd] in Hstep.
    apply bind_ok in Hstep as (amount & Ha & Hstep).
    apply py_get_ok in Ha as (sd & -> & ->).
    apply bind_ok in Hstep as (dup & Hdup & Hstep).
    unfold py_in_set in Hdup.
    destruct (py_hashable (lookup_or "total_inflow" sd (JInt 0))) eqn:Hh; [|discriminate].
    injection Hdup as <-.
    cbn [first_by_inflow inflow_of].
    rewrite <- (Hinv _ Hh).
    destruct (existsb (py_eq_scalar (lookup_or "total_inflow" sd (JInt 0))) seen) eqn:Hex;
      injection Hstep as <-.
    + rewrite (IH seen uniq (earlier ++ [JDict sd]) st); [reflexivity| |assumption].
      intros x Hx. rewrite existsb_app, <- (Hinv x Hx). cbn [existsb inflow_of].
      rewrite orb_false_r.
      destruct (py_eq_scalar x (lookup_or "total_inflow" sd (JInt 0))) eqn:Exa;
        [|now rewrite orb_false_r].
      rewrite orb_true_r.
      apply existsb_exists in Hex as (a & Hin & Ha).
      apply existsb_exists. exists a. split; [assumption|].
      now apply py_eq_scalar_trans with (lookup_or "total_inflow" sd (JInt 0)).
    + rewrite (IH (seen ++ [lookup_or "total_inflow" sd (JInt 0)]) (uniq ++ [JDict sd])
                 (earlier ++ [JDict sd]) st); [now rewrite <- app_assoc| |assumption].
      intros x Hx. rewrite !existsb_app, <- (Hinv x Hx). reflexivity.
Qed.

(** C7. Non-bank financing sources are deduplicated by inflow amount, first
    occurrence kept and order preserved: a source is kept exactly when no
    earlier source of the list has an equal [total_inflow].  For the sources
    A(100), B(100), C(200) the result is A(100), C(200). *)
Theorem nonbank_sources_dedup_by_inflow :
  (forall (d : list (string * json)) (now : string) (rep : report) (data' : json),
      generate_interactive_html (JDict d) now = Ok (rep, data') ->
      truthy (lookup_or "non_bank_financing" d (JDict [])) = true ->
      exists non_bank sources,
        lookup_or "non_bank_financing" d (JDict []) = JDict non_bank
        /\ py_iter (lookup_or "sources" non_bank (JList [])) = Ok sources
        /\ unique_sources rep = Some (first_by_inflow [] sources))
  /\ unique_sources_of (JDict [("sources", JList [source_A; source_B; source_C])])
     = Ok [source_A; source_C].
Proof.
  split; [|reflexivity].
  intros d now rep data' H Ht. inv_generate H. cbn [unique_sources].
  repeat match goal with
         | E : py_get (if _ then _ else _) _ _ = Ok _ |- _ =>
             rewrite py_get_after_fold in E by reflexivity
         end.
  match goal with
  | E : Ok (lookup_or "non_bank_financing" d _) = Ok ?nb,
    Eu : (if truthy ?nb then _ else _) = Ok ?u |- _ =>
      injection E as <-; rewrite Ht in Eu;
      apply bind_ok in Eu as (u0 & Eu & Eo); injection Eo as <-;
      unfold unique_sources_of in Eu;
      apply bind_ok in Eu as (srcs & Es & Eu);
      apply py_get_ok in Es as (nb & Enb & ->);
      apply bind_ok in Eu as (sources & Ei & Eu);
      apply bind_ok in Eu as (st & El & Eo); injection Eo as <-;
      exists nb, sources; repeat split; try assumption;
      rewrite (dedup_loop sources [] [] [] st); [reflexivity| |assumption]
  end.
  reflexivity.
Qed.

(** *** The volatility-alert loops *)







(** *** Strings *)

Lemma append_nil_r (s : string) : s +++ "" = s.
Proof. induction s as [|c s IH]; simpl; [reflexivity | now rewrite IH]. Qed.

Lemma append_assoc (a b c : string) : (a +++ b) +++ c = a +++ (b +++ c).
Proof. induction a as [|x a IH]; simpl; [reflexivity | now rewrite IH]. Qed.

Lemma concat_cons (x : string) (l : list string) :
  String.concat "" (x :: l) = x +++ String.concat "" l.
Proof. destruct l; simpl; [now rewrite append_nil_r | reflexivity]. Qed.

(** *** The kite-flying rows *)







(** *** The string literals of [json.dumps] *)

Lemma json_escaped_app (a b : string) :
  json_escaped a -> json_escaped b -> json_escaped (a +++ b).
Proof.
  intros Ha Hb. induction Ha; simpl; [assumption | | |];
    constructor; assumption.
Qed.

Lemma hex_digit_is_hex (x : Z) :
  exists c, hex_digit (x mod 16) = String c EmptyString /\ is_hex c = true.
Proof.
  assert (H : 0 <= x mod 16 < 16) by (apply Z.mod_pos_bound; lia).
  assert (Hc : x mod 16 = 0 \/ x mod 16 = 1 \/ x mod 16 = 2 \/ x mod 16 = 3
               \/ x mod 16 = 4 \/ x mod 16 = 5 \/ x mod 16 = 6 \/ x mod 16 = 7
               \/ x mod 16 = 8 \/ x mod 16 = 9 \/ x mod 16 = 10 \/ x mod 16 = 11
               \/ x mod 16 = 12 \/ x mod 16 = 13 \/ x mod 16 = 14 \/ x mod 16 = 15)
    by lia.
  repeat (destruct Hc as [Hc|Hc]; [rewrite Hc; eexists; split; reflexivity|]).
  rewrite Hc; eexists; split; reflexivity.
Qed.

Lemma unicode_escape_escaped (n : Z) (s : string) :
  json_escaped s -> json_escaped ("\u" +++ hex4 n +++ s).
Proof.
  intros Hs. unfold hex4.
  destruct (hex_digit_is_hex (n / 4096)) as (h1 & -> & H1).
  destruct (hex_digit_is_hex (n / 256)) as (h2 & -> & H2).
  destruct (hex_digit_is_hex (n / 16)) as (h3 & -> & H3).
  destruct (hex_digit_is_hex n) as (h4 & -> & H4).
  simpl. now constructor.
Qed.

Lemma json_escape_char_escaped (c : string) (s : string) :
  json_escaped s -> json_escaped (json_escape_char c +++ s).
Proof.
  intros Hs. unfold json_escape_char.
  repeat match goal with
         | |- context [if ?b then _ else _] => destruct b eqn:?
         end;
    try (simpl; apply escaped_short; [reflexivity | assumption]).
  - simpl. apply escaped_plain; [|assumption].
    match goal with H : _ && _ = true |- _ => apply andb_true_iff in H as [Hlo Hhi] end.
    apply Z.leb_le in Hlo, Hhi.
    repeat match goal with H : (_ =? _) = false |- _ => apply Z.eqb_neq in H end.
    unfold plain_char. rewrite nat_ascii_embedding by lia.
    repeat (apply andb_true_iff; split).
    + apply Nat.leb_le. lia.
    + apply Nat.leb_le. lia.
    + apply negb_true_iff, Nat.eqb_neq. lia.
    + apply negb_true_iff, Nat.eqb_neq. lia.
  - now apply unicode_escape_escaped.
  - match goal with
    | |- json_escaped (("\u" +++ hex4 ?a +++ "\u" +++ hex4 ?b) +++ s) =>
        change (json_escaped ("\u" +++ (hex4 a +++ ("\u" +++ hex4 b)) +++ s));
        rewrite append_assoc; apply unicode_escape_escaped;
        change (json_escaped ("\u" +++ hex4 b +++ s));
        now apply unicode_escape_escaped
    end.
Qed.

Lemma json_string_escaped (s : string) :
  exists body, json_string s = String dquote (body +++ String dquote EmptyString)
               /\ json_escaped body.
Proof.
  unfold json_string. eexists; split; [reflexivity|].
  induction (utf8_chars s) as [|c cs IH]; [constructor|].
  cbn [map]. rewrite concat_cons. now apply json_escape_char_escaped.
Qed.

(** *** Rendering of lists *)

Lemma map_result_ok_map {A B : Type} (f : A -> result B) (g : A -> B) (xs : list A)
  (ys : list B) :
  (forall x y, f x = Ok y -> y = g x) ->
  map_result f xs = Ok ys -> ys = map g xs.
Proof.
  intros Hfg. revert ys. induction xs as [|x xs IH]; intros ys H; simpl in H.
  - now injection H as <-.
  - apply bind_ok in H as (y & Hy & H). apply bind_ok in H as (ys' & Hys & H).
    injection H as <-. simpl. f_equal; [now apply Hfg | now apply IH].
Qed.

Lemma round_txn_entry_spec (t entry : json) :
  round_txn_entry t = Ok entry -> entry = spec_round_entry t.
Proof.
  unfold round_txn_entry. intros H.
  apply bind_ok in H as (date & Hd & H). apply py_get_ok in Hd as (td & -> & ->).
  rewrite !py_get_dict in H. cbn [bind] in H. now injection H as <-.
Qed.




(** *** A second run on the document the first run leaves *)




Lemma lookup_or_eq (k : string) (d d' : list (string * json)) (dflt : json) :
  dict_lookup k d' = dict_lookup k d -> lookup_or k d' dflt = lookup_or k d dflt.
Proof. unfold lookup_or. now intros ->. Qed.














Lemma detect_same_lookups (d d3 : list (string * json)) :
  dict_lookup "report_info" d3 = dict_lookup "report_info" d ->
  dict_lookup "accounts" d3 = dict_lookup "accounts" d ->
  dict_lookup "non_bank_financing" d3 = dict_lookup "non_bank_financing" d ->
  truthy (lookup_or "recurring_payments" d3 JNull)
  = truthy (lookup_or "recurring_payments" d JNull) ->
  detect_schema_version (JDict d3) = detect_schema_version (JDict d).
Proof.
  intros Hr Ha Hn Ht. unfold detect_schema_version. rewrite !py_get_dict.
  rewrite (lookup_or_eq "report_info" d d3), (lookup_or_eq "accounts" d d3),
    (lookup_or_eq "non_bank_financing" d d3) by assumption.
  cbn [bind].
  destruct (py_get (lookup_or "report_info" d (JDict [])) "schema_version" (JStr ""))
    as [sv|]; [|reflexivity]. cbn [bind].
  destruct (py_startswith sv "5.") as [[|]|]; try reflexivity. cbn [bind].
  rewrite Ht.
  destruct (truthy (lookup_or "recurring_payments" d JNull)) eqn:Tr; cbn [bind].
  - now rewrite Ht, Tr.
  - reflexivity.
Qed.




(** *** The clock *)


Lemma truthy_lookup_default (k : string) (d : list (string * json)) :
  truthy (lookup_or k d JNull) = truthy (lookup_or k d (JDict [])).
Proof. unfold lookup_or. now destruct (dict_lookup k d). Qed.



(** C9. A document with no [counterparties] key has an empty navigation
    slot and an empty section slot for counterparties, and its navigation
    bar does not mention the counterparty tab at all. *)
Theorem no_counterparties_no_markup (d : list (string * json)) (now : string)
  (rep : report) (data' : json) :
  generate_interactive_html (JDict d) now = Ok (rep, data') ->
  dict_lookup "counterparties" d = None ->
  counterparty_nav rep = ""
  /\ counterparty_tab rep = ""
  /\ is_substring "counterparties" (nav_tabs rep) = false.
Proof.
  intros H Hnone. inv_generate H. cbn [counterparty_nav counterparty_tab nav_tabs].
  match goal with
  | E : py_get _ "counterparties" _ = Ok ?v |- _ =>
      rewrite py_get_after_fold in E by reflexivity;
      unfold lookup_or in E; rewrite Hnone in E; injection E as <-
  end.
  match goal with
  | E : counterparty_tab_of _ = Ok ?v |- _ => cbn in E; injection E as <-
  end.
  repeat split.
  unfold recurring_nav_of, nonbank_nav_of.
  repeat match goal with |- context [truthy ?x] => destruct (truthy x) end;
    vm_compute; reflexivity.
Qed.

(** C3, as the code has it.  The transfer list is read from
    [matched_transfers] (its all-transfers list before its top-10 list), else
    from the legacy top-level [transfers]; the count is read from [summary],
    else from the legacy [detected_count], else it is the length of the
    resolved list; the total is read from [summary], else from the legacy
    [total_amount], else it is 0: the list is counted but not summed. *)
Theorem inter_account_fallback_chain (d : list (string * json)) (now : string)
  (rep : report) (data' : json) :
  generate_interactive_html (JDict d) now = Ok (rep, data') ->
  exists inter_account matched summary n,
    lookup_or "inter_account_transfers" d (JDict []) = JDict inter_account
    /\ lookup_or "matched_transfers" inter_account (JDict []) = JDict matched
    /\ lookup_or "summary" inter_account (JDict []) = JDict summary
    /\ inter_transfers rep
       = resolve_chain [(matched, "all_transfers"); (matched, "top_10_transfers");
                        (inter_account, "transfers")] (JList [])
    /\ py_len (inter_transfers rep) = Ok n
    /\ inter_count rep
       = resolve_chain [(summary, "total_count"); (inter_account, "detected_count")]
           (JInt n)
    /\ inter_total rep
       = resolve_chain [(summary, "total_amount"); (inter_account, "total_amount")]
           (JInt 0).
Proof.
  intros H. inv_generate H. cbn [inter_transfers inter_count inter_total].
  repeat match goal with
         | E : py_get (if _ then _ else _) _ _ = Ok _ |- _ =>
             rewrite py_get_after_fold in E by reflexivity
         end.
  match goal with
  | E : Ok _ = Ok ?ia, Em : py_get ?ia "matched_transfers" _ = Ok ?m,
    Es : py_get ?ia "summary" _ = Ok ?sm,
    Et : inter_transfers_of ?ia ?m = Ok ?t,
    Ec : inter_count_of ?ia ?sm ?t = Ok ?c,
    Eo : inter_total_of ?ia ?sm = Ok ?o |- _ =>
      injection E as <-;
      apply py_get_ok in Em as (ia & Eia & ->);
      rewrite Eia in *;
      unfold inter_transfers_of, inter_count_of, inter_total_of in Et, Ec, Eo;
      rewrite ?py_get_dict in Es; injection Es as <-;
      destruct (lookup_or "matched_transfers" ia (JDict [])) as [| | | | | |matched]
        eqn:Ematched; try discriminate;
      destruct (lookup_or "summary" ia (JDict [])) as [| | | | | |summary]
        eqn:Esummary; try discriminate;
      cbn in Et; injection Et as <-;
      cbn [py_get_with py_get bind] in Ec, Eo;
      exists ia, matched, summary
  end.
  match goal with
  | Ec : context [py_len ?t] |- _ =>
      destruct (py_len t) as [n|] eqn:En; [|discriminate]; exists n;
      cbn [bind] in Ec; injection Ec as <-
  end.
  match goal with Eo : Ok _ = Ok _ |- _ => injection Eo as <- end.
  unfold resolve_chain, lookup_or.
  repeat split; try reflexivity; try assumption.
Qed.

End Report.

(** ** The theorems at concrete documents *)

Lemma monthly_high_low_symmetric_fallback_witness :
  get_monthly_high (JDict month_legacy_only) "5.0" = Ok (JInt 900)
  /\ get_monthly_low (JDict month_legacy_only) "5.0" = Ok (JInt 100).
Proof.
  split.
  - apply (proj1 (proj2 (proj2 (proj2 (proj2
             (monthly_high_low_symmetric_fallback month_legacy_only)))))); reflexivity.
  - apply (proj1 (proj2 (proj2 (proj2 (proj2 (proj2 (proj2
             (monthly_high_low_symmetric_fallback month_legacy_only))))))));
      reflexivity.
Defined.

Lemma schema_rules_first_match_witness :
  declared_version doc_second_account_intraday = Some ""
  /\ detect_schema_version (JDict doc_second_account_intraday) = Ok "4.0".
Proof.
  split; [reflexivity|].
  apply (proj2 (proj2 (proj2
           (schema_rules_first_match doc_second_account_intraday "" eq_refl))));
    reflexivity.
Defined.


(** C4 as stated fails: the second account's first monthly entry has the
    intraday field, and the document is still classified "4.0". *)
Lemma second_account_intraday_is_legacy :
  spec_any_account_intraday doc_second_account_intraday = true
  /\ detect_schema_version (JDict doc_second_account_intraday) = Ok "4.0"
  /\ detect_schema_version (JDict doc_second_account_intraday) <> Ok "5.0".
Proof. repeat split. discriminate. Qed.


Lemma inter_account_fallback_chain_witness :
  exists rep data' inter_account matched summary n,
    generate_interactive_html no_repr no_section (JDict doc_sample) clock_1
    = Ok (rep, data')
    /\ lookup_or "inter_account_transfers" doc_sample (JDict []) = JDict inter_account
    /\ lookup_or "matched_transfers" inter_account (JDict []) = JDict matched
    /\ lookup_or "summary" inter_account (JDict []) = JDict summary
    /\ inter_transfers rep
       = resolve_chain [(matched, "all_transfers"); (matched, "top_10_transfers");
                        (inter_account, "transfers")] (JList [])
    /\ py_len (inter_transfers rep) = Ok n
    /\ inter_count rep
       = resolve_chain [(summary, "total_count"); (inter_account, "detected_count")]
           (JInt n)
    /\ inter_total rep
       = resolve_chain [(summary, "total_amount"); (inter_account, "total_amount")]
           (JInt 0).
Proof.
  eexists. eexists.
  assert (Hrun : generate_interactive_html no_repr no_section (JDict doc_sample) clock_1
                 = Ok (?[rep], ?[data'])) by (vm_compute; reflexivity).
  destruct (inter_account_fallback_chain no_repr no_section doc_sample clock_1 _ _ Hrun)
    as (ia & m & sm & n & H).
  exists ia, m, sm, n. split; [exact Hrun | exact H].
Defined.

(** C3 as stated fails: with neither a summary nor a legacy total, the total
    is 0 although the two listed transfers sum to 350. *)
Lemma inter_total_not_summed :
  exists rep data',
    generate_interactive_html no_repr no_section (JDict doc_transfers) clock_1
    = Ok (rep, data')
    /\ inter_count rep = JInt 2
    /\ inter_total rep = JInt 0
    /\ spec_inter_total [] [("transfers", inter_transfers rep)]
         [JDict [("amount", JInt 100)]; JDict [("amount", JInt 250)]] = JInt 350
    /\ inter_total rep
       <> spec_inter_total [] [("transfers", inter_transfers rep)]
            [JDict [("amount", JInt 100)]; JDict [("amount", JInt 250)]].
Proof.
  eexists. eexists. split; [vm_compute; reflexivity|]. repeat split. discriminate.
Qed.

Lemma nonbank_sources_dedup_by_inflow_witness :
  exists rep data' non_bank sources,
    generate_interactive_html no_repr no_section (JDict doc_sample) clock_1
    = Ok (rep, data')
    /\ lookup_or "non_bank_financing" doc_sample (JDict []) = JDict non_bank
    /\ py_iter (lookup_or "sources" non_bank (JList [])) = Ok sources
    /\ unique_sources rep = Some (first_by_inflow [] sources).
Proof.
  eexists. eexists.
  assert (Hrun : generate_interactive_html no_repr no_section (JDict doc_sample) clock_1
                 = Ok (?[rep], ?[data'])) by (vm_compute; reflexivity).
  destruct (proj1 (nonbank_sources_dedup_by_inflow no_repr no_section)
              doc_sample clock_1 _ _ Hrun eq_refl) as (nb & sources & H).
  exists nb, sources. split; [exact Hrun | exact H].
Defined.


Lemma no_counterparties_no_markup_witness :
  exists rep data',
    generate_interactive_html no_repr no_section (JDict doc_sample) clock_1
    = Ok (rep, data')
    /\ counterparty_nav rep = ""
    /\ counterparty_tab rep = ""
    /\ is_substring "counterparties" (nav_tabs rep) = false.
Proof.
  eexists. eexists.
  assert (Hrun : generate_interactive_html no_repr no_section (JDict doc_sample) clock_1
                 = Ok (?[rep], ?[data'])) by (vm_compute; reflexivity).
  split; [exact Hrun|].
  exact (no_counterparties_no_markup no_repr no_section doc_sample clock_1 _ _
           Hrun eq_refl).
Defined.






Example detect_empty : detect_schema_version (JDict []) = Ok "4.0".
Proof. reflexivity. Qed.

Example chars_demo : utf8_chars "a→b" = ["a"; "→"; "b"].
Proof. reflexivity. Qed.

Example str_of_Z_demo : (str_of_Z 150, str_of_Z (-7), str_of_Z 0) = ("150", "-7", "0").
Proof. reflexivity. Qed.

Example fmt_demo :
  (format_0f (JInt 150), format_0f (JFloat (5 # 2)), format_0f (JFloat (7 # 2)),
   format_0f (JFloat (-1 # 4)), format_0f (JInt (2 ^ 53 + 1)))
  = (Ok "150", Ok "2", Ok "4", Ok "-0", Ok "9007199254740992").
Proof. vm_compute. reflexivity. Qed.

Example dumps_demo :
  json_dumps (fun _ => "") (JList [JDict [("date", JStr "a→b"); ("n", JInt 3)]; JStr "x👥"; JNull])
  = qq "[{`date`: `a\u2192b`, `n`: 3}, `x\ud83d\udc65`, null]".
Proof. vm_compute. reflexivity. Qed.

Example run_updates_document_in_place :
  exists rep data',
    generate_interactive_html no_repr no_section (JDict doc_in_place) clock_1
    = Ok (rep, data')
    /\ field (field data' "volatility" JNull) "alerts" JNull
       = JList [JStr "Jun 2024 (Alpha): 150% volatility - HIGH"]
    /\ field (field (field data' "flags" JNull) "round_figure_transactions" JNull)
         "count" JNull = JInt 12
    /\ rec_payments rep = Some (field (field data' "recurring_payments" JNull)
                                  "payment_types" JNull).
Proof.
  eexists. eexists. split; [vm_compute; reflexivity|]. repeat split.
Qed.

(** * Further properties of the pipeline *)

Local Infix "+++" := String.append (right associativity, at level 60).

(** ** Strings as sequences of characters *)

Lemma list_of_append (a b : string) :
  list_ascii_of_string (a +++ b) = list_ascii_of_string a ++ list_ascii_of_string b.
Proof. induction a as [|c a IH]; simpl; [reflexivity | now rewrite IH]. Qed.

Lemma string_of_app (l r : list ascii) :
  string_of_list_ascii (l ++ r) = string_of_list_ascii l +++ string_of_list_ascii r.
Proof. induction l as [|c l IH]; simpl; [reflexivity | now rewrite IH]. Qed.

Lemma all_chars_forallb (p : ascii -> bool) (s : string) :
  all_chars p s = forallb p (list_ascii_of_string s).
Proof. induction s as [|c s IH]; simpl; [reflexivity | now rewrite IH]. Qed.

Lemma all_chars_of_list (p : ascii -> bool) (l : list ascii) :
  all_chars p (string_of_list_ascii l) = forallb p l.
Proof. now rewrite all_chars_forallb, list_ascii_of_string_of_list_ascii. Qed.

Lemma all_chars_app (p : ascii -> bool) (a b : string) :
  all_chars p (a +++ b) = all_chars p a && all_chars p b.
Proof. now rewrite !all_chars_forallb, list_of_append, forallb_app. Qed.

Lemma all_chars_weaken (p q : ascii -> bool) (s : string) :
  (forall c, p c = true -> q c = true) ->
  all_chars p s = true -> all_chars q s = true.
Proof.
  intros Hpq. induction s as [|c s IH]; simpl; [reflexivity|].
  intros H. apply andb_true_iff in H as [Hc Hs].
  now rewrite (Hpq c Hc), IH.
Qed.

(** *** Stripping the two ends *)

Lemma drop_while_split {A : Type} (p : A -> bool) (l : list A) :
  exists pre, l = pre ++ drop_while p l /\ forallb p pre = true.
Proof.
  induction l as [|x l (pre & IH & Hp)]; simpl.
  - now exists [].
  - destruct (p x) eqn:E.
    + exists (x :: pre). simpl. rewrite E, Hp. now rewrite <- IH.
    + now exists [].
Qed.

Lemma drop_while_head {A : Type} (p : A -> bool) (l : list A) (x : A) (r : list A) :
  drop_while p l = x :: r -> p x = false.
Proof.
  induction l as [|y l IH]; simpl; [discriminate|].
  destruct (p y) eqn:E; [exact IH|]. now intros [= <- _].
Qed.

Lemma drop_while_all {A : Type} (p : A -> bool) (l : list A) :
  forallb p l = true -> drop_while p l = [].
Proof.
  induction l as [|x l IH]; simpl; [reflexivity|].
  intros H. apply andb_true_iff in H as [-> Hl]. now apply IH.
Qed.

Lemma drop_while_fixed {A : Type} (p : A -> bool) (l : list A) :
  (forall x r, l = x :: r -> p x = false) -> drop_while p l = l.
Proof.
  destruct l as [|x l]; simpl; [reflexivity|].
  intros H. now rewrite (H x l eq_refl).
Qed.

Lemma strip_list_split {A : Type} (p : A -> bool) (l : list A) :
  exists pre post,
    l = pre ++ strip_list p l ++ post
    /\ forallb p pre = true /\ forallb p post = true.
Proof.
  unfold strip_list.
  destruct (drop_while_split p l) as (pre & Hl & Hpre).
  destruct (drop_while_split p (rev (drop_while p l))) as (post & Hr & Hpost).
  exists pre, (rev post). repeat split.
  - rewrite <- rev_app_distr, <- Hr, rev_involutive. exact Hl.
  - exact Hpre.
  - rewrite forallb_forall in *. intros x Hx. apply Hpost. now apply in_rev.
Qed.

Lemma strip_list_last {A : Type} (p : A -> bool) (l r : list A) (x : A) :
  strip_list p l = r ++ [x] -> p x = false.
Proof.
  unfold strip_list. intros H.
  apply (f_equal (@rev A)) in H. rewrite rev_involutive, rev_app_distr in H.
  simpl in H. now apply drop_while_head in H.
Qed.

Lemma strip_list_first {A : Type} (p : A -> bool) (l r : list A) (x : A) :
  strip_list p l = x :: r -> p x = false.
Proof.
  intros H.
  destruct (drop_while_split p (rev (drop_while p l))) as (post & Hr & _).
  apply (f_equal (@rev A)) in Hr. rewrite rev_involutive, rev_app_distr in Hr.
  fold (strip_list p l) in Hr. rewrite H in Hr. simpl in Hr.
  now apply drop_while_head in Hr.
Qed.

Lemma strip_list_all {A : Type} (p : A -> bool) (l : list A) :
  forallb p l = true -> strip_list p l = [].
Proof. intros H. unfold strip_list. now rewrite (drop_while_all p l H). Qed.

Lemma strip_list_fixed {A : Type} (p : A -> bool) (l : list A) :
  (forall x r, l = x :: r -> p x = false) ->
  (forall r x, l = r ++ [x] -> p x = false) ->
  strip_list p l = l.
Proof.
  intros Hfirst Hlast. unfold strip_list.
  rewrite (drop_while_fixed p l Hfirst), drop_while_fixed; [apply rev_involutive|].
  intros x r Hr. apply (Hlast (rev r) x).
  apply (f_equal (@rev A)) in Hr. rewrite rev_involutive in Hr. exact Hr.
Qed.

Lemma strip_list_forallb {A : Type} (p q : A -> bool) (l : list A) :
  forallb q l = true -> forallb q (strip_list p l) = true.
Proof.
  intros H. destruct (strip_list_split p l) as (pre & post & Hl & _ & _).
  rewrite Hl, !forallb_app in H.
  apply andb_true_iff in H as [_ H]. now apply andb_true_iff in H as [H _].
Qed.

(** *** Runs of a class of characters *)

Lemma re_sub_runs_chars (cls : ascii -> bool) (q : ascii -> bool) (s : string) :
  q "_"%char = true ->
  (forall c, cls c = false -> q c = true) ->
  forall in_run, all_chars q (re_sub_runs cls in_run s) = true.
Proof.
  intros Hu Hq. induction s as [|c s IH]; intros in_run; simpl; [reflexivity|].
  destruct (cls c) eqn:E.
  - destruct in_run; simpl; [apply IH | now rewrite Hu, IH].
  - simpl. now rewrite (Hq c E), IH.
Qed.

Lemma re_sub_runs_keeps (cls : ascii -> bool) (q : ascii -> bool) (s : string) :
  q "_"%char = true ->
  all_chars q s = true ->
  forall in_run, all_chars q (re_sub_runs cls in_run s) = true.
Proof.
  intros Hu. induction s as [|c s IH]; intros H in_run; simpl; [reflexivity|].
  simpl in H. apply andb_true_iff in H as [Hc Hs].
  destruct (cls c).
  - destruct in_run; simpl; [now apply IH | now rewrite Hu, IH].
  - simpl. now rewrite Hc, IH.
Qed.

Lemma re_sub_runs_none (cls : ascii -> bool) (s : string) :
  all_chars (fun c => negb (cls c)) s = true ->
  forall in_run, re_sub_runs cls in_run s = s.
Proof.
  induction s as [|c s IH]; intros H in_run; simpl; [reflexivity|].
  simpl in H. apply andb_true_iff in H as [Hc Hs].
  apply negb_true_iff in Hc. rewrite Hc. now rewrite IH.
Qed.

Lemma underscore_runs_single (s : string) :
  forall in_run,
    (forall a b, re_sub_runs (Ascii.eqb "_"%char) in_run s <> a +++ "__" +++ b)
    /\ (in_run = true ->
        forall rest, re_sub_runs (Ascii.eqb "_"%char) in_run s <> String "_"%char rest).
Proof.
  induction s as [|c s IH]; intros in_run; cbn [re_sub_runs].
  - split; [|discriminate]. intros [|x a] b; discriminate.
  - destruct (Ascii.eqb "_"%char c) eqn:E.
    + destruct in_run.
      * apply IH.
      * split; [|discriminate].
        intros [|x a] b; cbn [String.append]; intros [= H].
        -- now apply (proj2 (IH true) eq_refl b).
        -- now apply (proj1 (IH true) a b).
    + apply Ascii.eqb_neq in E. split.
      * intros [|x a] b; cbn [String.append]; intros [= H1 H2]; [congruence|].
        now apply (proj1 (IH false) a b).
      * intros _ rest [= H _]. congruence.
Qed.

Lemma underscore_runs_fixed (s : string) :
  forall in_run,
    (forall a b, s <> a +++ "__" +++ b) ->
    (in_run = true -> forall rest, s <> String "_"%char rest) ->
    re_sub_runs (Ascii.eqb "_"%char) in_run s = s.
Proof.
  induction s as [|c s IH]; intros in_run Hd Hh; cbn [re_sub_runs]; [reflexivity|].
  destruct (Ascii.eqb "_"%char c) eqn:E.
  - apply Ascii.eqb_eq in E. subst c.
    destruct in_run; [now destruct (Hh eq_refl s)|].
    rewrite IH; [reflexivity| |].
    + intros a b ->. now apply (Hd (String "_"%char a) b).
    + intros _ rest ->. now apply (Hd "" rest).
  - rewrite IH; [reflexivity| |discriminate].
    intros a b ->. now apply (Hd (String c a) b).
Qed.

(** *** Characters and bytes *)

Lemma utf8_chars_cons (c : ascii) (s' : string) :
  utf8_chars (String c s')
  = match s' with
    | String c' _ =>
        if is_continuation c' then
          match utf8_chars s' with
          | g :: gs => String c g :: gs
          | [] => [String c EmptyString]
          end
        else String c EmptyString :: utf8_chars s'
    | EmptyString => [String c EmptyString]
    end.
Proof. destruct s'; reflexivity. Qed.

Lemma ascii_not_continuation (c : ascii) :
  is_ascii_char c = true -> is_continuation c = false.
Proof.
  unfold is_ascii_char, is_continuation. intros H.
  apply Nat.ltb_lt in H. apply andb_false_iff. left. apply Nat.leb_gt. exact H.
Qed.

Lemma utf8_chars_ascii (s : string) :
  all_chars is_ascii_char s = true ->
  utf8_chars s = map (fun c => String c EmptyString) (list_ascii_of_string s).
Proof.
  induction s as [|c s IH]; [reflexivity|].
  intros H. cbn [all_chars] in H. apply andb_true_iff in H as [_ Hs].
  rewrite utf8_chars_cons. destruct s as [|c' s']; [reflexivity|].
  pose proof Hs as Hc'. cbn [all_chars] in Hc'. apply andb_true_iff in Hc' as [Hc' _].
  rewrite (ascii_not_continuation c' Hc'), (IH Hs). reflexivity.
Qed.

Lemma utf8_chars_keep (p : ascii -> bool) (s : string) :
  all_chars p s = true -> forallb (all_chars p) (utf8_chars s) = true.
Proof.
  induction s as [|c s IH]; [reflexivity|].
  intros H. cbn [all_chars] in H. apply andb_true_iff in H as [Hc Hs].
  specialize (IH Hs). rewrite utf8_chars_cons.
  destruct s as [|c' s']; [simpl; now rewrite Hc|].
  destruct (is_continuation c').
  - destruct (utf8_chars (String c' s')) as [|g gs]; simpl; [now rewrite Hc|].
    simpl in IH. now rewrite Hc.
  - cbn [forallb all_chars]. now rewrite Hc, IH.
Qed.

Lemma concat_all_chars (p : ascii -> bool) (l : list string) :
  forallb (all_chars p) l = true -> all_chars p (String.concat "" l) = true.
Proof.
  induction l as [|x l IH]; [reflexivity|].
  intros H. cbn [forallb] in H. apply andb_true_iff in H as [Hx Hl].
  rewrite concat_cons, all_chars_app, Hx. now apply IH.
Qed.

Lemma concat_singletons (l : list ascii) :
  String.concat "" (map (fun c => String c EmptyString) l) = string_of_list_ascii l.
Proof.
  induction l as [|c l IH]; [reflexivity|].
  cbn [map]. rewrite concat_cons, IH. reflexivity.
Qed.

Lemma py_strip_keeps (p : ascii -> bool) (s : string) :
  all_chars p s = true -> all_chars p (py_strip s) = true.
Proof.
  intros H. unfold py_strip. apply concat_all_chars, strip_list_forallb.
  now apply utf8_chars_keep.
Qed.

(** An ASCII text whose first and last characters are not white space is
    what [strip] returns for it. *)
Lemma py_strip_fixed (s : string) :
  all_chars is_ascii_char s = true ->
  (forall c rest, s = String c rest -> py_isspace (String c EmptyString) = false) ->
  (forall init c, s = init +++ String c EmptyString ->
                  py_isspace (String c EmptyString) = false) ->
  py_strip s = s.
Proof.
  intros Ha Hfirst Hlast. unfold py_strip. rewrite (utf8_chars_ascii s Ha).
  rewrite strip_list_fixed.
  - rewrite concat_singletons. apply string_of_list_ascii_of_string.
  - intros x r Hx. destruct s as [|c rest]; [discriminate|].
    simpl in Hx. injection Hx as <- _. now apply (Hfirst c rest).
  - intros r x Hx.
    assert (Hr : exists init c, s = init +++ String c EmptyString
                                /\ x = String c EmptyString).
    { clear -Hx. revert r Hx.
      induction s as [|c s IH]; intros r Hx.
      - destruct r; discriminate.
      - destruct r as [|y r]; simpl in Hx.
        + injection Hx as <- Hs. destruct s; [|discriminate].
          now exists "", c.
        + injection Hx as <- Hs. destruct (IH r Hs) as (init & c' & -> & ->).
          now exists (String c init), c'. }
    destruct Hr as (init & c & Hs & ->). now apply (Hlast init c).
Qed.

Lemma slug_char_plain (c : ascii) :
  slug_char c = true ->
  is_ascii_char c = true
  /\ py_isspace (String c EmptyString) = false
  /\ Ascii.eqb c " "%char = false.
Proof.
  intros H.
  destruct c as [[|] [|] [|] [|] [|] [|] [|] [|]];
    first [discriminate H | repeat split].
Qed.

Lemma no_underscore_shape (s : string) :
  all_chars (fun c => negb (Ascii.eqb "_"%char c)) s = true ->
  (forall rest, s <> String "_"%char rest)
  /\ (forall init, s <> init +++ "_")
  /\ (forall a b, s <> a +++ "__" +++ b).
Proof.
  intros H. repeat split.
  - intros rest ->. discriminate H.
  - intros init ->. rewrite all_chars_app in H. simpl in H.
    now rewrite andb_false_r in H.
  - intros a b ->. rewrite !all_chars_app in H. simpl in H.
    now rewrite andb_false_r in H.
Qed.

(** ** File names (app.py, lines 1188-1204) *)

Lemma slugify_text (text : json) (s : string) :
  _slugify text = Ok s ->
  exists t,
    s = (let u := py_strip_char "_"%char
                    (re_sub_runs (Ascii.eqb "_"%char) false
                       (re_sub_runs (fun c => negb (slug_char c)) false
                          (py_replace_char " "%char "_"%char (py_strip t)))) in
         if String.eqb u "" then "report" else u)
    /\ (if truthy text then text else JStr "") = JStr t.
Proof.
  unfold _slugify.
  destruct (if truthy text then text else JStr "") as [| | | |t| |]; try discriminate.
  intros [= <-]. now exists t.
Qed.

Lemma slugify_shape (text : json) (s : string) :
  _slugify text = Ok s ->
  s <> ""
  /\ all_chars slug_char s = true
  /\ (forall rest, s <> String "_"%char rest)
  /\ (forall init, s <> init +++ "_")
  /\ (forall a b, s <> a +++ "__" +++ b).
Proof.
  intros H. apply slugify_text in H as (t & -> & _). cbv zeta.
  set (t2 := re_sub_runs (fun c => negb (slug_char c)) false
               (py_replace_char " "%char "_"%char (py_strip t))).
  set (t3 := re_sub_runs (Ascii.eqb "_"%char) false t2).
  unfold py_strip_char.
  set (L := strip_list (Ascii.eqb "_"%char) (list_ascii_of_string t3)).
  destruct (String.eqb (string_of_list_ascii L) "") eqn:E.
  { split; [discriminate|]. split; [reflexivity|].
    now apply no_underscore_shape. }
  apply String.eqb_neq in E. split; [exact E|].
  assert (Hof : forall u, string_of_list_ascii L = u -> L = list_ascii_of_string u).
  { intros u <-. now rewrite list_ascii_of_string_of_list_ascii. }
  split; [|split; [|split]].
  - rewrite all_chars_of_list. apply strip_list_forallb.
    rewrite <- all_chars_forallb. apply re_sub_runs_keeps; [reflexivity|].
    apply re_sub_runs_chars; [reflexivity|].
    intros c Hc. now apply negb_false_iff in Hc.
  - intros rest Hs. apply Hof in Hs. simpl in Hs.
    now apply strip_list_first in Hs.
  - intros init Hs. apply Hof in Hs. rewrite list_of_append in Hs. simpl in Hs.
    now apply strip_list_last in Hs.
  - intros a b Hs.
    destruct (strip_list_split (Ascii.eqb "_"%char) (list_ascii_of_string t3))
      as (pre & post & Ht3 & _ & _).
    fold L in Ht3. apply (f_equal string_of_list_ascii) in Ht3.
    rewrite string_of_list_ascii_of_string, !string_of_app, Hs in Ht3.
    apply (proj1 (underscore_runs_single t2 false)
             (string_of_list_ascii pre +++ a) (b +++ string_of_list_ascii post)).
    fold t3. rewrite Ht3. now rewrite !append_assoc.
Qed.

(** X1.  Whatever [_slugify] returns is usable as a file name: it is not
    empty, it is made of ASCII letters, digits, dots, underscores and
    hyphens only, it neither starts nor ends with an underscore, and it has
    no two underscores in a row. *)
Theorem slug_is_file_name_safe (text : json) (s : string) :
  _slugify text = Ok s ->
  s <> ""
  /\ all_chars slug_char s = true
  /\ (forall rest, s <> String "_"%char rest)
  /\ (forall init, s <> init +++ "_")
  /\ (forall a b, s <> a +++ "__" +++ b).
Proof. exact (slugify_shape text s). Qed.

Lemma slug_is_file_name_safe_witness :
  _slugify (JStr "  Acme Sdn. Bhd (M)  ") = Ok "Acme_Sdn._Bhd_M"
  /\ "Acme_Sdn._Bhd_M" <> ""
  /\ all_chars slug_char "Acme_Sdn._Bhd_M" = true
  /\ (forall rest, "Acme_Sdn._Bhd_M" <> String "_"%char rest)
  /\ (forall init, "Acme_Sdn._Bhd_M" <> init +++ "_")
  /\ (forall a b, "Acme_Sdn._Bhd_M" <> a +++ "__" +++ b).
Proof.
  split; [reflexivity|].
  exact (slug_is_file_name_safe (JStr "  Acme Sdn. Bhd (M)  ") "Acme_Sdn._Bhd_M" eq_refl).
Defined.

Lemma replace_char_keeps (q : ascii -> bool) (a b : ascii) (s : string) :
  q b = true -> all_chars q s = true -> all_chars q (py_replace_char a b s) = true.
Proof.
  intros Hb. induction s as [|c s IH]; [reflexivity|].
  cbn [all_chars py_replace_char]. intros H. apply andb_true_iff in H as [Hc Hs].
  rewrite (IH Hs). now destruct (Ascii.eqb c a); rewrite ?Hb, ?Hc.
Qed.

Lemma replace_char_none (a b : ascii) (s : string) :
  all_chars (fun c => negb (Ascii.eqb c a)) s = true -> py_replace_char a b s = s.
Proof.
  induction s as [|c s IH]; [reflexivity|].
  cbn [all_chars py_replace_char]. intros H. apply andb_true_iff in H as [Hc Hs].
  apply negb_true_iff in Hc. now rewrite Hc, IH.
Qed.

Lemma replace_char_app (a b : ascii) (s t : string) :
  py_replace_char a b (s +++ t) = py_replace_char a b s +++ py_replace_char a b t.
Proof. induction s as [|c s IH]; simpl; [reflexivity | now rewrite IH]. Qed.

Lemma last_of_string (s init : string) (c d : ascii) :
  s = init +++ String c EmptyString -> last (list_ascii_of_string s) d = c.
Proof. intros ->. rewrite list_of_append. apply last_last. Qed.

Lemma last_app_right {A : Type} (l r : list A) (d : A) :
  r <> [] -> last (l ++ r) d = last r d.
Proof.
  intros Hr. induction l as [|x l IH]; [reflexivity|].
  cbn [app]. destruct (l ++ r) eqn:E; [|exact IH].
  apply app_eq_nil in E as [_ E]. contradiction.
Qed.

Lemma all_chars_last (p : ascii -> bool) (s : string) (d : ascii) :
  s <> "" -> all_chars p s = true -> p (last (list_ascii_of_string s) d) = true.
Proof.
  intros Hne H. rewrite all_chars_forallb in H. rewrite forallb_forall in H.
  apply H. destruct s as [|c s]; [contradiction|].
  rewrite (app_removelast_last d (l := list_ascii_of_string (String c s)));
    [|discriminate].
  rewrite last_last. apply in_or_app. right. now left.
Qed.

(** The later steps of [_slugify] change nothing in a text that already has
    the shape of a slug. *)
Lemma slug_steps_fixed (s : string) :
  all_chars slug_char s = true ->
  (forall rest, s <> String "_"%char rest) ->
  (forall init, s <> init +++ "_") ->
  (forall a b, s <> a +++ "__" +++ b) ->
  py_strip_char "_"%char
    (re_sub_runs (Ascii.eqb "_"%char) false
       (re_sub_runs (fun c => negb (slug_char c)) false s)) = s.
Proof.
  intros Hc Hfirst Hlast Hdouble.
  rewrite (re_sub_runs_none (fun c => negb (slug_char c)) s)
    by (apply all_chars_weaken with slug_char; [intros c ->; reflexivity | exact Hc]).
  rewrite underscore_runs_fixed; [|exact Hdouble|discriminate].
  unfold py_strip_char. rewrite strip_list_fixed.
  - apply string_of_list_ascii_of_string.
  - intros x r Hx. destruct (Ascii.eqb "_"%char x) eqn:E; [|reflexivity].
    apply Ascii.eqb_eq in E. subst x. exfalso.
    apply (Hfirst (string_of_list_ascii r)).
    rewrite <- (string_of_list_ascii_of_string s), Hx. reflexivity.
  - intros r x Hx. destruct (Ascii.eqb "_"%char x) eqn:E; [|reflexivity].
    apply Ascii.eqb_eq in E. subst x. exfalso.
    apply (Hlast (string_of_list_ascii r)).
    rewrite <- (string_of_list_ascii_of_string s), Hx, string_of_app. reflexivity.
Qed.

Lemma slug_fixed (s : string) :
  s <> "" ->
  all_chars slug_char s = true ->
  (forall rest, s <> String "_"%char rest) ->
  (forall init, s <> init +++ "_") ->
  (forall a b, s <> a +++ "__" +++ b) ->
  _slugify (JStr s) = Ok s.
Proof.
  intros Hne Hc Hfirst Hlast Hdouble. unfold _slugify.
  assert (Ht : truthy (JStr s) = true).
  { cbn [truthy]. apply negb_true_iff. now apply String.eqb_neq. }
  rewrite Ht. cbv zeta.
  rewrite py_strip_fixed.
  - rewrite replace_char_none.
    + rewrite slug_steps_fixed by assumption.
      apply String.eqb_neq in Hne. now rewrite Hne.
    + apply all_chars_weaken with slug_char; [|exact Hc].
      intros c H. apply slug_char_plain in H as (_ & _ & ->). reflexivity.
  - apply all_chars_weaken with slug_char; [|exact Hc].
    intros c H. now apply slug_char_plain in H.
  - intros c rest ->. cbn [all_chars] in Hc. apply andb_true_iff in Hc as [Hc _].
    now apply slug_char_plain in Hc.
  - intros init c ->. rewrite all_chars_app in Hc. cbn [all_chars] in Hc.
    apply andb_true_iff in Hc as [_ Hc]. apply andb_true_iff in Hc as [Hc _].
    now apply slug_char_plain in Hc.
Qed.

(** X2.  [_slugify] is idempotent: a slug is its own slug. *)
Theorem slug_of_slug (text : json) (s : string) :
  _slugify text = Ok s -> _slugify (JStr s) = Ok s.
Proof.
  intros H. apply slugify_shape in H as (H1 & H2 & H3 & H4 & H5).
  now apply slug_fixed.
Qed.

Lemma slug_of_slug_witness :
  _slugify (JStr "a/b c__d") = Ok "a_b_c_d" /\ _slugify (JStr "a_b_c_d") = Ok "a_b_c_d".
Proof.
  split; [reflexivity|].
  exact (slug_of_slug (JStr "a/b c__d") "a_b_c_d" eq_refl).
Defined.

(** *** Words joined by a separator *)

Lemma join_cons (sep w w' : string) (ws : list string) :
  join sep (w :: w' :: ws) = w +++ sep +++ join sep (w' :: ws).
Proof. reflexivity. Qed.

Lemma join_all_chars (q : ascii -> bool) (sep : string) (ws : list string) :
  all_chars q sep = true ->
  Forall (fun w => all_chars q w = true) ws ->
  all_chars q (join sep ws) = true.
Proof.
  intros Hsep H. induction H as [|w ws Hw Hws IH]; [reflexivity|].
  destruct ws as [|w' ws]; [exact Hw|].
  now rewrite join_cons, !all_chars_app, Hw, Hsep, IH.
Qed.

Lemma join_first (q : ascii -> bool) (sep : string) (ws : list string) :
  ws <> [] ->
  Forall (fun w => w <> "" /\ all_chars q w = true) ws ->
  exists c rest, join sep ws = String c rest /\ q c = true.
Proof.
  intros Hne H. destruct H as [|w ws [Hw Hq] Hws]; [contradiction|].
  destruct w as [|c w]; [contradiction|].
  cbn [all_chars] in Hq. apply andb_true_iff in Hq as [Hc _].
  destruct ws as [|w' ws]; [now exists c, w|].
  rewrite join_cons. now exists c, (w +++ sep +++ join sep (w' :: ws)).
Qed.

Lemma join_last (q : ascii -> bool) (sep : string) (ws : list string) (d : ascii) :
  ws <> [] ->
  Forall (fun w => w <> "" /\ all_chars q w = true) ws ->
  q (last (list_ascii_of_string (join sep ws)) d) = true.
Proof.
  intros Hne H. induction H as [|w ws [Hw Hq] Hws IH]; [contradiction|].
  destruct ws as [|w' ws]; [now apply all_chars_last|].
  rewrite join_cons, !list_of_append, !last_app_right.
  - apply IH. discriminate.
  - destruct (join_first q sep (w' :: ws)) as (c & rest & -> & _);
      [discriminate | assumption | discriminate].
  - destruct (join_first q sep (w' :: ws)) as (c & rest & -> & _);
      [discriminate | assumption |].
    intros E. apply app_eq_nil in E as [_ E]. discriminate.
Qed.

Lemma re_sub_runs_word (cls : ascii -> bool) (w rest : string) (c : ascii) :
  all_chars (fun x => negb (cls x)) (String c w) = true ->
  forall in_run,
    re_sub_runs cls in_run (String c w +++ rest)
    = String c w +++ re_sub_runs cls false rest.
Proof.
  revert c. induction w as [|x w IH]; intros c H in_run;
    cbn [all_chars] in H; apply andb_true_iff in H as [Hc Hw];
    apply negb_true_iff in Hc; cbn [String.append re_sub_runs]; rewrite Hc.
  - reflexivity.
  - f_equal. exact (IH x Hw false).
Qed.

Lemma word_char_facts (c : ascii) :
  word_char c = true ->
  slug_char c = true /\ Ascii.eqb "_"%char c = false.
Proof.
  unfold word_char. intros H. apply andb_true_iff in H as [Hs Hu].
  split; [exact Hs|]. apply negb_true_iff in Hu. now rewrite Ascii.eqb_sym.
Qed.

Lemma underscore_join_fixed (ws : list string) :
  Forall (fun w => w <> "" /\ all_chars word_char w = true) ws ->
  forall in_run,
    ws <> [] ->
    re_sub_runs (Ascii.eqb "_"%char) in_run (join "_" ws) = join "_" ws.
Proof.
  intros H. induction H as [|w ws [Hw Hq] Hws IH]; intros in_run Hne; [contradiction|].
  destruct w as [|c w]; [contradiction|].
  assert (Hq' : all_chars (fun x => negb (Ascii.eqb "_"%char x)) (String c w) = true).
  { apply all_chars_weaken with word_char; [|exact Hq].
    intros x Hx. apply word_char_facts in Hx as [_ ->]. reflexivity. }
  destruct ws as [|w' ws].
  - cbn [join]. rewrite <- (append_nil_r (String c w)) at 1.
    rewrite re_sub_runs_word by exact Hq'. apply append_nil_r.
  - rewrite join_cons, re_sub_runs_word by exact Hq'.
    cbn [String.append re_sub_runs]. rewrite Ascii.eqb_refl.
    rewrite IH by discriminate. reflexivity.
Qed.

(** X3.  Words of letters, digits, dots and hyphens separated by single
    spaces are joined by underscores: "Acme Sdn Bhd" becomes
    "Acme_Sdn_Bhd". *)
Theorem slug_joins_words (ws : list string) :
  ws <> [] ->
  Forall (fun w => w <> "" /\ all_chars word_char w = true) ws ->
  _slugify (JStr (join " " ws)) = Ok (join "_" ws).
Proof.
  intros Hne H.
  assert (Hslug : Forall (fun w => w <> "" /\ all_chars slug_char w = true) ws).
  { eapply Forall_impl; [|exact H]. intros w [Hw Hq]. split; [exact Hw|].
    apply all_chars_weaken with word_char; [|exact Hq].
    intros c Hc. now apply word_char_facts in Hc. }
  assert (Hall : forall q, (forall c, slug_char c = true -> q c = true) ->
                           Forall (fun w => all_chars q w = true) ws).
  { intros q Hq. eapply Forall_impl; [|exact Hslug]. intros w [_ Hw].
    now apply all_chars_weaken with slug_char. }
  unfold _slugify.
  destruct (join_first word_char " " ws Hne H) as (c0 & rest0 & E0 & Hc0).
  assert (Ht : truthy (JStr (join " " ws)) = true) by now rewrite E0.
  rewrite Ht. cbv zeta.
  (* strip *)
  rewrite py_strip_fixed.
  2:{ apply join_all_chars; [reflexivity|]. apply Hall.
      intros c Hc. now apply slug_char_plain in Hc. }
  2:{ intros c rest E. rewrite E0 in E. injection E as <- _.
      apply word_char_facts in Hc0 as [Hc0 _]. now apply slug_char_plain in Hc0. }
  2:{ intros init c E. apply last_of_string with (d := c) in E.
      pose proof (join_last slug_char " " ws c Hne Hslug) as Hl. rewrite E in Hl.
      now apply slug_char_plain in Hl. }
  (* replace *)
  assert (Hrep : py_replace_char " "%char "_"%char (join " " ws) = join "_" ws).
  { clear -Hslug. induction Hslug as [|w ws [_ Hw] Hws IH]; [reflexivity|].
    assert (Hw' : py_replace_char " "%char "_"%char w = w).
    { apply replace_char_none. apply all_chars_weaken with slug_char; [|exact Hw].
      intros c Hc. apply slug_char_plain in Hc as (_ & _ & ->). reflexivity. }
    destruct ws as [|w' ws]; [exact Hw'|].
    rewrite !join_cons, !replace_char_app, Hw', IH. reflexivity. }
  rewrite Hrep.
  (* the class and the runs of underscores *)
  rewrite (re_sub_runs_none (fun c => negb (slug_char c)) (join "_" ws)).
  2:{ apply join_all_chars; [reflexivity|]. apply Hall. intros c ->. reflexivity. }
  rewrite (underscore_join_fixed ws H false Hne).
  (* the ends *)
  destruct (join_first word_char "_" ws Hne H) as (c1 & rest1 & E1 & Hc1).
  unfold py_strip_char. rewrite strip_list_fixed.
  - rewrite string_of_list_ascii_of_string, E1. reflexivity.
  - intros x r Hx. rewrite E1 in Hx. injection Hx as <- _.
    now apply word_char_facts in Hc1.
  - intros r x Hx.
    pose proof (join_last word_char "_" ws x Hne H) as Hl.
    rewrite Hx, last_last in Hl. now apply word_char_facts in Hl.
Qed.

Lemma slug_joins_words_witness :
  _slugify (JStr "Acme Sdn Bhd") = Ok "Acme_Sdn_Bhd".
Proof.
  apply (slug_joins_words ["Acme"; "Sdn"; "Bhd"]); [discriminate|].
  repeat constructor; discriminate.
Defined.

Lemma class_run_underscores (s : string) :
  all_chars (fun c => negb (word_char c)) s = true ->
  forall in_run,
    all_chars (Ascii.eqb "_"%char)
      (re_sub_runs (fun c => negb (slug_char c)) in_run s) = true.
Proof.
  induction s as [|c s IH]; intros H in_run; [reflexivity|].
  cbn [all_chars] in H. apply andb_true_iff in H as [Hc Hs].
  cbn [re_sub_runs]. destruct (slug_char c) eqn:E; cbn [negb].
  - unfold word_char in Hc. rewrite E in Hc. cbn [andb] in Hc.
    apply negb_true_iff, negb_false_iff, Ascii.eqb_eq in Hc. subst c.
    cbn [all_chars]. now rewrite IH.
  - destruct in_run; [now apply IH|]. cbn [all_chars]. now rewrite IH.
Qed.

(** X4.  A text with no letter, digit, dot or hyphen in it (an empty or
    blank text, punctuation, a name written outside ASCII) and every value
    that counts as false give the slug "report". *)
Theorem slug_without_word_chars_is_report (text : json) :
  truthy text = false
  \/ (exists s, text = JStr s /\ all_chars (fun c => negb (word_char c)) s = true) ->
  _slugify text = Ok "report".
Proof.
  intros [Hf|(s & -> & Hs)]; unfold _slugify.
  - rewrite Hf. reflexivity.
  - assert (E : (if truthy (JStr s) then JStr s else JStr "") = JStr s).
    { cbn [truthy]. destruct (String.eqb s "") eqn:E; [|reflexivity].
      apply String.eqb_eq in E. now subst s. }
    rewrite E. cbv zeta.
    assert (H2 : all_chars (Ascii.eqb "_"%char)
                   (re_sub_runs (Ascii.eqb "_"%char) false
                      (re_sub_runs (fun c => negb (slug_char c)) false
                         (py_replace_char " "%char "_"%char (py_strip s)))) = true).
    { apply re_sub_runs_keeps; [reflexivity|]. apply class_run_underscores.
      apply replace_char_keeps; [reflexivity|]. now apply py_strip_keeps. }
    unfold py_strip_char. rewrite strip_list_all; [reflexivity|].
    now rewrite <- all_chars_forallb.
Qed.

Lemma slug_without_word_chars_is_report_witness :
  _slugify (JStr "日本 (株)") = Ok "report" /\ _slugify JNull = Ok "report".
Proof.
  split; apply slug_without_word_chars_is_report.
  - right. eexists. split; reflexivity.
  - left. reflexivity.
Defined.

(** *** The characters a slug keeps *)

Lemma keep_chars_app (p : ascii -> bool) (a b : string) :
  keep_chars p (a +++ b) = keep_chars p a +++ keep_chars p b.
Proof.
  induction a as [|c a IH]; [reflexivity|].
  cbn [String.append keep_chars]. destruct (p c); cbn [String.append]; now rewrite IH.
Qed.

Lemma keep_chars_none (p : ascii -> bool) (s : string) :
  all_chars (fun c => negb (p c)) s = true -> keep_chars p s = "".
Proof.
  induction s as [|c s IH]; [reflexivity|].
  cbn [all_chars keep_chars]. intros H. apply andb_true_iff in H as [Hc Hs].
  apply negb_true_iff in Hc. now rewrite Hc, IH.
Qed.

Lemma keep_chars_of_list_none (p : ascii -> bool) (l : list ascii) :
  forallb (fun c => negb (p c)) l = true -> keep_chars p (string_of_list_ascii l) = "".
Proof. intros H. apply keep_chars_none. now rewrite all_chars_of_list. Qed.

Lemma concat_app (l r : list string) :
  String.concat "" (l ++ r) = String.concat "" l +++ String.concat "" r.
Proof.
  induction l as [|x l IH]; [reflexivity|].
  cbn [app]. now rewrite !concat_cons, IH, append_assoc.
Qed.

Lemma concat_utf8_chars (s : string) : String.concat "" (utf8_chars s) = s.
Proof.
  induction s as [|c s IH]; [reflexivity|].
  rewrite utf8_chars_cons. destruct s as [|c' s']; [reflexivity|].
  destruct (is_continuation c').
  - destruct (utf8_chars (String c' s')) as [|g gs]; [discriminate IH|].
    rewrite concat_cons in IH |- *. cbn [String.append]. now rewrite IH.
  - rewrite concat_cons, IH. reflexivity.
Qed.

Lemma space_group_no_word (g : string) :
  py_isspace g = true ->
  ((String.length g =? 1)%nat && all_chars is_ascii_char g
   || all_chars (fun c => negb (is_ascii_char c)) g) = true ->
  keep_chars word_char g = "".
Proof.
  intros Hs Hg. apply orb_true_iff in Hg as [Hg|Hg].
  - apply andb_true_iff in Hg as [Hl _].
    destruct g as [|c [|c' g]]; try discriminate Hl.
    cbn [keep_chars].
    destruct c as [[|] [|] [|] [|] [|] [|] [|] [|]];
      first [discriminate Hs | reflexivity].
  - apply keep_chars_none. apply all_chars_weaken with (2 := Hg).
    intros c Hc. apply negb_true_iff. apply negb_true_iff in Hc.
    destruct (word_char c) eqn:E; [|reflexivity].
    apply word_char_facts in E as [E _]. apply slug_char_plain in E as [E _]. congruence.
Qed.

Lemma space_groups_no_word (l : list string) :
  forallb py_isspace l = true ->
  forallb (fun g => ((String.length g =? 1)%nat && all_chars is_ascii_char g)
                    || all_chars (fun c => negb (is_ascii_char c)) g) l = true ->
  keep_chars word_char (String.concat "" l) = "".
Proof.
  induction l as [|g l IH]; [reflexivity|].
  cbn [forallb]. intros Hs Hg.
  apply andb_true_iff in Hs as [Hs1 Hs2]. apply andb_true_iff in Hg as [Hg1 Hg2].
  now rewrite concat_cons, keep_chars_app, (space_group_no_word g Hs1 Hg1), IH.
Qed.

Lemma py_strip_keeps_words (s : string) :
  utf8_grouped s = true ->
  keep_chars word_char (py_strip s) = keep_chars word_char s.
Proof.
  unfold utf8_grouped, py_strip. intros Hg.
  destruct (strip_list_split py_isspace (utf8_chars s)) as (pre & post & Hs & Hpre & Hpost).
  remember (strip_list py_isspace (utf8_chars s)) as mid eqn:Hmid. clear Hmid.
  rewrite <- (concat_utf8_chars s) at 1. rewrite Hs in Hg |- *.
  rewrite !forallb_app in Hg.
  apply andb_true_iff in Hg as [Gpre Hg]. apply andb_true_iff in Hg as [_ Gpost].
  rewrite !concat_app, !keep_chars_app.
  rewrite (space_groups_no_word pre Hpre Gpre), (space_groups_no_word post Hpost Gpost).
  cbn [String.append]. now rewrite append_nil_r.
Qed.

Lemma replace_keeps_words (s : string) :
  keep_chars word_char (py_replace_char " "%char "_"%char s) = keep_chars word_char s.
Proof.
  induction s as [|c s IH]; [reflexivity|].
  cbn [py_replace_char keep_chars].
  destruct (Ascii.eqb c " "%char) eqn:E.
  - apply Ascii.eqb_eq in E. subst c. exact IH.
  - destruct (word_char c); now rewrite IH.
Qed.

Lemma re_sub_runs_keeps_words (cls : ascii -> bool) (s : string) :
  (forall c, cls c = true -> word_char c = false) ->
  forall in_run,
    keep_chars word_char (re_sub_runs cls in_run s) = keep_chars word_char s.
Proof.
  intros Hcls. induction s as [|c s IH]; intros in_run; [reflexivity|].
  cbn [re_sub_runs keep_chars]. destruct (cls c) eqn:E.
  - rewrite (Hcls c E). destruct in_run; [apply IH|].
    cbn [keep_chars]. change (word_char "_"%char) with false. cbv iota. apply IH.
  - cbn [keep_chars]. destruct (word_char c); now rewrite IH.
Qed.

Lemma strip_char_keeps_words (s : string) :
  keep_chars word_char (py_strip_char "_"%char s) = keep_chars word_char s.
Proof.
  unfold py_strip_char.
  destruct (strip_list_split (Ascii.eqb "_"%char) (list_ascii_of_string s))
    as (pre & post & Hs & Hpre & Hpost).
  remember (strip_list (Ascii.eqb "_"%char) (list_ascii_of_string s)) as mid eqn:Hmid.
  clear Hmid.
  rewrite <- (string_of_list_ascii_of_string s) at 1. rewrite Hs.
  rewrite !string_of_app, !keep_chars_app.
  assert (Hu : forall l, forallb (Ascii.eqb "_"%char) l = true ->
                         keep_chars word_char (string_of_list_ascii l) = "").
  { intros l Hl. apply keep_chars_of_list_none.
    rewrite forallb_forall in *. intros c Hc. apply Hl in Hc.
    apply Ascii.eqb_eq in Hc. now subst c. }
  rewrite (Hu pre Hpre), (Hu post Hpost). cbn [String.append]. now rewrite append_nil_r.
Qed.

(** X5.  A slug keeps every letter, digit, dot and hyphen of the text,
    and these only, in their order: the text decides the slug up to its
    separators.  (A text with none of these characters gives "report".) *)
Theorem slug_keeps_word_characters (s out : string) :
  utf8_grouped s = true ->
  _slugify (JStr s) = Ok out ->
  keep_chars word_char s <> "" ->
  keep_chars word_char out = keep_chars word_char s.
Proof.
  intros Hg H Hne. apply slugify_text in H as (t & -> & Ht). cbv zeta.
  assert (Est : t = s).
  { cbn [truthy] in Ht. destruct (String.eqb s "") eqn:E; cbn [negb] in Ht.
    - apply String.eqb_eq in E. subst s. now destruct Hne.
    - now injection Ht as <-. }
  subst t.
  assert (Hu : keep_chars word_char
                 (py_strip_char "_"%char
                    (re_sub_runs (Ascii.eqb "_"%char) false
                       (re_sub_runs (fun c => negb (slug_char c)) false
                          (py_replace_char " "%char "_"%char (py_strip s)))))
               = keep_chars word_char s).
  { rewrite strip_char_keeps_words, !re_sub_runs_keeps_words, replace_keeps_words.
    - now apply py_strip_keeps_words.
    - intros c Hc. apply negb_true_iff in Hc. unfold word_char. now rewrite Hc.
    - intros c Hc. apply Ascii.eqb_eq in Hc. now subst c. }
  destruct (String.eqb _ "") eqn:E; [|exact Hu].
  apply String.eqb_eq in E. rewrite E in Hu. now destruct Hne.
Qed.

Lemma slug_keeps_word_characters_witness :
  _slugify (JStr "Société Générale (M) Bhd.") = Ok "Soci_t_G_n_rale_M_Bhd."
  /\ keep_chars word_char "Soci_t_G_n_rale_M_Bhd." = "SocitGnraleMBhd."
  /\ keep_chars word_char "Société Générale (M) Bhd." = "SocitGnraleMBhd.".
Proof.
  split; [reflexivity|]. split; [reflexivity|].
  rewrite <- (slug_keeps_word_characters "Société Générale (M) Bhd."
                "Soci_t_G_n_rale_M_Bhd." eq_refl eq_refl); [reflexivity | discriminate].
Defined.

(** *** The base name of a report *)

Lemma is_substring_app (n a b : string) : is_substring n (a +++ n +++ b) = true.
Proof.
  assert (Hp : forall n b, prefix n (n +++ b) = true).
  { clear. induction n as [|c n IH]; intros b; [now destruct b|].
    cbn [String.append prefix]. destruct (ascii_dec c c); [apply IH | contradiction]. }
  induction a as [|c a IH].
  - cbn [String.append]. destruct (n +++ b) eqn:E; cbn [is_substring];
      rewrite <- E, Hp; reflexivity.
  - cbn [String.append is_substring]. rewrite IH. apply orb_true_r.
Qed.

Lemma slugify_cases (v : json) :
  (text_or_falsy v = true -> exists s, _slugify v = Ok s)
  /\ (text_or_falsy v = false -> _slugify v = Raise AttributeError).
Proof.
  unfold text_or_falsy, _slugify.
  destruct (truthy v) eqn:T; cbn [negb orb].
  - destruct v; split; intros H; try discriminate H; try reflexivity.
    eexists; reflexivity.
  - split; [|discriminate]. intros _. eexists; reflexivity.
Qed.


(** The steps of [_report_basename] on a keyed document. *)
Lemma basename_steps (d : list (string * json)) (fallback s : string) :
  _report_basename (JDict d) fallback = Ok s ->
  exists r schema_full c e v,
    lookup_or "report_info" d (JDict []) = JDict r
    /\ (if truthy (lookup_or "schema_version" r JNull)
        then Ok (lookup_or "schema_version" r JNull)
        else tag <- detect_schema_version (JDict d) ;; Ok (JStr tag)) = Ok schema_full
    /\ _slugify (if truthy (lookup_or "company_name" r JNull)
                 then lookup_or "company_name" r JNull else JStr fallback) = Ok c
    /\ (if truthy (lookup_or "period_end" r JNull)
        then x <- _slugify (lookup_or "period_end" r JNull) ;; Ok ("_" +++ x)
        else Ok "") = Ok e
    /\ _slugify schema_full = Ok v
    /\ s = c +++ e +++ "_schema_" +++ v.
Proof.
  unfold _report_basename. rewrite py_get_dict. cbn [bind]. intros H.
  apply bind_ok in H as (cn & Hcn & H). apply py_get_ok in Hcn as (r & Hr & ->).
  rewrite Hr in H. rewrite !py_get_dict in H. cbn [bind] in H. cbv zeta in H.
  apply bind_ok in H as (sf & Hsf & H).
  apply bind_ok in H as (c & Hc & H).
  apply bind_ok in H as (base & Hb & H).
  apply bind_ok in H as (v & Hv & H). injection H as <-.
  exists r, sf, c.
  assert (Htr : forall x, truthy (if truthy x then x else JStr "") = truthy x).
  { intros x. now destruct (truthy x) eqn:E. }
  rewrite Htr in Hb.
  destruct (truthy (lookup_or "period_end" r JNull)) eqn:Te.
  - apply bind_ok in Hb as (x & Hx & Hb). injection Hb as <-.
    exists ("_" +++ x), v. rewrite Hx. cbn [bind].
    repeat split; try assumption. now rewrite !append_assoc.
  - injection Hb as <-. exists "", v. repeat split; assumption.
Qed.

(** X6.  The guard of line 1196 does not help: for a document that is not
    keyed (a list, a string, a number, null) [_report_basename] raises
    AttributeError, since the version is then asked of
    [detect_schema_version]. *)
Theorem basename_needs_keyed_document (data : json) (fallback : string) :
  (forall d, data <> JDict d) ->
  _report_basename data fallback = Raise AttributeError.
Proof.
  intros H. destruct data; try reflexivity. now destruct (H d).
Qed.

Lemma basename_needs_keyed_document_witness :
  _report_basename (JList [JDict []]) "upload" = Raise AttributeError.
Proof.
  apply basename_needs_keyed_document. discriminate.
Defined.

(** X7.  A base name that [_report_basename] returns is a usable file
    name: it is made of ASCII letters, digits, dots, underscores and hyphens
    only, it does not start with an underscore, and it has the marker
    "_schema_" in it. *)
Theorem basename_is_file_name_safe (data : json) (fallback s : string) :
  _report_basename data fallback = Ok s ->
  all_chars slug_char s = true
  /\ (forall rest, s <> String "_"%char rest)
  /\ is_substring "_schema_" s = true.
Proof.
  intros H.
  destruct data as [| | | | | |d]; try discriminate H.
  apply basename_steps in H as (r & sf & c & e & v & _ & _ & Hc & He & Hv & ->).
  apply slugify_shape in Hc as (Hc0 & Hc1 & Hc2 & _).
  apply slugify_shape in Hv as (_ & Hv1 & _).
  assert (He1 : all_chars slug_char e = true).
  { destruct (truthy (lookup_or "period_end" r JNull)).
    - apply bind_ok in He as (x & Hx & He). injection He as <-.
      apply slugify_shape in Hx as (_ & Hx & _). exact Hx.
    - now injection He as <-. }
  repeat split.
  - now rewrite !all_chars_app, Hc1, He1, Hv1.
  - intros rest E. destruct c as [|x c]; [contradiction|].
    cbn [String.append] in E. injection E as -> _. now apply (Hc2 c).
  - rewrite <- append_assoc. apply is_substring_app.
Qed.

Lemma basename_is_file_name_safe_witness :
  _report_basename (JDict doc_named) "upload" = Ok "Acme_Sdn_Bhd_2024-06-30_schema_5.1.0"
  /\ all_chars slug_char "Acme_Sdn_Bhd_2024-06-30_schema_5.1.0" = true
  /\ (forall rest, "Acme_Sdn_Bhd_2024-06-30_schema_5.1.0" <> String "_"%char rest)
  /\ is_substring "_schema_" "Acme_Sdn_Bhd_2024-06-30_schema_5.1.0" = true.
Proof.
  split; [reflexivity|].
  exact (basename_is_file_name_safe (JDict doc_named) "upload" _ eq_refl).
Defined.



(** X9.  On a keyed document with a keyed [report_info] whose version is
    declared or can be classified, [_report_basename] returns exactly when
    each of [company_name], [period_end] and [schema_version] is a string or
    a value that counts as false; any other value (a number such as
    20240630 for [period_end], a list) makes it raise AttributeError. *)
Theorem basename_needs_text_fields (d r : list (string * json)) (fallback : string) :
  lookup_or "report_info" d (JDict []) = JDict r ->
  (truthy (lookup_or "schema_version" r JNull) = false ->
   exists tag, detect_schema_version (JDict d) = Ok tag) ->
  (forallb (fun k => text_or_falsy (lookup_or k r JNull)) name_fields = true ->
   exists s, _report_basename (JDict d) fallback = Ok s)
  /\ (forallb (fun k => text_or_falsy (lookup_or k r JNull)) name_fields = false ->
      _report_basename (JDict d) fallback = Raise AttributeError).
Proof.
  intros Hr Hdet. unfold _report_basename, name_fields.
  rewrite py_get_dict, Hr. cbn [bind forallb]. rewrite !py_get_dict. cbn [bind]. cbv zeta.
  set (cn := lookup_or "company_name" r JNull).
  set (pe := lookup_or "period_end" r JNull).
  set (sv := lookup_or "schema_version" r JNull) in *.
  assert (Hfb : exists c, _slugify (JStr fallback) = Ok c).
  { apply slugify_cases. unfold text_or_falsy. apply orb_true_r. }
  assert (Hcompany : (text_or_falsy cn = true ->
                      exists c, _slugify (if truthy cn then cn else JStr fallback) = Ok c)
                     /\ (text_or_falsy cn = false ->
                         _slugify (if truthy cn then cn else JStr fallback)
                         = Raise AttributeError)).
  { destruct (truthy cn) eqn:T; [apply slugify_cases|].
    split; [intros _; exact Hfb|]. unfold text_or_falsy. now rewrite T. }
  assert (Htr : forall x, truthy (if truthy x then x else JStr "") = truthy x).
  { intros x. now destruct (truthy x) eqn:E. }
  rewrite Htr.
  assert (Hsf : exists sf,
             (if truthy sv then Ok sv
              else tag <- detect_schema_version (JDict d) ;; Ok (JStr tag)) = Ok sf
             /\ text_or_falsy sf = text_or_falsy sv).
  { destruct (truthy sv) eqn:T; [now exists sv|].
    destruct (Hdet eq_refl) as (tag & ->). exists (JStr tag). split; [reflexivity|].
    unfold text_or_falsy. now rewrite T, orb_true_r. }
  destruct Hsf as (sf & -> & Esf). cbn [bind]. rewrite <- Esf.
  destruct (text_or_falsy cn) eqn:Tc; cbn [andb].
  2:{ split; [discriminate|]. intros _.
      now rewrite (proj2 Hcompany eq_refl). }
  destruct (proj1 Hcompany eq_refl) as (c & ->). cbn [bind].
  assert (Hpe : (if truthy pe then pe else JStr "") = pe \/ truthy pe = false).
  { destruct (truthy pe); auto. }
  destruct (text_or_falsy pe) eqn:Tp; cbn [andb].
  2:{ split; [discriminate|]. intros _.
      assert (T : truthy pe = true).
      { unfold text_or_falsy in Tp. apply orb_false_iff in Tp as [Tp _].
        now apply negb_false_iff in Tp. }
      rewrite T. now rewrite (proj2 (slugify_cases pe) Tp). }
  assert (Hbase : exists base,
             (if truthy pe
              then x <- _slugify (if truthy pe then pe else JStr "") ;;
                   Ok (c +++ "_" +++ x)
              else Ok c) = Ok base).
  { destruct (truthy pe) eqn:T; [|now exists c].
    destruct (proj1 (slugify_cases pe) Tp) as (x & ->). now eexists. }
  destruct Hbase as (base & ->). cbn [bind].
  destruct (text_or_falsy sf) eqn:Ts.
  - split; [|discriminate]. intros _.
    destruct (proj1 (slugify_cases sf) Ts) as (v & ->). now eexists.
  - split; [discriminate|]. intros _.
    now rewrite (proj2 (slugify_cases sf) Ts).
Qed.

Lemma basename_needs_text_fields_witness :
  (exists s, _report_basename (JDict doc_named) "upload" = Ok s)
  /\ _report_basename (JDict doc_numeric_period) "upload" = Raise AttributeError.
Proof.
  split.
  - apply (proj1 (basename_needs_text_fields doc_named _ "upload" eq_refl
                    (fun H => False_ind _ (Bool.diff_true_false H)))).
    reflexivity.
  - apply (proj2 (basename_needs_text_fields doc_numeric_period _ "upload" eq_refl
                    (fun _ => ex_intro _ "4.0" eq_refl))).
    reflexivity.
Defined.

(** ** The run and the document *)

Section Run.

Variable py_repr : json -> string.
Variable counterparty_section : json -> result string.

Ltac run_steps H :=
  unfold generate_interactive_html in H;
  repeat first
    [ apply bind_ok in H;
      let v := fresh "v" in
      let E := fresh "E" in
      destruct H as (v & E & H)
    | progress cbv zeta in H ];
  injection H as <- <-.

(** *** What a run changes in the document *)

Lemma dict_set_keys (k : string) (v : json) (d : list (string * json)) :
  has_key k d = true -> map fst (dict_set k v d) = map fst d.
Proof.
  unfold has_key. induction d as [|[k' v'] d IH]; simpl; [discriminate|].
  destruct (String.eqb k k') eqn:E; simpl.
  - intros _. apply String.eqb_eq in E. now subst.
  - intros H. now rewrite IH.
Qed.

(** Storing a new value of a section whose other fields are those of the
    old one. *)
Lemma section_update (d sd sd' : list (string * json)) (k sub : string) (dflt : json) :
  lookup_or k d dflt = JDict sd ->
  (forall j, String.eqb j sub = false -> dict_lookup j sd' = dict_lookup j sd) ->
  exists d',
    store_back (JDict d) k (JDict sd') = JDict d'
    /\ map fst d' = map fst d
    /\ (forall k', String.eqb k' k = false -> dict_lookup k' d' = dict_lookup k' d)
    /\ (forall j, String.eqb j sub = false ->
                  field (lookup_or k d' JNull) j JNull = field (lookup_or k d JNull) j JNull).
Proof.
  intros Hsd Hother. unfold store_back. destruct (has_key k d) eqn:E.
  - eexists. split; [reflexivity|]. split; [now apply dict_set_keys|].
    split; [intros k' Hk'; now apply dict_lookup_set_other|].
    intros j Hj. unfold lookup_or at 1. rewrite dict_lookup_set_same.
    unfold lookup_or in Hsd |- *. unfold has_key in E.
    destruct (dict_lookup k d); [|discriminate]. subst.
    cbn [field]. unfold lookup_or. now rewrite Hother.
  - exists d. repeat split; reflexivity.
Qed.

Lemma fold_in_place (flags review flags' : json) :
  fold_flagged_for_review flags review = (flags', true) ->
  exists fd round_fig,
    flags = JDict fd
    /\ flags' = JDict (dict_set "round_figure_transactions" round_fig fd).
Proof.
  unfold fold_flagged_for_review.
  destruct review as [| | | | | |rv]; try discriminate.
  destruct (negb (truthy (JDict rv))); [discriminate|].
  match goal with |- context [if truthy ?c then _ else _] => destruct (truthy c) end;
    [discriminate|].
  destruct flags; try discriminate.
  intros [= <-]. eauto.
Qed.

Lemma rec_payments_section (recurring total_months rows recurring' : json) :
  rec_payments_of recurring total_months = Ok (rows, recurring') ->
  exists rd,
    recurring = JDict rd
    /\ (recurring' = recurring
        \/ recurring' = store_back recurring "payment_types" rows).
Proof.
  unfold rec_payments_of. intros H.
  apply bind_ok in H as (p & Hp & H). apply py_get_ok in Hp as (rd & -> & ->).
  exists rd. split; [reflexivity|].
  rewrite !py_get_dict in H. cbn [bind] in H.
  repeat match type of H with
         | (if ?c then _ else _) = Ok _ =>
             destruct c; [injection H as <- <-; now left|]
         end.
  apply bind_ok in H as (rp & _ & H). injection H as <- <-. now right.
Qed.

Lemma store_back_fields (sd : list (string * json)) (sub : string) (v : json) :
  exists sd',
    store_back (JDict sd) sub v = JDict sd'
    /\ forall j, String.eqb j sub = false -> dict_lookup j sd' = dict_lookup j sd.
Proof.
  destruct (store_back_dict sd sub v) as (sd' & E & H & _). now exists sd'.
Qed.

(** X10.  A run leaves the document with the keys it had, in their order.
    It changes at most three fields of it, each inside a section the
    document already has: [flags.round_figure_transactions],
    [volatility.alerts] and [recurring_payments.payment_types]; every other
    section and every other field of these three sections is as before. *)
Theorem run_changes_three_fields_at_most (d : list (string * json)) (now : string)
  (rep : report) (data' : json) :
  generate_interactive_html py_repr counterparty_section (JDict d) now = Ok (rep, data') ->
  exists d',
    data' = JDict d'
    /\ map fst d' = map fst d
    /\ (forall k, k <> "flags" -> k <> "volatility" -> k <> "recurring_payments" ->
                  dict_lookup k d' = dict_lookup k d)
    /\ (forall j, j <> "round_figure_transactions" ->
                  field (lookup_or "flags" d' JNull) j JNull
                  = field (lookup_or "flags" d JNull) j JNull)
    /\ (forall j, j <> "alerts" ->
                  field (lookup_or "volatility" d' JNull) j JNull
                  = field (lookup_or "volatility" d JNull) j JNull)
    /\ (forall j, j <> "payment_types" ->
                  field (lookup_or "recurring_payments" d' JNull) j JNull
                  = field (lookup_or "recurring_payments" d JNull) j JNull).
Proof.
  intros H. run_steps H.
  rewrite py_get_dict in E3, E4, E5. injection E3 as <-. injection E4 as <-.
  injection E5 as <-.
  rewrite py_get_after_fold in E8 by reflexivity. injection E8 as <-.
  apply py_get_ok in E17 as (vd & Hvd & _).
  clear - Hvd E35.
  (* line 85 *)
  assert (H1 : exists d1,
             (if snd (fold_flagged_for_review (lookup_or "flags" d (JDict []))
                        (lookup_or "flagged_for_review" d (JDict [])))
              then store_back (JDict d) "flags"
                     (fst (fold_flagged_for_review (lookup_or "flags" d (JDict []))
                             (lookup_or "flagged_for_review" d (JDict []))))
              else JDict d) = JDict d1
             /\ map fst d1 = map fst d
             /\ (forall k, String.eqb k "flags" = false ->
                           dict_lookup k d1 = dict_lookup k d)
             /\ (forall j, String.eqb j "round_figure_transactions" = false ->
                           field (lookup_or "flags" d1 JNull) j JNull
                           = field (lookup_or "flags" d JNull) j JNull)).
  { destruct (fold_flagged_for_review (lookup_or "flags" d (JDict []))
                (lookup_or "flagged_for_review" d (JDict []))) as [f1 [|]] eqn:EF;
      cbn [fst snd]; [|now exists d].
    apply fold_in_place in EF as (fd & rf & Hfd & ->).
    apply (section_update d fd _ "flags" "round_figure_transactions" (JDict []) Hfd).
    intros j Hj. now apply dict_lookup_set_other. }
  destruct H1 as (d1 & Hd1 & K1 & O1 & F1). rewrite Hd1 in E35. clear Hd1.
  (* line 331 *)
  assert (H2 : exists d2,
             store_back (JDict d1) "volatility"
               (store_back (lookup_or "volatility" d (JDict [])) "alerts" v29)
             = JDict d2
             /\ map fst d2 = map fst d1
             /\ (forall k, String.eqb k "volatility" = false ->
                           dict_lookup k d2 = dict_lookup k d1)
             /\ (forall j, String.eqb j "alerts" = false ->
                           field (lookup_or "volatility" d2 JNull) j JNull
                           = field (lookup_or "volatility" d1 JNull) j JNull)).
  { rewrite Hvd. destruct (store_back_fields vd "alerts" v29) as (vd' & -> & Hvd').
    apply (section_update d1 vd vd' "volatility" "alerts" (JDict [])); [|exact Hvd'].
    rewrite <- Hvd. apply lookup_or_eq. now apply O1. }
  destruct H2 as (d2 & Hd2 & K2 & O2 & F2). rewrite Hd2 in E35. clear Hd2.
  (* line 458 *)
  assert (H3 : exists d3,
             snd v35 = JDict d3
             /\ map fst d3 = map fst d2
             /\ (forall k, String.eqb k "recurring_payments" = false ->
                           dict_lookup k d3 = dict_lookup k d2)
             /\ (forall j, String.eqb j "payment_types" = false ->
                           field (lookup_or "recurring_payments" d3 JNull) j JNull
                           = field (lookup_or "recurring_payments" d2 JNull) j JNull)).
  { destruct (truthy (lookup_or "recurring_payments" d (JDict [])));
      [|injection E35 as <-; now exists d2].
    apply bind_ok in E35 as ([rows rec'] & Hrec & E35). injection E35 as <-.
    cbn [fst snd].
    apply rec_payments_section in Hrec as (rd & Hrd & Hrec').
    assert (Hrd2 : lookup_or "recurring_payments" d2 (JDict []) = JDict rd).
    { rewrite <- Hrd. apply lookup_or_eq. rewrite O2 by reflexivity. now apply O1. }
    destruct Hrec' as [-> | ->]; rewrite Hrd.
    - now apply (section_update d2 rd rd "recurring_payments" "payment_types" (JDict [])).
    - destruct (store_back_fields rd "payment_types" rows) as (rd' & -> & Hrd').
      now apply (section_update d2 rd rd' "recurring_payments" "payment_types" (JDict [])). }
  destruct H3 as (d3 & -> & K3 & O3 & F3).
  assert (Hneq : forall a b : string, a <> b -> String.eqb a b = false).
  { intros a b. apply String.eqb_neq. }
  assert (Lf : lookup_or "flags" d3 JNull = lookup_or "flags" d1 JNull).
  { apply lookup_or_eq. rewrite O3, O2 by reflexivity. reflexivity. }
  assert (Lv1 : lookup_or "volatility" d1 JNull = lookup_or "volatility" d JNull).
  { apply lookup_or_eq. now apply O1. }
  assert (Lv3 : lookup_or "volatility" d3 JNull = lookup_or "volatility" d2 JNull).
  { apply lookup_or_eq. now apply O3. }
  assert (Lr : lookup_or "recurring_payments" d2 JNull
               = lookup_or "recurring_payments" d JNull).
  { apply lookup_or_eq. rewrite O2 by reflexivity. now apply O1. }
  exists d3. split; [reflexivity|]. split; [congruence|].
  split; [|split; [|split]].
  - intros k Hf Hv Hr. rewrite O3, O2, O1 by now apply Hneq. reflexivity.
  - intros j Hj. rewrite Lf. now apply F1, Hneq.
  - intros j Hj. rewrite Lv3, <- Lv1. now apply F2, Hneq.
  - intros j Hj. rewrite <- Lr. now apply F3, Hneq.
Qed.

(** *** Round-figure items under [flagged_for_review] (lines 63-91) *)

Lemma fold_derives (flags : json) (review : list (string * json)) :
  review <> [] ->
  truthy (field flags "round_figure_transactions" JNull) = false ->
  py_get (fst (fold_flagged_for_review flags (JDict review)))
    "round_figure_transactions" (JDict [])
  = Ok (JDict
          [("count", lookup_or "count" review
                       (JInt (Z.of_nat (length (flat_map convert_review_item
                                                  (review_items review))))));
           ("total_amount", lookup_or "total_amount" review (JInt 0));
           ("all_transactions", JList (flat_map convert_review_item (review_items review)));
           ("top_10_transactions",
            JList (firstn 10 (flat_map convert_review_item (review_items review))));
           ("note", lookup_or "note" review (JStr ""))]).
Proof.
  intros Hne Hf. unfold fold_flagged_for_review.
  assert (Ht : truthy (JDict review) = true) by now destruct review.
  rewrite Ht. cbn [negb].
  assert (Hfd : truthy (lookup_or "round_figure_transactions"
                          match flags with JDict fd => fd | _ => [] end JNull) = false).
  { destruct flags; try reflexivity. exact Hf. }
  rewrite Hfd. cbn [fst]. rewrite py_get_dict. unfold lookup_or at 1.
  rewrite dict_lookup_set_same. reflexivity.
Qed.

Lemma converted_entries (items : list json) :
  map spec_round_entry (flat_map convert_review_item items)
  = map spec_round_entry (filter is_keyed items)
  /\ length (flat_map convert_review_item items) = length (filter is_keyed items).
Proof.
  induction items as [|t items [IH1 IH2]]; [now split|].
  destruct t; cbn [flat_map convert_review_item filter is_keyed app]; try now split.
  cbn [map length]. rewrite IH1, IH2. now split.
Qed.

(** X11.  When the document has no round-figure data under [flags] and a
    non-empty [flagged_for_review], the round-figure array of the page lists
    exactly the keyed review items ([all_items], else [top_10_items]), in
    their order, each with its date, description, type, amount and account;
    the round-figure count is the [count] of [flagged_for_review] and, when
    that is absent, the number of keyed items. *)
Theorem review_items_feed_round_figures (d : list (string * json)) (now : string)
  (rep : report) (data' : json) (review : list (string * json)) :
  generate_interactive_html py_repr counterparty_section (JDict d) now = Ok (rep, data') ->
  lookup_or "flagged_for_review" d (JDict []) = JDict review ->
  review <> [] ->
  truthy (field (lookup_or "flags" d (JDict [])) "round_figure_transactions" JNull) = false ->
  round_js rep
  = json_dumps py_repr
      (JList (map spec_round_entry (filter is_keyed (review_items review))))
  /\ round_count rep
     = lookup_or "count" review
         (JInt (Z.of_nat (length (filter is_keyed (review_items review))))).
Proof.
  intros H Hrev Hne Hflags. run_steps H. cbn [round_js round_count].
  rewrite py_get_dict in E4, E5. injection E4 as <-. injection E5 as <-.
  rewrite Hrev in E18. rewrite (fold_derives _ review Hne Hflags) in E18.
  injection E18 as <-.
  rewrite py_get_dict in E19. injection E19 as <-.
  unfold round_txns_of in E26. rewrite !py_get_dict in E26.
  cbn [py_get_with bind] in E26. injection E26 as <-.
  unfold round_js_of in E27. cbn [py_iter bind] in E27.
  apply bind_ok in E27 as (entries & He & E27). injection E27 as <-.
  apply (map_result_ok_map _ spec_round_entry) in He; [|exact round_txn_entry_spec].
  destruct (converted_entries (review_items review)) as [Hm Hl].
  subst entries. rewrite Hm. split; [reflexivity|].
  unfold lookup_or at 1. cbn [dict_lookup String.eqb Ascii.eqb Bool.eqb]. 
  now rewrite Hl.
Qed.

(** *** Recurring-payment rows (lines 453-464) *)

Lemma rec_payment_step_row (rd : list (string * json)) (tm : json) (acc : list json)
  (pt : string * string) (r : json) :
  rec_payment_step (JDict rd) tm (JList acc) pt = Ok r ->
  r = JList (acc ++ spec_payment_row rd tm pt).
Proof.
  unfold rec_payment_step, spec_payment_row. rewrite !py_get_dict. cbn [bind]. cbv zeta.
  remember (if truthy (lookup_or (snd pt) rd (JDict []))
            then lookup_or (snd pt) rd (JDict [])
            else lookup_or (fst pt) rd (JDict [])) as pt_data eqn:Epd.
  assert (E : (if truthy (lookup_or (snd pt) rd (JDict []))
               then Ok (lookup_or (snd pt) rd (JDict []))
               else Ok (lookup_or (fst pt) rd (JDict []))) = Ok pt_data).
  { subst pt_data. now destruct (truthy (lookup_or (snd pt) rd (JDict []))). }
  rewrite E. cbn [bind]. clear E Epd.
  destruct (truthy pt_data) eqn:T.
  - cbn [py_append]. intros H.
    apply bind_ok in H as (row & Hrow & H). injection H as <-.
    apply bind_ok in Hrow as (expected & He & Hrow).
    apply py_get_ok in He as (p & -> & ->).
    rewrite !py_get_dict in Hrow. cbn [py_get_with bind] in Hrow.
    injection Hrow as <-. reflexivity.
  - intros [= <-]. destruct pt_data; now rewrite ?app_nil_r.
Qed.

Lemma rec_payment_rows (rd : list (string * json)) (tm : json)
  (pts : list (string * string)) :
  forall (acc : list json) (r : json),
    for_each (rec_payment_step (JDict rd) tm) pts (JList acc) = Ok r ->
    r = JList (acc ++ flat_map (spec_payment_row rd tm) pts).
Proof.
  induction pts as [|pt pts IH]; intros acc r H; simpl in H.
  - injection H as <-. simpl. now rewrite app_nil_r.
  - apply bind_ok in H as (r1 & Hstep & H).
    apply rec_payment_step_row in Hstep. subst r1.
    apply IH in H. subst r. simpl. now rewrite <- app_assoc.
Qed.

(** X12.  When [recurring_payments] lists no payments of its own
    ([payments] and [statutory_payments] are absent or empty, [payment_types]
    is absent or an empty list), the rows of the table are built from the
    per-type data: one row for each of EPF/KWSP, SOCSO/PERKESO, TAX/LHDN,
    RENT, UTILITIES and LOAN_REPAYMENT that has data, in this order whatever
    the order of the keys in the document; the data under the lower-case
    key wins over the data under the type's own name, and the expected count
    defaults to [total_months]. *)
Theorem payment_rows_in_fixed_order (d : list (string * json)) (now : string)
  (rep : report) (data' : json) (rd : list (string * json)) :
  generate_interactive_html py_repr counterparty_section (JDict d) now = Ok (rep, data') ->
  lookup_or "recurring_payments" d (JDict []) = JDict rd ->
  rd <> [] ->
  truthy (lookup_or "payments" rd (JList [])) = false ->
  truthy (lookup_or "statutory_payments" rd (JList [])) = false ->
  lookup_or "payment_types" rd (JList []) = JList [] ->
  rec_payments rep
  = Some (JList (flat_map
                   (spec_payment_row rd
                      (field (lookup_or "report_info" d (JDict [])) "total_months" (JInt 0)))
                   payment_types)).
Proof.
  intros H Hrd Hne Hp Hs Ht. run_steps H. cbn [rec_payments].
  rewrite py_get_dict in E0. injection E0 as <-.
  rewrite py_get_after_fold in E8 by reflexivity. injection E8 as <-.
  apply py_get_ok in E15 as (r0 & Hr0 & ->). rewrite Hr0. cbn [field].
  rewrite Hrd in E35.
  assert (T : truthy (JDict rd) = true) by now destruct rd.
  rewrite T in E35. apply bind_ok in E35 as ([rows rec'] & Hrec & E35).
  injection E35 as <-. cbn [fst].
  unfold rec_payments_of in Hrec. rewrite !py_get_dict in Hrec. cbn [bind] in Hrec.
  rewrite Hp, Hs, Ht in Hrec. cbn [truthy bind] in Hrec.
  apply bind_ok in Hrec as (rp & Hloop & Hrec). injection Hrec as <- _.
  apply rec_payment_rows in Hloop. now subst rp.
Qed.

(** *** A value of [alerts] that is not a list (lines 323-331) *)

Lemma alert_step_on_other_value (a : json) (v : json) (md : list (string * json)) :
  (forall l, v <> JList l) ->
  vol_alert_step py_repr a v (JDict md)
  = if is_alert_level (JDict md) then Raise AttributeError else Ok v.
Proof.
  intros Hv. unfold vol_alert_step, is_alert_level. rewrite !py_get_dict.
  cbn [py_get_with bind field].
  destruct (py_eq_str (lookup_or "volatility_level" md (JStr "LOW")) "HIGH"
            || py_eq_str (lookup_or "volatility_level" md (JStr "LOW")) "EXTREME");
    [|reflexivity].
  destruct v; try reflexivity. now destruct (Hv l).
Qed.

Lemma alert_months_on_other_value (a : json) (v : json) (ms : list json) :
  (forall l, v <> JList l) ->
  forallb is_keyed ms = true ->
  for_each (vol_alert_step py_repr a) ms v
  = if existsb is_alert_level ms then Raise AttributeError else Ok v.
Proof.
  intros Hv. induction ms as [|m ms IH]; [reflexivity|].
  cbn [forallb for_each existsb]. intros H. apply andb_true_iff in H as [Hm Hms].
  destruct m; try discriminate Hm.
  rewrite (alert_step_on_other_value a v d Hv).
  destruct (is_alert_level (JDict d)); [reflexivity|].
  cbn [bind orb]. now apply IH.
Qed.

(** X13.  A [volatility.alerts] that counts as false without being a list
    (null, "", 0, an empty object) is kept as it is when no month of any
    account is at level HIGH or EXTREME; with one such month the run raises
    AttributeError at line 331, where the line of the alert would be
    appended to that value. *)
Theorem alerts_of_other_type (vd : list (string * json)) (v : json) (accs : list json) :
  dict_lookup "alerts" vd = Some v ->
  truthy v = false ->
  (forall l, v <> JList l) ->
  forallb keyed_account accs = true ->
  vol_alerts_of py_repr (JDict vd) (JList accs)
  = if existsb (fun a => existsb is_alert_level (months_of a)) accs
    then Raise AttributeError else Ok v.
Proof.
  intros Hlook Hf Hv Hk. unfold vol_alerts_of. rewrite py_get_dict.
  unfold lookup_or. rewrite Hlook. cbn [bind]. rewrite Hf. cbn [py_iter bind].
  induction accs as [|a accs IH]; [reflexivity|].
  cbn [forallb] in Hk. apply andb_true_iff in Hk as [Ha Hk].
  cbn [for_each existsb].
  destruct a as [| | | | | |ad]; try discriminate Ha. cbn [keyed_account] in Ha.
  rewrite py_get_dict. cbn [bind]. unfold months_of at 1. cbn [field]. unfold iter_or_nil.
  destruct (lookup_or "monthly_summary" ad (JList [])) as [| | | | |ms|]; try discriminate Ha.
  cbn [py_iter bind].
  rewrite (alert_months_on_other_value (JDict ad) v ms Hv Ha).
  destruct (existsb is_alert_level ms); [reflexivity|].
  cbn [bind orb]. now apply IH.
Qed.

(** *** The deduplicated sources (lines 548-555) *)

Lemma py_eq_scalar_refl (x : json) : py_hashable x = true -> py_eq_scalar x x = true.
Proof.
  destruct x; try discriminate; intros _; simpl; try reflexivity.
  - now destruct b.
  - apply Z.eqb_refl.
  - apply Qeq_bool_iff. reflexivity.
  - apply String.eqb_refl.
Qed.

Lemma ordered_pairs_snoc {A : Type} (R : A -> A -> Prop) (l : list A) (x : A) :
  ForallOrdPairs R l -> Forall (fun a => R a x) l -> ForallOrdPairs R (l ++ [x]).
Proof.
  intros Hl. induction Hl as [|a l Ha Hl IH]; intros Hx.
  - constructor; constructor.
  - inversion Hx as [|? ? Hax Hlx]; subst. cbn [app]. constructor.
    + apply Forall_app. split; [exact Ha | now constructor].
    + now apply IH.
Qed.

Lemma dedup_invariant (sources : list json) :
  forall (uniq : list json) (st : list json * list json),
    ForallOrdPairs (fun a b => py_eq_scalar (inflow_of a) (inflow_of b) = false) uniq ->
    for_each dedup_step sources (map inflow_of uniq, uniq) = Ok st ->
    ForallOrdPairs (fun a b => py_eq_scalar (inflow_of a) (inflow_of b) = false) (snd st)
    /\ (forall u, In u (snd st) -> In u uniq \/ In u sources)
    /\ (forall u, In u uniq -> In u (snd st))
    /\ (forall s, In s sources ->
                  exists u, In u (snd st)
                            /\ py_eq_scalar (inflow_of s) (inflow_of u) = true).
Proof.
  induction sources as [|s rest IH]; intros uniq st Hu H.
  - simpl in H. injection H as <-. cbn [snd]. repeat split; auto.
    intros s [].
  - simpl in H. apply bind_ok in H as (st1 & Hstep & H).
    unfold dedup_step in Hstep. cbn [fst snd] in Hstep.
    apply bind_ok in Hstep as (amount & Ha & Hstep).
    apply py_get_ok in Ha as (sd & -> & ->).
    apply bind_ok in Hstep as (dup & Hdup & Hstep).
    unfold py_in_set in Hdup.
    destruct (py_hashable (lookup_or "total_inflow" sd (JInt 0))) eqn:Hh; [|discriminate].
    injection Hdup as <-.
    change (lookup_or "total_inflow" sd (JInt 0)) with (inflow_of (JDict sd)) in *.
    destruct (existsb (py_eq_scalar (inflow_of (JDict sd))) (map inflow_of uniq)) eqn:Hex;
      injection Hstep as <-.
    + destruct (IH uniq st Hu H) as (P1 & P2 & P4 & P5).
      repeat split; auto.
      * intros u Hin. destruct (P2 u Hin); [now left | right; now right].
      * intros x [<- | Hx]; [|now apply P5].
        apply existsb_exists in Hex as (a & Hin & Heq).
        apply in_map_iff in Hin as (u & <- & Hin).
        exists u. split; [now apply P4 | exact Heq].
    + change (lookup_or "total_inflow" sd (JInt 0)) with (inflow_of (JDict sd)) in H.
      rewrite <- map_last in H.
      assert (Hu' : ForallOrdPairs
                      (fun a b => py_eq_scalar (inflow_of a) (inflow_of b) = false)
                      (uniq ++ [JDict sd])).
      { apply ordered_pairs_snoc; [exact Hu|]. apply Forall_forall. intros a Hin.
        rewrite py_eq_scalar_sym.
        destruct (py_eq_scalar (inflow_of (JDict sd)) (inflow_of a)) eqn:Heq;
          [|reflexivity].
        assert (Hc : existsb (py_eq_scalar (inflow_of (JDict sd))) (map inflow_of uniq)
                     = true).
        { apply existsb_exists. exists (inflow_of a). split; [now apply in_map | exact Heq]. }
        congruence. }
      destruct (IH (uniq ++ [JDict sd]) st Hu' H) as (P1 & P2 & P4 & P5).
      repeat split; auto.
      * intros u Hin. destruct (P2 u Hin) as [Hin'|Hin']; [|right; now right].
        apply in_app_or in Hin' as [Hin'|[<-|[]]]; [now left | right; now left].
      * intros u Hin. apply P4, in_or_app. now left.
      * intros x [<- | Hx]; [|now apply P5].
        exists (JDict sd). split; [apply P4, in_or_app; right; now left|].
        now apply py_eq_scalar_refl.
Qed.

(** X14.  In the table of non-bank sources no two rows have equal
    [total_inflow] amounts (1, 1.0 and true are equal amounts), every row is
    a source of the document, and every source of the document has its
    amount in one of the rows. *)
Theorem nonbank_rows_distinct_amounts (d : list (string * json)) (now : string)
  (rep : report) (data' : json) (rows : list json) :
  generate_interactive_html py_repr counterparty_section (JDict d) now = Ok (rep, data') ->
  unique_sources rep = Some rows ->
  exists sources,
    py_iter (field (lookup_or "non_bank_financing" d (JDict [])) "sources" (JList []))
    = Ok sources
    /\ ForallOrdPairs (fun a b => py_eq_scalar (inflow_of a) (inflow_of b) = false) rows
    /\ (forall u, In u rows -> In u sources)
    /\ (forall s, In s sources ->
                  exists u, In u rows /\ py_eq_scalar (inflow_of s) (inflow_of u) = true).
Proof.
  intros H Hrows. run_steps H. cbn [unique_sources] in Hrows.
  rewrite py_get_after_fold in E9 by reflexivity. injection E9 as <-.
  destruct (truthy (lookup_or "non_bank_financing" d (JDict [])));
    [|injection E36 as <-; discriminate Hrows].
  apply bind_ok in E36 as (u0 & Eu & Eo). injection Eo as <-.
  injection Hrows as ->.
  unfold unique_sources_of in Eu.
  apply bind_ok in Eu as (srcs & Es & Eu). apply py_get_ok in Es as (nb & -> & ->).
  apply bind_ok in Eu as (sources & Ei & Eu).
  apply bind_ok in Eu as (st & El & Eo). injection Eo as <-.
  exists sources. cbn [field]. split; [exact Ei|].
  destruct (dedup_invariant sources [] st (FOP_nil _) El) as (P1 & P2 & _ & P5).
  repeat split; try assumption.
  intros u Hin. now destruct (P2 u Hin).
Qed.

(** X15.  A source whose [total_inflow] is a list or an object cannot be
    looked up in the set of seen amounts: with keyed sources, one such
    source makes the deduplication raise TypeError. *)
Theorem unhashable_inflow_raises (nb : list (string * json)) (sources : list json) :
  lookup_or "sources" nb (JList []) = JList sources ->
  forallb is_keyed sources = true ->
  existsb (fun s => negb (py_hashable (inflow_of s))) sources = true ->
  unique_sources_of (JDict nb) = Raise TypeError.
Proof.
  intros Hs Hk Hex. unfold unique_sources_of. rewrite py_get_dict, Hs.
  cbn [bind py_iter].
  assert (Hloop : forall st, for_each dedup_step sources st = Raise TypeError).
  { clear Hs. induction sources as [|s rest IH]; intros st; [discriminate Hex|].
    cbn [forallb] in Hk. apply andb_true_iff in Hk as [Hs Hk].
    cbn [existsb] in Hex. cbn [for_each].
    destruct s as [| | | | | |sd]; try discriminate Hs.
    unfold dedup_step at 1. rewrite py_get_dict. cbn [bind]. unfold py_in_set.
    change (lookup_or "total_inflow" sd (JInt 0)) with (inflow_of (JDict sd)).
    destruct (py_hashable (inflow_of (JDict sd))); [|reflexivity].
    cbn [bind negb orb] in Hex |- *.
    destruct (existsb (py_eq_scalar (inflow_of (JDict sd))) (fst st));
      cbn [bind]; now apply IH. }
  now rewrite Hloop.
Qed.

(** *** The classifier *)

(** X16.  The classification of a document depends on four of its sections
    only ([report_info], [recurring_payments], [non_bank_financing] and
    [accounts]): two documents that agree on these are classified alike,
    exceptions included. *)
Theorem classification_reads_four_sections (d d' : list (string * json)) :
  (forall k, In k classifier_sections -> dict_lookup k d' = dict_lookup k d) ->
  detect_schema_version (JDict d') = detect_schema_version (JDict d).
Proof.
  intros H. apply detect_same_lookups.
  - apply H. simpl. auto.
  - apply H. simpl. auto.
  - apply H. simpl. auto.
  - f_equal. apply lookup_or_eq. apply H. simpl. auto.
Qed.

(** *** The arrays handed to the page script (lines 271-277 and 342-354) *)

Lemma json_induction (P : json -> Prop) :
  P JNull ->
  (forall b, P (JBool b)) ->
  (forall z, P (JInt z)) ->
  (forall q, P (JFloat q)) ->
  (forall s, P (JStr s)) ->
  (forall l, Forall P l -> P (JList l)) ->
  (forall d, Forall (fun kv => P (snd kv)) d -> P (JDict d)) ->
  forall v, P v.
Proof.
  intros HN HB HI HF HS HL HD.
  fix IH 1. intros [| b | z | q | s | l | d].
  - exact HN.
  - apply HB.
  - apply HI.
  - apply HF.
  - apply HS.
  - apply HL. revert l.
    fix IHl 1. intros [|x l]; constructor; [apply IH | apply IHl].
  - apply HD. revert d.
    fix IHd 1. intros [|[k x] d]; constructor; [apply IH | apply IHd].
Qed.

Lemma escaped_printable (s : string) :
  json_escaped s -> all_chars printable_char s = true.
Proof.
  assert (Hhex : forall c, is_hex c = true -> printable_char c = true).
  { intros c H. destruct c as [[|] [|] [|] [|] [|] [|] [|] [|]];
      first [discriminate H | reflexivity]. }
  induction 1 as [|c s Hc _ IH|c s Hc _ IH|h1 h2 h3 h4 s H1 H2 H3 H4 _ IH];
    cbn [all_chars].
  - reflexivity.
  - rewrite IH, andb_true_r. unfold plain_char in Hc. unfold printable_char.
    apply andb_true_iff in Hc as [Hc _]. now apply andb_true_iff in Hc as [Hc _].
  - rewrite IH, andb_true_r.
    destruct c as [[|] [|] [|] [|] [|] [|] [|] [|]];
      first [discriminate Hc | reflexivity].
  - now rewrite (Hhex h1 H1), (Hhex h2 H2), (Hhex h3 H3), (Hhex h4 H4), IH.
Qed.

Lemma json_string_printable (s : string) :
  all_chars printable_char (json_string s) = true.
Proof.
  destruct (json_string_escaped s) as (body & -> & Hb).
  cbn [all_chars]. rewrite all_chars_app, (escaped_printable body Hb). reflexivity.
Qed.

Lemma str_of_Z_printable (z : Z) : all_chars printable_char (str_of_Z z) = true.
Proof.
  assert (Hu : forall u, all_chars printable_char (NilEmpty.string_of_uint u) = true).
  { induction u; cbn [NilEmpty.string_of_uint all_chars]; rewrite ?IHu; reflexivity. }
  assert (Hz : forall u, all_chars printable_char (NilZero.string_of_uint u) = true).
  { intros u. destruct u; try apply Hu. reflexivity. }
  unfold str_of_Z. destruct (Z.to_int z); cbn [NilZero.string_of_int all_chars];
    now rewrite Hz.
Qed.

Lemma json_dumps_printable :
  (forall q, all_chars printable_char (py_repr (JFloat q)) = true) ->
  forall v, all_chars printable_char (json_dumps py_repr v) = true.
Proof.
  intros Hfloat.
  induction v as [|b|z|q|s|l IH|d IH] using json_induction; cbn [json_dumps].
  - reflexivity.
  - now destruct b.
  - apply str_of_Z_printable.
  - apply Hfloat.
  - apply json_string_printable.
  - cbn [String.append all_chars]. rewrite all_chars_app. cbn [all_chars].
    rewrite andb_true_r. apply join_all_chars; [reflexivity|].
    apply Forall_map. exact IH.
  - cbn [String.append all_chars]. rewrite all_chars_app. cbn [all_chars].
    rewrite andb_true_r. apply join_all_chars; [reflexivity|].
    apply Forall_map. eapply Forall_impl; [|exact IH].
    intros [k x] Hx. cbn [snd] in Hx. cbv beta iota.
    rewrite all_chars_app, json_string_printable. cbn [all_chars]. now rewrite Hx.
Qed.

(** X17.  The arrays handed to the page script (the round-figure array and
    the four pie-chart series) are printable ASCII whatever text the document
    holds, provided the interpreter's [repr] of a float is: no raw line
    break, no control character and no character outside ASCII reaches the
    script block through them. *)
Theorem embedded_arrays_are_ascii (d : list (string * json)) (now : string)
  (rep : report) (data' : json) :
  (forall q, all_chars printable_char (py_repr (JFloat q)) = true) ->
  generate_interactive_html py_repr counterparty_section (JDict d) now = Ok (rep, data') ->
  all_chars printable_char (round_js rep) = true
  /\ all_chars printable_char (credit_vals rep) = true
  /\ all_chars printable_char (credit_labels rep) = true
  /\ all_chars printable_char (debit_vals rep) = true
  /\ all_chars printable_char (debit_labels rep) = true.
Proof.
  intros Hfloat H. run_steps H.
  cbn [round_js credit_vals credit_labels debit_vals debit_labels].
  assert (Hseries : forall cats key dflt out,
             category_series py_repr cats key dflt = Ok out ->
             all_chars printable_char out = true).
  { intros cats key dflt out Hc. unfold category_series in Hc.
    destruct (truthy cats).
    - apply bind_ok in Hc as (l & _ & Hc). apply bind_ok in Hc as (vals & _ & Hc).
      injection Hc as <-. exact (json_dumps_printable Hfloat (JList vals)).
    - injection Hc as <-. exact (json_dumps_printable Hfloat (JList [])). }
  split; [|repeat split; eapply Hseries; eassumption].
  unfold round_js_of in E27.
  apply bind_ok in E27 as (l & _ & E27). apply bind_ok in E27 as (entries & _ & E27).
  injection E27 as <-. exact (json_dumps_printable Hfloat (JList entries)).
Qed.

Lemma prefix_split (n h : string) : prefix n h = true -> exists b, h = n +++ b.
Proof.
  revert h. induction n as [|c n IH]; intros h H.
  - now exists h.
  - destruct h as [|c' h]; [discriminate|]. cbn [prefix] in H.
    destruct (ascii_dec c c') as [<-|]; [|discriminate].
    destruct (IH h H) as (b & ->). now exists b.
Qed.

Lemma is_substring_split (n h : string) :
  is_substring n h = true -> exists a b, h = a +++ n +++ b.
Proof.
  induction h as [|c h IH]; cbn [is_substring]; intros H.
  - rewrite orb_false_r in H. apply prefix_split in H as (b & ->). now exists "", b.
  - apply orb_true_iff in H as [H|H].
    + apply prefix_split in H as (b & ->). now exists "", b.
    + destruct (IH H) as (a & b & ->). now exists (String c a), b.
Qed.

Lemma is_substring_inside (n h a b : string) :
  is_substring n h = true -> is_substring n (a +++ h +++ b) = true.
Proof.
  intros H. apply is_substring_split in H as (a' & b' & ->).
  replace (a +++ (a' +++ n +++ b') +++ b) with ((a +++ a') +++ n +++ (b' +++ b))
    by now rewrite !append_assoc.
  apply is_substring_app.
Qed.

Lemma is_substring_join (n sep x : string) (l : list string) :
  In x l -> is_substring n x = true -> is_substring n (join sep l) = true.
Proof.
  intros Hin Hx. induction l as [|y l IH]; [contradiction|].
  destruct l as [|y' l].
  - destruct Hin as [->|[]]. exact Hx.
  - rewrite join_cons. destruct Hin as [->|Hin].
    + apply (is_substring_inside n x "" (sep +++ join sep (y' :: l)) Hx).
    + rewrite <- (append_nil_r (join sep (y' :: l))).
      rewrite <- append_assoc.
      apply (is_substring_inside n (join sep (y' :: l)) (y +++ sep) ""). now apply IH.
Qed.

Lemma plain_char_verbatim (c : ascii) :
  plain_char c = true ->
  is_ascii_char c = true /\ json_escape_char (String c EmptyString) = String c EmptyString.
Proof.
  intros H. destruct c as [[|] [|] [|] [|] [|] [|] [|] [|]];
    first [discriminate H | split; reflexivity].
Qed.

Lemma json_string_plain (s : string) :
  all_chars plain_char s = true ->
  json_string s = String dquote (s +++ String dquote EmptyString).
Proof.
  intros H. unfold json_string. cbn [String.append]. f_equal. f_equal.
  rewrite utf8_chars_ascii.
  2:{ apply all_chars_weaken with plain_char; [|exact H].
      intros c Hc. now apply plain_char_verbatim in Hc. }
  rewrite <- (string_of_list_ascii_of_string s) at 2.
  rewrite all_chars_forallb in H.
  induction (list_ascii_of_string s) as [|c l IH]; [reflexivity|].
  cbn [forallb] in H. apply andb_true_iff in H as [Hc Hl].
  cbn [map string_of_list_ascii]. rewrite concat_cons, (IH Hl).
  apply plain_char_verbatim in Hc as [_ ->]. reflexivity.
Qed.

(** X18.  [json.dumps] leaves printable ASCII text as it is, apart from
    the double quote and the backslash: the description of a round-figure
    transaction, markup such as a closing script tag included, is found
    unchanged in the array written into the script block. *)
Theorem description_reaches_script_unchanged (d : list (string * json)) (now : string)
  (rep : report) (data' : json) (txns : list json) (t : list (string * json))
  (s : string) :
  generate_interactive_html py_repr counterparty_section (JDict d) now = Ok (rep, data') ->
  round_txns rep = JList txns ->
  In (JDict t) txns ->
  lookup_or "description" t (JStr "") = JStr s ->
  all_chars plain_char s = true ->
  is_substring s (round_js rep) = true.
Proof.
  intros H Htx Hin Hdesc Hplain. run_steps H. cbn [round_txns round_js] in *.
  subst v26. unfold round_js_of in E27. cbn [py_iter bind] in E27.
  apply bind_ok in E27 as (entries & He & E27). injection E27 as <-.
  apply (map_result_ok_map _ spec_round_entry) in He; [|exact round_txn_entry_spec].
  subst entries. cbn [json_dumps].
  apply (is_substring_inside s _ "[" "]").
  apply is_substring_join with (json_dumps py_repr (spec_round_entry (JDict t))).
  { apply in_map, in_map, Hin. }
  unfold spec_round_entry. cbn [field json_dumps map]. rewrite Hdesc.
  apply (is_substring_inside s _ "{" "}").
  eapply is_substring_join; [right; left; reflexivity|].
  cbn [json_dumps]. rewrite (json_string_plain s Hplain).
  apply (is_substring_inside s s (json_string "desc" +++ ": " +++ String dquote "")
           (String dquote "")).
  clear. induction s as [|c s IH]; [reflexivity|].
  cbn [is_substring prefix]. destruct (ascii_dec c c); [|contradiction].
  assert (Hp : forall u, prefix u u = true).
  { clear. induction u as [|x u IHu]; [reflexivity|].
    cbn [prefix]. now destruct (ascii_dec x x). }
  now rewrite Hp.
Qed.

(** *** The tabs of the current family (lines 446, 531 and 753-755) *)

Lemma detect_sections_current (d : list (string * json)) (tag : string) :
  detect_schema_version (JDict d) = Ok tag ->
  truthy (lookup_or "recurring_payments" d (JDict []))
  || truthy (lookup_or "non_bank_financing" d (JDict [])) = true ->
  tag = "5.0".
Proof.
  unfold detect_schema_version. rewrite !py_get_dict. cbn [bind].
  rewrite <- !truthy_lookup_default. intros H Hs.
  apply bind_ok in H as (sv & _ & H). apply bind_ok in H as ([|] & _ & H);
    [now injection H as <-|].
  destruct (truthy (lookup_or "recurring_payments" d JNull)) eqn:Tr; cbn [bind] in H.
  - rewrite Tr in H. now injection H as <-.
  - cbn [orb] in Hs. rewrite Hs in H. now injection H as <-.
Qed.

(** X19.  The navigation button of the recurring-payments tab is written
    exactly when the tab is built, and so is the button of the non-bank
    tab; a report that has one of these two tabs is always labelled with the
    family tag "5.0" and scored out of 23 integrity points. *)
Theorem current_tabs_in_current_reports (d : list (string * json)) (now : string)
  (rep : report) (data' : json) :
  generate_interactive_html py_repr counterparty_section (JDict d) now = Ok (rep, data') ->
  (recurring_nav rep = "" <-> rec_payments rep = None)
  /\ (nonbank_nav rep = "" <-> unique_sources rep = None)
  /\ (rec_payments rep <> None \/ unique_sources rep <> None ->
      schema_version rep = "5.0" /\ max_integrity_points rep = 23).
Proof.
  intros H. run_steps H.
  cbn [recurring_nav nonbank_nav rec_payments unique_sources schema_version
       max_integrity_points].
  rewrite py_get_after_fold in E8, E9 by reflexivity.
  injection E8 as <-. injection E9 as <-.
  unfold recurring_nav_of, nonbank_nav_of.
  pose proof (detect_sections_current d v E) as Hfive.
  destruct (truthy (lookup_or "recurring_payments" d (JDict []))) eqn:Tr.
  - apply bind_ok in E35 as (x & _ & E35). injection E35 as <-. cbn [fst].
    specialize (Hfive eq_refl). subst v.
    split; [split; discriminate|].
    split; [|intros _; split; reflexivity].
    destruct (truthy (lookup_or "non_bank_financing" d (JDict []))).
    + apply bind_ok in E36 as (u & _ & E36). injection E36 as <-.
      split; discriminate.
    + injection E36 as <-. split; reflexivity.
  - injection E35 as <-. cbn [fst]. split; [split; reflexivity|].
    destruct (truthy (lookup_or "non_bank_financing" d (JDict []))).
    + apply bind_ok in E36 as (u & _ & E36). injection E36 as <-.
      specialize (Hfive eq_refl). subst v.
      split; [split; discriminate|]. intros _. split; reflexivity.
    + injection E36 as <-. split; [split; reflexivity|].
      intros [Hn|Hn]; now destruct Hn.
Qed.

End Run.

(** ** The series of the volatility chart (lines 357-383) *)

Section ChartSeries.

Variable py_repr : json -> string.
Variable py_int : string -> result Z.
Variable dict_slice_error : pyerr.

Lemma split_plain (w : string) :
  all_chars not_hyphen w = true -> py_split_char "-"%char w = [w].
Proof.
  induction w as [|c w IH]; [reflexivity|].
  cbn [all_chars py_split_char]. intros H. apply andb_true_iff in H as [Hc Hw].
  unfold not_hyphen in Hc. apply negb_true_iff in Hc. now rewrite Hc, IH.
Qed.

Lemma split_word (y r : string) :
  all_chars not_hyphen y = true ->
  py_split_char "-"%char (y +++ String "-"%char r) = y :: py_split_char "-"%char r.
Proof.
  induction y as [|c y IH]; [reflexivity|].
  cbn [all_chars String.append py_split_char]. intros H.
  apply andb_true_iff in H as [Hc Hy].
  unfold not_hyphen in Hc. apply negb_true_iff in Hc. now rewrite Hc, IH.
Qed.

Lemma py_index_spec {A : Type} (l : list A) (i : Z) (d : A) :
  l <> [] ->
  py_index l i
  = if (- Z.of_nat (length l) <=? i) && (i <? Z.of_nat (length l))
    then Ok (nth (Z.to_nat (i mod Z.of_nat (length l))) l d)
    else Raise IndexError.
Proof.
  intros Hne. unfold py_index.
  assert (Hn : 0 < Z.of_nat (length l)) by (destruct l; [contradiction | simpl; lia]).
  set (n := Z.of_nat (length l)) in *.
  destruct (i <? 0) eqn:Ei.
  - apply Z.ltb_lt in Ei.
    destruct (- n <=? i) eqn:El.
    + apply Z.leb_le in El.
      assert (E1 : (0 <=? i + n) = true) by (apply Z.leb_le; lia).
      assert (E2 : (i + n <? n) = true) by (apply Z.ltb_lt; lia).
      assert (E3 : (i <? n) = true) by (apply Z.ltb_lt; lia).
      rewrite E1, E2, E3. cbn [andb].
      assert (Em : i mod n = i + n).
      { symmetry. apply (Z.mod_unique i n (-1) (i + n)); lia. }
      rewrite Em.
      destruct (nth_error l (Z.to_nat (i + n))) as [x|] eqn:Ex.
      * now rewrite (nth_error_nth l _ d Ex).
      * apply nth_error_None in Ex. lia.
    + apply Z.leb_gt in El.
      assert (E1 : (0 <=? i + n) = false) by (apply Z.leb_gt; lia).
      now rewrite E1.
  - apply Z.ltb_ge in Ei.
    assert (E1 : (0 <=? i) = true) by (apply Z.leb_le; lia).
    assert (E0 : (- n <=? i) = true) by (apply Z.leb_le; lia).
    rewrite E1, E0. cbn [andb].
    destruct (i <? n) eqn:E2; [|reflexivity].
    apply Z.ltb_lt in E2. rewrite Z.mod_small by lia.
    destruct (nth_error l (Z.to_nat i)) as [x|] eqn:Ex.
    + now rewrite (nth_error_nth l _ d Ex).
    + apply nth_error_None in Ex. lia.
Qed.

(** X20.  A month written "YYYY-MM" (or "YYYY-MM-DD") is labelled on the
    volatility chart with the name of month number MM and the year of the
    report (the first four characters of [period_start], "2024" when there
    is no [period_start]), not the year YYYY of the month itself, and
    whatever [month_name] says.  The month number indexes the list of the
    twelve names less one, so a number from -11 to 0 counts from the end of
    the list (00 gives "Dec") and any other number outside 1..12 raises
    IndexError. *)
Theorem month_label_from_number (period_start period_year : json)
  (md : list (string * json)) (y mm tail : string) (n : Z) :
  period_year_of dict_slice_error period_start = Ok period_year ->
  lookup_or "month" md (JStr "") = JStr (y +++ "-" +++ mm +++ tail) ->
  all_chars not_hyphen y = true ->
  all_chars not_hyphen mm = true ->
  tail = "" \/ (exists t, tail = String "-"%char t) ->
  py_int mm = Ok n ->
  fixed_label py_repr py_int period_year (JDict md)
  = (if (-11 <=? n) && (n <=? 12)
     then Ok (JStr (nth (Z.to_nat ((n - 1) mod 12)) month_names_list ""
                    +++ " " +++ py_str py_repr period_year))
     else Raise IndexError)
  /\ (forall s, period_start = JStr s -> s <> "" ->
                 period_year = JStr (String.concat "" (firstn 4 (utf8_chars s))))
  /\ (truthy period_start = false -> period_year = JStr "2024").
Proof.
  intros Hyear Hm Hy Hmm Htail Hint. split; [|split].
  2:{ intros s -> Hs. unfold period_year_of in Hyear.
      assert (Ht : truthy (JStr s) = true).
      { cbn [truthy]. apply negb_true_iff. now apply String.eqb_neq. }
      rewrite Ht in Hyear. now injection Hyear as <-. }
  2:{ intros Hf. unfold period_year_of in Hyear. rewrite Hf in Hyear.
      now injection Hyear as <-. }
  clear Hyear. unfold fixed_label.
  rewrite !py_get_dict, Hm. cbn [bind].
  assert (Ht : truthy (JStr (y +++ "-" +++ mm +++ tail)) = true).
  { cbn [truthy]. now destruct y. }
  rewrite Ht. cbn [py_contains_str bind].
  rewrite (is_substring_app "-" y (mm +++ tail)). cbn [bind].
  assert (Hparts : exists rest,
             py_split_char "-"%char (y +++ "-" +++ mm +++ tail) = y :: mm :: rest).
  { change (y +++ "-" +++ mm +++ tail) with (y +++ String "-"%char (mm +++ tail)).
    rewrite (split_word y _ Hy).
    destruct Htail as [-> | (t & ->)].
    - rewrite append_nil_r, (split_plain mm Hmm). now exists [].
    - rewrite (split_word mm _ Hmm). eauto. }
  destruct Hparts as (rest & ->).
  assert (Hlen : (1 <? Z.of_nat (length (y :: mm :: rest))) = true).
  { apply Z.ltb_lt. cbn [length]. lia. }
  rewrite Hlen. cbn [nth_error]. rewrite Hint. cbn [bind].
  rewrite (py_index_spec month_names_list (n - 1) "") by discriminate.
  change (Z.of_nat (length month_names_list)) with 12. cbn [Z.opp].
  assert (Hrange : ((-12 <=? n - 1) && (n - 1 <? 12)) = ((-11 <=? n) && (n <=? 12))).
  { destruct (Z.leb_spec (-12) (n - 1)), (Z.ltb_spec (n - 1) 12),
      (Z.leb_spec (-11) n), (Z.leb_spec n 12); cbn [andb]; try reflexivity; lia. }
  rewrite Hrange. now destruct ((-11 <=? n) && (n <=? 12)).
Qed.

Lemma map_result_nth {A B : Type} (f : A -> result B) (xs : list A) (ys : list B) :
  map_result f xs = Ok ys ->
  length ys = length xs
  /\ forall i y, nth_error ys i = Some y ->
                 exists x, nth_error xs i = Some x /\ f x = Ok y.
Proof.
  revert ys. induction xs as [|x xs IH]; intros ys H; simpl in H.
  - injection H as <-. split; [reflexivity|]. intros [|i] y; discriminate.
  - apply bind_ok in H as (y0 & Hy0 & H). apply bind_ok in H as (ys' & Hys & H).
    injection H as <-. destruct (IH ys' Hys) as [Hl Hn].
    split; [simpl; now rewrite Hl|].
    intros [|i] y Hi; simpl in Hi.
    + injection Hi as <-. now exists x.
    + now apply Hn.
Qed.

Lemma enumerate_nth {A : Type} (l : list A) (i j : nat) (x : A) :
  nth_error (enumerate l) i = Some (j, x) -> j = i /\ nth_error l i = Some x.
Proof.
  unfold enumerate.
  assert (H : forall s i, nth_error (combine (seq s (length l)) l) i = Some (j, x) ->
                          j = (s + i)%nat /\ nth_error l i = Some x).
  { clear i. induction l as [|a l IH]; intros s i Hi; [now destruct i|].
    cbn [length seq combine] in Hi. destruct i as [|i]; cbn [nth_error] in Hi |- *.
    - injection Hi as <- <-. split; [lia | reflexivity].
    - apply IH in Hi as [-> Hi]. split; [lia | exact Hi]. }
  intros Hi. now apply H in Hi.
Qed.

(** X21.  The volatility chart gets one series per account, in the order of
    the accounts.  In each series the labels and the values are aligned:
    both lists have one element per monthly entry of the account; the series
    is named after the bank, and its colour is fixed by its position (the
    first two accounts have colours of their own, all later ones share the
    third). *)
Theorem chart_series_aligned (period_start : json) (accs series : list json) :
  vol_data_of py_repr py_int dict_slice_error period_start (JList accs)
  = Ok (JList series) ->
  length series = length accs
  /\ forall i s, nth_error series i = Some s ->
       exists a months xs ys,
         nth_error accs i = Some a
         /\ py_iter (field a "monthly_summary" (JList [])) = Ok months
         /\ field s "x" JNull = JList xs
         /\ field s "y" JNull = JList ys
         /\ length xs = length months
         /\ length ys = length months
         /\ field s "name" JNull = field a "bank_name" (JStr "")
         /\ field (field s "marker" JNull) "color" JNull = JStr (series_color i).
Proof.
  unfold vol_data_of. intros H.
  apply bind_ok in H as (py & _ & H). cbn [py_iter bind] in H.
  apply bind_ok in H as (ser & Hser & H). injection H as <-.
  apply map_result_nth in Hser as [Hlen Hnth].
  split.
  { rewrite Hlen. unfold enumerate. rewrite length_combine, length_seq. lia. }
  intros i s Hi. destruct (Hnth i s Hi) as ([j a] & Hja & Hs).
  apply enumerate_nth in Hja as [-> Ha]. cbn [fst snd] in Hs.
  unfold vol_series in Hs.
  apply bind_ok in Hs as (monthly & Hm & Hs). apply py_get_ok in Hm as (ad & -> & ->).
  apply bind_ok in Hs as (months & Hmonths & Hs).
  apply bind_ok in Hs as (xs & Hxs & Hs).
  apply bind_ok in Hs as (ys & Hys & Hs).
  rewrite py_get_dict in Hs. cbn [bind] in Hs. injection Hs as <-.
  apply map_result_nth in Hxs as [Hxl _]. apply map_result_nth in Hys as [Hyl _].
  exists (JDict ad), months, xs, ys. cbn [field]. repeat split; assumption.
Qed.

End ChartSeries.

(** ** The account cards (lines 133-152) *)

Section AccountCards.

Variable py_repr : json -> string.
Variable float_grouped : Q -> string.

Lemma format_grouped_2f_ok (v : json) :
  (exists s, format_grouped_2f v = Ok s) <-> writable_amount v = true.
Proof.
  destruct v as [|b|z|q|s|l|d]; cbn [format_grouped_2f writable_amount];
    try (split; [intros (s' & H); discriminate H | discriminate]).
  - split; [reflexivity | eauto].
  - destruct (float_of_int z); split; eauto; try discriminate.
    intros (s & H). discriminate H.
  - split; [reflexivity | eauto].
Qed.

Lemma format_grouped_ok (v : json) :
  (exists s, format_grouped float_grouped v = Ok s) <-> is_number v = true.
Proof.
  destruct v as [|b|z|q|s|l|d]; cbn [format_grouped is_number];
    try (split; [intros (s' & H); discriminate H | discriminate]);
    split; eauto.
Qed.

Lemma writable_compares (v : json) (n : Z) :
  writable_amount v = true -> exists b, py_lt_int v n = Ok b.
Proof.
  destruct v; try discriminate; intros _; unfold py_lt_int; cbn [num_value]; eauto.
Qed.

Lemma acc_card_ok (a : json) :
  (exists card, acc_card py_repr float_grouped a = Ok card) <-> card_ready a = true.
Proof.
  split.
  - intros (card & H). unfold acc_card in H.
    apply bind_ok in H as (cls & Hcls & H). apply py_get_ok in Hcls as (ad & -> & _).
    rewrite !py_get_dict in H. cbn [bind] in H. cbv zeta in H.
    apply bind_ok in H as (low & _ & H).
    apply bind_ok in H as (credits & Hc & H).
    apply bind_ok in H as (debits & Hd & H).
    apply bind_ok in H as (count & Hn & H).
    apply bind_ok in H as (closing & Hb & _).
    cbn [card_ready].
    rewrite (proj1 (format_grouped_2f_ok _) (ex_intro _ _ Hc)),
      (proj1 (format_grouped_2f_ok _) (ex_intro _ _ Hd)),
      (proj1 (format_grouped_2f_ok _) (ex_intro _ _ Hb)),
      (proj1 (format_grouped_ok _) (ex_intro _ _ Hn)).
    reflexivity.
  - destruct a as [| | | | | |ad]; try discriminate. cbn [card_ready]. intros H.
    apply andb_true_iff in H as [H Hn]. apply andb_true_iff in H as [H Hd].
    apply andb_true_iff in H as [Hb Hc].
    unfold acc_card. rewrite !py_get_dict. cbn [bind]. cbv zeta.
    destruct (writable_compares _ 20000 Hb) as (low & ->).
    apply format_grouped_2f_ok in Hb as (closing & ->).
    apply format_grouped_2f_ok in Hc as (credits & ->).
    apply format_grouped_2f_ok in Hd as (debits & ->).
    apply format_grouped_ok in Hn as (count & ->).
    cbn [bind]. eauto.
Qed.

(** X22.  The account cards can be written exactly when every account is
    keyed and its [closing_balance], [total_credits], [total_debits] and
    [transaction_count], where present, are numbers (an [int] amount within
    the range of [float]): the defaults of [get] cover an absent field only,
    so a field that is present and null, a string or a list makes the run
    raise. *)
Theorem account_cards_need_numbers (accs : list json) :
  (exists html, acc_cards_of py_repr float_grouped (JList accs) = Ok html)
  <-> forallb card_ready accs = true.
Proof.
  unfold acc_cards_of. cbn [py_iter bind].
  generalize "". induction accs as [|a accs IH]; intros acc; cbn [for_each forallb].
  - split; eauto.
  - split.
    + intros (html & H). apply bind_ok in H as (acc' & Hstep & H).
      apply bind_ok in Hstep as (card & Hcard & _).
      rewrite (proj1 (acc_card_ok a) (ex_intro _ _ Hcard)).
      apply (IH acc'). eauto.
    + intros H. apply andb_true_iff in H as [Ha Hrest].
      apply acc_card_ok in Ha as (card & ->). cbn [bind].
      now apply IH.
Qed.

End AccountCards.

(** ** The further properties at concrete documents *)

Lemma run_changes_three_fields_at_most_witness :
  exists rep data' d',
    generate_interactive_html no_repr no_section (JDict doc_in_place) clock_1
    = Ok (rep, data')
    /\ data' = JDict d'
    /\ map fst d' = map fst doc_in_place
    /\ (forall k, k <> "flags" -> k <> "volatility" -> k <> "recurring_payments" ->
                  dict_lookup k d' = dict_lookup k doc_in_place)
    /\ (forall j, j <> "round_figure_transactions" ->
                  field (lookup_or "flags" d' JNull) j JNull
                  = field (lookup_or "flags" doc_in_place JNull) j JNull)
    /\ (forall j, j <> "alerts" ->
                  field (lookup_or "volatility" d' JNull) j JNull
                  = field (lookup_or "volatility" doc_in_place JNull) j JNull)
    /\ (forall j, j <> "payment_types" ->
                  field (lookup_or "recurring_payments" d' JNull) j JNull
                  = field (lookup_or "recurring_payments" doc_in_place JNull) j JNull).
Proof.
  eexists. eexists.
  assert (Hrun : generate_interactive_html no_repr no_section (JDict doc_in_place) clock_1
                 = Ok (?[rep], ?[data'])) by (vm_compute; reflexivity).
  destruct (run_changes_three_fields_at_most no_repr no_section doc_in_place clock_1
              _ _ Hrun) as (d' & H).
  exists d'. split; [exact Hrun | exact H].
Defined.

Lemma review_items_feed_round_figures_witness :
  exists rep data',
    generate_interactive_html no_repr no_section (JDict doc_in_place) clock_1
    = Ok (rep, data')
    /\ round_js rep
       = json_dumps no_repr
           (JList [JDict [("date", JStr "2024-03-01"); ("desc", JStr "");
                          ("type", JStr "CREDIT"); ("amount", JInt 50000);
                          ("account", JStr "")]])
    /\ round_count rep = JInt 12.
Proof.
  eexists. eexists.
  assert (Hrun : generate_interactive_html no_repr no_section (JDict doc_in_place) clock_1
                 = Ok (?[rep], ?[data'])) by (vm_compute; reflexivity).
  split; [exact Hrun|].
  apply (review_items_feed_round_figures no_repr no_section doc_in_place clock_1
           _ _ _ Hrun eq_refl); [discriminate | reflexivity].
Defined.

Lemma payment_rows_in_fixed_order_witness :
  exists rep data',
    generate_interactive_html no_repr no_section (JDict doc_in_place) clock_1
    = Ok (rep, data')
    /\ rec_payments rep
       = Some (JList [JDict [("type", JStr "RENT"); ("expected_count", JInt 6);
                             ("found_count", JInt 5); ("missing_months", JList []);
                             ("status", JStr "MISSING")]]).
Proof.
  eexists. eexists.
  assert (Hrun : generate_interactive_html no_repr no_section (JDict doc_in_place) clock_1
                 = Ok (?[rep], ?[data'])) by (vm_compute; reflexivity).
  split; [exact Hrun|].
  apply (payment_rows_in_fixed_order no_repr no_section doc_in_place clock_1
           _ _ _ Hrun eq_refl); [discriminate | reflexivity ..].
Defined.

Lemma alerts_of_other_type_witness :
  vol_alerts_of no_repr (JDict [("alerts", JNull)]) (JList [account_alpha])
  = Raise AttributeError.
Proof.
  apply (alerts_of_other_type no_repr [("alerts", JNull)] JNull [account_alpha]);
    [reflexivity | reflexivity | discriminate | reflexivity].
Defined.

Lemma nonbank_rows_distinct_amounts_witness :
  exists rep data' sources,
    generate_interactive_html no_repr no_section (JDict doc_sample) clock_1
    = Ok (rep, data')
    /\ py_iter (field (lookup_or "non_bank_financing" doc_sample (JDict []))
                  "sources" (JList [])) = Ok sources
    /\ ForallOrdPairs (fun a b => py_eq_scalar (inflow_of a) (inflow_of b) = false)
         [source_A; source_C]
    /\ (forall u, In u [source_A; source_C] -> In u sources)
    /\ (forall s, In s sources ->
                  exists u, In u [source_A; source_C]
                            /\ py_eq_scalar (inflow_of s) (inflow_of u) = true).
Proof.
  eexists. eexists.
  assert (Hrun : generate_interactive_html no_repr no_section (JDict doc_sample) clock_1
                 = Ok (?[rep], ?[data'])) by (vm_compute; reflexivity).
  destruct (nonbank_rows_distinct_amounts no_repr no_section doc_sample clock_1
              _ _ [source_A; source_C] Hrun eq_refl) as (sources & H).
  exists sources. split; [exact Hrun | exact H].
Defined.

Lemma unhashable_inflow_raises_witness :
  unique_sources_of (JDict sources_with_list_inflow) = Raise TypeError.
Proof.
  now apply (unhashable_inflow_raises sources_with_list_inflow
               [source_A; JDict [("total_inflow", JList [JInt 100])]]).
Defined.

Lemma classification_reads_four_sections_witness :
  detect_schema_version (JDict doc_undeclared_kite)
  = detect_schema_version (JDict doc_undeclared).
Proof.
  apply classification_reads_four_sections.
  intros k [<-|[<-|[<-|[<-|[]]]]]; reflexivity.
Defined.

Lemma embedded_arrays_are_ascii_witness :
  exists rep data',
    generate_interactive_html no_repr no_section (JDict doc_sample) clock_1
    = Ok (rep, data')
    /\ all_chars printable_char (round_js rep) = true
    /\ all_chars printable_char (credit_vals rep) = true
    /\ all_chars printable_char (credit_labels rep) = true
    /\ all_chars printable_char (debit_vals rep) = true
    /\ all_chars printable_char (debit_labels rep) = true.
Proof.
  eexists. eexists.
  assert (Hrun : generate_interactive_html no_repr no_section (JDict doc_sample) clock_1
                 = Ok (?[rep], ?[data'])) by (vm_compute; reflexivity).
  split; [exact Hrun|].
  exact (embedded_arrays_are_ascii no_repr no_section doc_sample clock_1 _ _
           (fun _ => eq_refl) Hrun).
Defined.

Lemma description_reaches_script_unchanged_witness :
  exists rep data',
    generate_interactive_html no_repr no_section (JDict doc_script_text) clock_1
    = Ok (rep, data')
    /\ is_substring "</script><b>x</b>" (round_js rep) = true.
Proof.
  eexists. eexists.
  assert (Hrun : generate_interactive_html no_repr no_section (JDict doc_script_text)
                   clock_1
                 = Ok (?[rep], ?[data'])) by (vm_compute; reflexivity).
  split; [exact Hrun|].
  eapply (description_reaches_script_unchanged no_repr no_section doc_script_text clock_1
            _ _ _ _ "</script><b>x</b>" Hrun eq_refl);
    [left; reflexivity | reflexivity | reflexivity].
Defined.

Lemma month_label_from_number_witness :
  period_year_of TypeError (JStr "2024-07-01") = Ok (JStr "2024")
  /\ fixed_label no_repr int_of_digits (JStr "2024") (JDict month_march_2025)
     = Ok (JStr "Mar 2024").
Proof.
  split; [reflexivity|].
  apply (month_label_from_number no_repr int_of_digits TypeError
           (JStr "2024-07-01") (JStr "2024") month_march_2025 "2025" "03" "" 3);
    try reflexivity.
  now left.
Defined.

Lemma chart_series_aligned_witness :
  exists series,
    vol_data_of no_repr int_of_digits TypeError (JStr "2024-01-01") (JList [account_alpha])
    = Ok (JList series)
    /\ length series = 1%nat
    /\ forall i s, nth_error series i = Some s ->
         exists a months xs ys,
           nth_error [account_alpha] i = Some a
           /\ py_iter (field a "monthly_summary" (JList [])) = Ok months
           /\ field s "x" JNull = JList xs
           /\ field s "y" JNull = JList ys
           /\ length xs = length months
           /\ length ys = length months
           /\ field s "name" JNull = field a "bank_name" (JStr "")
           /\ field (field s "marker" JNull) "color" JNull = JStr (series_color i).
Proof.
  eexists.
  assert (Hrun : vol_data_of no_repr int_of_digits TypeError (JStr "2024-01-01")
                   (JList [account_alpha])
                 = Ok (JList ?[series])) by (vm_compute; reflexivity).
  split; [exact Hrun|].
  exact (chart_series_aligned no_repr int_of_digits TypeError _ _ _ Hrun).
Defined.

Lemma account_cards_need_numbers_witness :
  (exists html, acc_cards_of no_repr no_float_grouped (JList [account_alpha]) = Ok html)
  /\ ~ (exists html,
          acc_cards_of no_repr no_float_grouped
            (JList [JDict [("closing_balance", JNull)]]) = Ok html).
Proof.
  split.
  - now apply (proj2 (account_cards_need_numbers no_repr no_float_grouped [account_alpha])).
  - intros H.
    apply (proj1 (account_cards_need_numbers no_repr no_float_grouped
                    [JDict [("closing_balance", JNull)]])) in H.
    discriminate H.
Defined.

Lemma current_tabs_in_current_reports_witness :
  exists rep data',
    generate_interactive_html no_repr no_section (JDict doc_in_place) clock_1
    = Ok (rep, data')
    /\ (recurring_nav rep = "" <-> rec_payments rep = None)
    /\ (nonbank_nav rep = "" <-> unique_sources rep = None)
    /\ (rec_payments rep <> None \/ unique_sources rep <> None ->
        schema_version rep = "5.0" /\ max_integrity_points rep = 23).
Proof.
  eexists. eexists.
  assert (Hrun : generate_interactive_html no_repr no_section (JDict doc_in_place) clock_1
                 = Ok (?[rep], ?[data'])) by (vm_compute; reflexivity).
  split; [exact Hrun|].
  exact (current_tabs_in_current_reports no_repr no_section doc_in_place clock_1 _ _ Hrun).
Defined.
